(** * Verification of [container_service_extension/broker_manager.py]

    A shallow embedding of the [BrokerManager] dispatcher: the request
    dictionaries are finite maps, the collaborators the module imports
    (the vCD client, the ovdc cache, the PKS cache, the two brokers) are
    an interface whose answers are given by an environment, and every
    method of the class is a computation in a small monad that records
    the calls made to those collaborators and may raise an exception.

    Conventions of the embedding:
    - an answer of a collaborator is a function of the call: within one
      request the same call gets the same answer;
    - exceptions are the instances of [Exception], which is what
      [except Exception] catches;
    - strings are sequences of bytes; [str.lower] is computed on the
      strings of ASCII characters, where it lowers the letters [A] to
      [Z], and on the other strings it is the lower-casing of the
      Python runtime, which the environment gives;
    - the constants of [ovdc_cache] ([CONTAINER_PROVIDER_KEY] and the
      values of [CtrProvType]) are parameters of the environment. *)

From Stdlib Require Import ZArith Ascii String List DecimalString.
From stdpp Require Import base option list gmap strings.

Local Open Scope string_scope.
Local Open Scope Z_scope.
Local Open Scope list_scope.

(** ** Python values and dictionaries *)

(** The scalar values that travel in request bodies, query parameters,
    contexts and cluster records. *)
Inductive value : Type :=
| VNone
| VStr (s : string)
| VInt (z : Z).

#[global] Instance value_eq_dec : EqDecision value.
Proof. solve_decision. Defined.

(** A [dict] with string keys. *)
Abbreviation dict := (gmap string value).

(** Truth value testing: [None], [''] and [0] are false. *)
Definition truthy (v : value) : bool :=
  match v with
  | VNone => false
  | VStr s => negb (bool_decide (s = ""))
  | VInt z => negb (bool_decide (z = 0))
  end.

(** [a or b]. *)
Definition py_or (a b : value) : value := if truthy a then a else b.

(** [d.get(k)] and [d.get(k, default)]. *)
Definition dict_get (d : dict) (k : string) : value := default VNone (d !! k).
Definition dict_get_default (d : dict) (k : string) (dflt : value) : value :=
  default dflt (d !! k).

(** Truth value of a dictionary: empty is false. *)
Definition dict_truthy (d : dict) : bool := negb (bool_decide (d = ∅)).

(** [{k: f(k) for k in keys}]. *)
Definition dict_comprehension (keys : list string) (f : string → value) : dict :=
  foldl (λ d k, <[k := f k]> d) ∅ keys.

(** [str(v)], as used by f-strings. *)
Definition str_of_value (v : value) : string :=
  match v with
  | VNone => "None"
  | VStr s => s
  | VInt z => NilZero.string_of_int (Z.to_int z)
  end.

(** ** String operations *)

(** [str.lower] on a string of ASCII characters: the letters [A] to
    [Z] are lowered, the other characters are kept. *)
Definition lower_ascii (c : ascii) : ascii :=
  let n := nat_of_ascii c in
  if ((65 <=? n)%nat && (n <=? 90)%nat)%bool then ascii_of_nat (n + 32) else c.

Fixpoint ascii_lower (s : string) : string :=
  match s with
  | EmptyString => EmptyString
  | String c s' => String (lower_ascii c) (ascii_lower s')
  end.

(** [s.isascii()] *)
Fixpoint is_ascii (s : string) : bool :=
  match s with
  | EmptyString => true
  | String c s' => (nat_of_ascii c <? 128)%nat && is_ascii s'
  end.

(** [s.split('--')]: scan from the left, cut at every occurrence of two
    dashes, occurrences do not overlap. *)
Fixpoint split_dashes (s : string) : list string :=
  match s with
  | EmptyString => [EmptyString]
  | String c s' =>
      let keep :=
        match split_dashes s' with
        | seg :: segs => String c seg :: segs
        | [] => [String c EmptyString]
        end in
      match s' with
      | String c' rest =>
          if (Ascii.eqb c "-" && Ascii.eqb c' "-")%bool
          then EmptyString :: split_dashes rest
          else keep
      | EmptyString => keep
      end
  end.

(** [l[-1]] of a list of strings ([split] never returns an empty list). *)
Definition last_segment (l : list string) : string := List.last l "".

(** ['--'.join(l)]. *)
Fixpoint join_dashes (l : list string) : string :=
  match l with
  | [] => ""
  | [s] => s
  | s :: rest => s +:+ "--" +:+ join_dashes rest
  end.

(** [True] when ['--' in s]. *)
Fixpoint has_dashes (s : string) : bool :=
  match s with
  | EmptyString => false
  | String c s' =>
      match s' with
      | String c' _ => (Ascii.eqb c "-" && Ascii.eqb c' "-") || has_dashes s'
      | EmptyString => false
      end
  end.

(** ** Exceptions *)

(** The instances of [Exception] that the module raises or that its
    collaborators may raise. *)
Inductive exn : Type :=
| ClusterNotFoundError (msg : string)
| CseServerError (msg : string)
| PksServerError (status : Z) (body : string)
| KeyError (key : string)
| AttributeError (attr : string)
| OtherException (descr : string).

#[global] Instance exn_eq_dec : EqDecision exn.
Proof. solve_decision. Defined.

(** [HTTPStatus.CONFLICT.value] *)
Definition HTTPStatus_CONFLICT : Z := 409.

(** ** Objects handed around by the collaborators *)

(** An organisation resource of the vCD client. *)
Record OrgResource : Type := { org_href : string }.

(** An org VDC object of the ovdc cache; [ovdc.resource.get(...)]
    reads an attribute of its resource. *)
Record Ovdc : Type := { resource : dict }.

(** The PKS account record of the PKS cache (a named tuple). *)
Record PksAccountInfo : Type := { account_fields : dict }.

(** The provider VDC record of the PKS cache; [pvdc_info.vc] is its
    vCenter name. *)
Record PvdcInfo : Type := { vc : value; pvdc_fields : dict }.

#[global] Instance OrgResource_eq_dec : EqDecision OrgResource.
Proof. solve_decision. Defined.
#[global] Instance Ovdc_eq_dec : EqDecision Ovdc.
Proof. solve_decision. Defined.
#[global] Instance PksAccountInfo_eq_dec : EqDecision PksAccountInfo.
Proof. solve_decision. Defined.
#[global] Instance PvdcInfo_eq_dec : EqDecision PvdcInfo.
Proof. solve_decision. Defined.

(** Keyword arguments of [get_ovdc_container_provider_metadata]; an
    argument that a call site does not pass is [VNone] or [false]. *)
Record metadata_query : Type := {
  q_ovdc_name : value;
  q_ovdc_id : value;
  q_org_name : value;
  q_credentials_required : bool;
  q_nsxt_info_required : bool
}.

(** Arguments of [OvdcCache.construct_pks_context]; [None] is an
    argument that the call site does not pass. *)
Record pks_context_args : Type := {
  a_pks_account_info : PksAccountInfo;
  a_pvdc_info : option PvdcInfo;
  a_nsxt_info : option dict;
  a_pks_compute_profile_name : option value;
  a_pks_plans : option value;
  a_credentials_required : bool
}.

#[global] Instance metadata_query_eq_dec : EqDecision metadata_query.
Proof. solve_decision. Defined.
#[global] Instance pks_context_args_eq_dec : EqDecision pks_context_args.
Proof. solve_decision. Defined.

(** ** Brokers *)

(** A broker object is determined by the arguments of its constructor:
    [VcdBroker(headers, spec)] and [PKSBroker(headers, spec, pks_ctx)]. *)
Inductive broker : Type :=
| VcdBroker (request_headers request_spec : dict)
| PKSBroker (request_headers request_spec : dict) (pks_ctx : dict).

#[global] Instance broker_eq_dec : EqDecision broker.
Proof. solve_decision. Defined.

(** What a broker returns from an operation whose result the manager
    only passes on. *)
Inductive response : Type :=
| RValue (v : value)
| RDict (d : dict)
| RList (l : list dict).

(** ** Calls to the collaborators *)

Inductive broker_call : Type :=
| GetClusterInfo (cluster_name : value)
| ListClusters
| CreateCluster (cluster_spec : dict)
| ResizeCluster (curr_cluster_info : dict) (cluster_spec : dict)
| DeleteCluster (cluster_name : value)
| GetClusterConfig (cluster_name : value)
| CreateComputeProfile (compute_profile_params : dict).

Inductive vcd_client_call : Type :=
| IsSysadmin
| GetOrgList
| GetOrg
| OrgChildren (org_resource : OrgResource)
| OrgListVdcs (org_resource : OrgResource)
| OrgGetName (org_resource : OrgResource).

Inductive ovdc_cache_call : Type :=
| GetOvdcContainerProviderMetadata (q : metadata_query)
| SetOvdcContainerProviderMetadata
    (ovdc : Ovdc) (container_prov_data : option dict) (container_provider : value)
| GetOvdc (ovdc_id : value)
| GetPvdcId (ovdc : Ovdc)
| GetComputeProfileName (ovdc_id ovdc_name : value)
| ConstructPksContext (args : pks_context_args).

Inductive pks_cache_call : Type :=
| GetAllPksAccountInfoInSystem
| DoOrgsHaveExclusivePksAccount
| GetExclusivePksAccountsInfoForOrg (org_name : value)
| GetPvdcInfo (pvdc_id : value)
| GetPksAccountInfo (org_name vc_name : value)
| GetNsxtInfo (vc_name : value).

(** The [LOGGER.debug] lines of the module, with the values that their
    f-strings interpolate. *)
Inductive log_msg : Type :=
| LogGetClusterInfoFailedOnVcd (cluster_name : value) (err : exn)
| LogGetClusterInfoFailedOnPks (cluster_name : value) (host : value) (err : exn)
| LogOrgAndVdc (org_name ovdc_name : value)
| LogOvdcMetadata (ovdc_name org_name : value) (ctr_prov_ctx : dict)
| LogCreatingComputeProfile (pks_compute_profile_name : value)
| LogComputeProfileExists (pks_compute_profile_name : value) (ex : exn).

Inductive event : Type :=
| EBroker (b : broker) (c : broker_call)
| EVcdClient (c : vcd_client_call)
| EOvdcCache (c : ovdc_cache_call)
| EPksCache (c : pks_cache_call)
| ELog (m : log_msg).

#[global] Instance broker_call_eq_dec : EqDecision broker_call.
Proof. solve_decision. Defined.
#[global] Instance vcd_client_call_eq_dec : EqDecision vcd_client_call.
Proof. solve_decision. Defined.
#[global] Instance ovdc_cache_call_eq_dec : EqDecision ovdc_cache_call.
Proof. solve_decision. Defined.
#[global] Instance pks_cache_call_eq_dec : EqDecision pks_cache_call.
Proof. solve_decision. Defined.
#[global] Instance log_msg_eq_dec : EqDecision log_msg.
Proof. solve_decision. Defined.
#[global] Instance event_eq_dec : EqDecision event.
Proof. solve_decision. Defined.

(** ** The environment: what the collaborators answer *)

(** The methods of the object returned by [get_pks_cache()]. *)
Record PksCache : Type := {
  on_get_all_pks_account_info_in_system : exn + list PksAccountInfo;
  on_do_orgs_have_exclusive_pks_account : exn + bool;
  on_get_exclusive_pks_accounts_info_for_org : value → exn + list PksAccountInfo;
  on_get_pvdc_info : value → exn + PvdcInfo;
  on_get_pks_account_info : value → value → exn + PksAccountInfo;
  on_get_nsxt_info : value → exn + dict
}.

(** Everything the module imports: the constants of [ovdc_cache], and
    the answer of every collaborator to every call (a result or an
    exception). *)
Class Env : Type := {
  CONTAINER_PROVIDER_KEY : string;
  CtrProvType_VCD : string;
  CtrProvType_PKS : string;
  (* utils *)
  get_pks_cache : option PksCache;
  (* the vCD client and pyvcloud's Org *)
  on_is_sysadmin : exn + bool;
  on_get_org_list : exn + list OrgResource;
  on_get_org : exn + OrgResource;
  on_org_children : OrgResource → exn + list OrgResource;
  on_org_list_vdcs : OrgResource → exn + list dict;
  on_org_get_name : OrgResource → exn + value;
  (* OvdcCache *)
  on_get_ovdc_container_provider_metadata : metadata_query → exn + dict;
  on_set_ovdc_container_provider_metadata :
    Ovdc → option dict → value → exn + dict;
  on_get_ovdc : value → exn + Ovdc;
  on_get_pvdc_id : Ovdc → exn + value;
  on_get_compute_profile_name : value → value → exn + value;
  on_construct_pks_context : pks_context_args → exn + dict;
  (* the brokers *)
  on_get_cluster_info : broker → value → exn + dict;
  on_list_clusters : broker → exn + list dict;
  on_create_cluster : broker → dict → exn + response;
  on_resize_cluster : broker → dict → dict → exn + response;
  on_delete_cluster : broker → value → exn + response;
  on_get_cluster_config : broker → value → exn + response;
  on_create_compute_profile : broker → dict → exn + unit;
  (* the Python runtime: [str.lower] on a string that has characters
     beyond ASCII, the lower-casing of the Unicode database *)
  unicode_lower : string → string
}.

(** [s.lower()] *)
Definition lower `{Env} (s : string) : string :=
  if is_ascii s then ascii_lower s else unicode_lower s.

(** ** The monad of the embedding *)

(** A computation yields the calls and log lines it produced, in
    order, and a result or the exception that ended it. *)
Definition M (A : Type) : Type := list event * (exn + A).

#[global] Instance M_ret : MRet M := λ A a, ([], inr a).

#[global] Instance M_bind : MBind M := λ A B f m,
  match m with
  | (t, inl e) => (t, inl e)
  | (t, inr a) => let '(t', r) := f a in (t ++ t', r)
  end.

(** [raise e] *)
Definition raise {A} (e : exn) : M A := ([], inl e).

(** A call to a collaborator: it is recorded and gives the
    environment's answer. *)
Definition call {A} (ev : event) (answer : exn + A) : M A := ([ev], answer).

(** [LOGGER.debug(...)] *)
Definition log_debug (m : log_msg) : M unit := ([ELog m], inr tt).

(** [try: body except Exception as err: handler(err)] *)
Definition try_except {A} (body : M A) (handler : exn → M A) : M A :=
  match body with
  | (t, inl err) => let '(t', r) := handler err in (t ++ t', r)
  | (t, inr a) => (t, inr a)
  end.

(** [d[k]], raising [KeyError] *)
Definition dict_getitem (d : dict) (k : string) : M value :=
  match d !! k with
  | Some v => mret v
  | None => raise (KeyError k)
  end.

(** A list comprehension or [for] loop that collects one result per
    element. *)
Fixpoint for_each {A B} (f : A → M B) (l : list A) : M (list B) :=
  match l with
  | [] => mret []
  | x :: rest => y ← f x; ys ← for_each f rest; mret (y :: ys)
  end.

Definition trace {A} (m : M A) : list event := m.1.
Definition outcome {A} (m : M A) : exn + A := m.2.

(** [str.lower()] and [str.split('--')] on a value: only a string has
    these methods. *)
Definition str_lower `{Env} (v : value) : M string :=
  match v with
  | VStr s => mret (lower s)
  | _ => raise (AttributeError "lower")
  end.

Definition str_split_dashes (v : value) : M (list string) :=
  match v with
  | VStr s => mret (split_dashes s)
  | _ => raise (AttributeError "split")
  end.

(** A Python [dict] whose order of insertion is observed: assigning to
    a key that is present replaces its value in place, a new key goes
    to the end. *)
Fixpoint pydict_setitem {K V} `{EqDecision K}
    (d : list (K * V)) (k : K) (v : V) : list (K * V) :=
  match d with
  | [] => [(k, v)]
  | (k', v') :: rest =>
      if decide (k' = k) then (k', v) :: rest
      else (k', v') :: pydict_setitem rest k v
  end.

(** [list(d.values())] *)
Definition pydict_values {K V} (d : list (K * V)) : list V := map snd d.

(** ** The operations and the manager object *)

Inductive Operation : Type :=
| CREATE_CLUSTER
| DELETE_CLUSTER
| GET_CLUSTER
| LIST_CLUSTERS
| RESIZE_CLUSTER
| LIST_OVDCS
| ENABLE_OVDC
| INFO_OVDC
| GET_CLUSTER_CONFIG.

(** The status constants [OK] and [ACCEPTED] of [utils]. *)
Inductive status : Type := OK | ACCEPTED.

(** The response built by [invoke]. *)
Record result : Type := { body : response; status_code : status }.

(** The attributes of a [BrokerManager] that belong to the request;
    the caches and the client are in the environment. *)
Record BrokerManager : Type := {
  req_headers : dict;
  req_qparams : dict;
  req_spec : dict;
  session : dict;
  is_ovdc_present_in_request : value
}.

Definition common_cluster_properties : list string := ["name"; "vdc"; "status"].

Section Manager.
Context `{Env}.

(** *** Calls through the interfaces *)

Definition broker_get_cluster_info (b : broker) (cluster_name : value) : M dict :=
  call (EBroker b (GetClusterInfo cluster_name)) (on_get_cluster_info b cluster_name).
Definition broker_list_clusters (b : broker) : M (list dict) :=
  call (EBroker b ListClusters) (on_list_clusters b).
Definition broker_create_cluster (b : broker) (cluster_spec : dict) : M response :=
  call (EBroker b (CreateCluster cluster_spec)) (on_create_cluster b cluster_spec).
Definition broker_resize_cluster (b : broker) (curr_cluster_info cluster_spec : dict)
    : M response :=
  call (EBroker b (ResizeCluster curr_cluster_info cluster_spec))
       (on_resize_cluster b curr_cluster_info cluster_spec).
Definition broker_delete_cluster (b : broker) (cluster_name : value) : M response :=
  call (EBroker b (DeleteCluster cluster_name)) (on_delete_cluster b cluster_name).
Definition broker_get_cluster_config (b : broker) (cluster_name : value) : M response :=
  call (EBroker b (GetClusterConfig cluster_name)) (on_get_cluster_config b cluster_name).
Definition broker_create_compute_profile (b : broker) (params : dict) : M unit :=
  call (EBroker b (CreateComputeProfile params)) (on_create_compute_profile b params).

Definition vcd_client_is_sysadmin : M bool :=
  call (EVcdClient IsSysadmin) on_is_sysadmin.
Definition vcd_client_get_org_list : M (list OrgResource) :=
  call (EVcdClient GetOrgList) on_get_org_list.
Definition vcd_client_get_org : M OrgResource :=
  call (EVcdClient GetOrg) on_get_org.
Definition org_children (r : OrgResource) : M (list OrgResource) :=
  call (EVcdClient (OrgChildren r)) (on_org_children r).
Definition org_list_vdcs (r : OrgResource) : M (list dict) :=
  call (EVcdClient (OrgListVdcs r)) (on_org_list_vdcs r).
Definition org_get_name (r : OrgResource) : M value :=
  call (EVcdClient (OrgGetName r)) (on_org_get_name r).

Definition ovdc_cache_get_ovdc_container_provider_metadata (q : metadata_query) : M dict :=
  call (EOvdcCache (GetOvdcContainerProviderMetadata q))
       (on_get_ovdc_container_provider_metadata q).
Definition ovdc_cache_set_ovdc_container_provider_metadata
    (ovdc : Ovdc) (container_prov_data : option dict) (container_provider : value)
    : M dict :=
  call (EOvdcCache (SetOvdcContainerProviderMetadata ovdc container_prov_data
                      container_provider))
       (on_set_ovdc_container_provider_metadata ovdc container_prov_data
          container_provider).
Definition ovdc_cache_get_ovdc (ovdc_id : value) : M Ovdc :=
  call (EOvdcCache (GetOvdc ovdc_id)) (on_get_ovdc ovdc_id).
Definition ovdc_cache_get_pvdc_id (ovdc : Ovdc) : M value :=
  call (EOvdcCache (GetPvdcId ovdc)) (on_get_pvdc_id ovdc).
Definition ovdc_cache_get_compute_profile_name (ovdc_id ovdc_name : value) : M value :=
  call (EOvdcCache (GetComputeProfileName ovdc_id ovdc_name))
       (on_get_compute_profile_name ovdc_id ovdc_name).
Definition OvdcCache_construct_pks_context (args : pks_context_args) : M dict :=
  call (EOvdcCache (ConstructPksContext args)) (on_construct_pks_context args).

Definition pks_cache_get_all_pks_account_info_in_system (pc : PksCache)
    : M (list PksAccountInfo) :=
  call (EPksCache GetAllPksAccountInfoInSystem)
       (on_get_all_pks_account_info_in_system pc).
Definition pks_cache_do_orgs_have_exclusive_pks_account (pc : PksCache) : M bool :=
  call (EPksCache DoOrgsHaveExclusivePksAccount)
       (on_do_orgs_have_exclusive_pks_account pc).
Definition pks_cache_get_exclusive_pks_accounts_info_for_org
    (pc : PksCache) (org_name : value) : M (list PksAccountInfo) :=
  call (EPksCache (GetExclusivePksAccountsInfoForOrg org_name))
       (on_get_exclusive_pks_accounts_info_for_org pc org_name).
Definition pks_cache_get_pvdc_info (pc : PksCache) (pvdc_id : value) : M PvdcInfo :=
  call (EPksCache (GetPvdcInfo pvdc_id)) (on_get_pvdc_info pc pvdc_id).
Definition pks_cache_get_pks_account_info (pc : PksCache) (org_name vc_name : value)
    : M PksAccountInfo :=
  call (EPksCache (GetPksAccountInfo org_name vc_name))
       (on_get_pks_account_info pc org_name vc_name).
Definition pks_cache_get_nsxt_info (pc : PksCache) (vc_name : value) : M dict :=
  call (EPksCache (GetNsxtInfo vc_name)) (on_get_nsxt_info pc vc_name).

(** [construct_pks_context(pks_account_info, credentials_required=True)] *)
Definition pks_context_of_account (pks_account_info : PksAccountInfo) : M dict :=
  OvdcCache_construct_pks_context
    {| a_pks_account_info := pks_account_info; a_pvdc_info := None;
       a_nsxt_info := None; a_pks_compute_profile_name := None;
       a_pks_plans := None; a_credentials_required := true |}.

(** *** [BrokerManager.get_broker_based_on_vdc] *)
Definition get_broker_based_on_vdc (self : BrokerManager) : M broker :=
  let ovdc_name :=
    py_or (dict_get (req_spec self) "vdc") (dict_get (req_qparams self) "vdc") in
  let org_name :=
    py_or (py_or (dict_get (req_spec self) "org") (dict_get (req_qparams self) "org"))
          (dict_get (session self) "org") in
  log_debug (LogOrgAndVdc org_name ovdc_name);;
  if (truthy ovdc_name && truthy org_name)%bool then
    ctr_prov_ctx ← ovdc_cache_get_ovdc_container_provider_metadata
      {| q_ovdc_name := ovdc_name; q_ovdc_id := VNone; q_org_name := org_name;
         q_credentials_required := true; q_nsxt_info_required := true |};
    log_debug (LogOvdcMetadata ovdc_name org_name ctr_prov_ctx);;
    if bool_decide (dict_get ctr_prov_ctx CONTAINER_PROVIDER_KEY = VStr CtrProvType_PKS)
    then mret (PKSBroker (req_headers self) (req_spec self) ctr_prov_ctx)
    else if bool_decide
              (dict_get ctr_prov_ctx CONTAINER_PROVIDER_KEY = VStr CtrProvType_VCD)
    then mret (VcdBroker (req_headers self) (req_spec self))
    else raise (CseServerError
                  ("Vdc '" +:+ str_of_value ovdc_name +:+
                   "' is not enabled for Kubernetes cluster deployment"))
  else
    mret (VcdBroker (req_headers self) (req_spec self)).

(** *** [BrokerManager._create_pks_context_for_all_accounts_in_org] *)

(** The loop over [vdc_names] that fills [pks_ctx_dict]. *)
Fixpoint collect_pks_ctx_dict (org_name : value) (vdc_names : list value)
    (pks_ctx_dict : list (value * dict)) : M (list (value * dict)) :=
  match vdc_names with
  | [] => mret pks_ctx_dict
  | vdc_name :: rest =>
      ctr_prov_ctx ← ovdc_cache_get_ovdc_container_provider_metadata
        {| q_ovdc_name := vdc_name; q_ovdc_id := VNone; q_org_name := org_name;
           q_credentials_required := true; q_nsxt_info_required := false |};
      provider ← dict_getitem ctr_prov_ctx CONTAINER_PROVIDER_KEY;
      if bool_decide (provider = VStr CtrProvType_PKS) then
        vc_name ← dict_getitem ctr_prov_ctx "vc";
        collect_pks_ctx_dict org_name rest
          (pydict_setitem pks_ctx_dict vc_name ctr_prov_ctx)
      else
        collect_pks_ctx_dict org_name rest pks_ctx_dict
  end.

Definition _create_pks_context_for_all_accounts_in_org (self : BrokerManager)
    : M (list dict) :=
  match get_pks_cache with
  | None => mret []
  | Some pks_cache =>
      sysadmin ← vcd_client_is_sysadmin;
      if sysadmin : bool then
        all_pks_account_info ← pks_cache_get_all_pks_account_info_in_system pks_cache;
        for_each pks_context_of_account all_pks_account_info
      else
        let org_name := dict_get (session self) "org" in
        exclusive ← pks_cache_do_orgs_have_exclusive_pks_account pks_cache;
        if exclusive : bool then
          pks_account_infos ←
            pks_cache_get_exclusive_pks_accounts_info_for_org pks_cache org_name;
          for_each pks_context_of_account pks_account_infos
        else
          org_resource ← vcd_client_get_org;
          vdcs ← org_list_vdcs org_resource;
          vdc_names ← for_each (λ vdc, dict_getitem vdc "name") vdcs;
          pks_ctx_dict ← collect_pks_ctx_dict org_name vdc_names [];
          mret (pydict_values pks_ctx_dict)
  end.

(** *** [BrokerManager._find_cluster_in_org] *)

(** The loop over [pks_ctx_list]; [None] stands for the pair
    [(None, None)] returned after the loop. *)
Fixpoint find_cluster_in_pks (self : BrokerManager) (cluster_name : value)
    (pks_ctx_list : list dict) : M (option (dict * broker)) :=
  match pks_ctx_list with
  | [] => mret None
  | pks_ctx :: rest =>
      let pksbroker := PKSBroker (req_headers self) (req_spec self) pks_ctx in
      found ← try_except
        (cluster ← broker_get_cluster_info pksbroker cluster_name;
         mret (Some (cluster, pksbroker)))
        (λ err,
           host ← dict_getitem pks_ctx "host";
           log_debug (LogGetClusterInfoFailedOnPks cluster_name host err);;
           mret None);
      match found with
      | Some hit => mret (Some hit)
      | None => find_cluster_in_pks self cluster_name rest
      end
  end.

Definition _find_cluster_in_org (self : BrokerManager) (cluster_name : value)
    : M (option (dict * broker)) :=
  let vcd_broker := VcdBroker (req_headers self) (req_spec self) in
  found ← try_except
    (cluster ← broker_get_cluster_info vcd_broker cluster_name;
     mret (Some (cluster, vcd_broker)))
    (λ err,
       log_debug (LogGetClusterInfoFailedOnVcd cluster_name err);;
       mret None);
  match found with
  | Some hit => mret (Some hit)
  | None =>
      pks_ctx_list ← _create_pks_context_for_all_accounts_in_org self;
      find_cluster_in_pks self cluster_name pks_ctx_list
  end.

(** *** [BrokerManager._get_truncated_cluster_info] *)
Definition _get_truncated_cluster_info (self : BrokerManager) (cluster : dict)
    (pks_broker : broker) (cluster_property_keys : list string) : M dict :=
  let pks_cluster := dict_comprehension cluster_property_keys (dict_get cluster) in
  let compute_profile_name :=
    dict_get_default cluster "compute-profile-name" (VStr "") in
  vdc ← (if truthy compute_profile_name
         then segments ← str_split_dashes compute_profile_name;
              mret (last_segment segments)
         else mret "");
  let pks_cluster := <["vdc" := VStr vdc]> pks_cluster in
  last_action ← str_lower (dict_get_default cluster "last-action" (VStr ""));
  status ← str_lower (dict_get_default pks_cluster "status" (VStr ""));
  mret (<["status" := VStr (last_action +:+ " " +:+ status)]> pks_cluster).

Definition cluster_not_found (cluster_name : value) : exn :=
  ClusterNotFoundError
    ("cluster " +:+ str_of_value cluster_name +:+ " not found either in vCD or PKS").

(** *** [BrokerManager._get_cluster_info] *)
Definition _get_cluster_info (self : BrokerManager) (cluster_spec : dict)
    : M (dict * broker) :=
  cluster_name ← dict_getitem cluster_spec "cluster_name";
  if truthy (is_ovdc_present_in_request self) then
    broker ← get_broker_based_on_vdc self;
    cluster ← broker_get_cluster_info broker cluster_name;
    mret (cluster, broker)
  else
    found ← _find_cluster_in_org self cluster_name;
    match found with
    | Some (cluster, broker) =>
        if dict_truthy cluster then mret (cluster, broker)
        else raise (cluster_not_found cluster_name)
    | None => raise (cluster_not_found cluster_name)
    end.

(** *** [BrokerManager._get_cluster_config] *)
Definition _get_cluster_config (self : BrokerManager) (cluster_spec : dict)
    : M response :=
  cluster_name ← dict_getitem cluster_spec "cluster_name";
  if truthy (is_ovdc_present_in_request self) then
    broker ← get_broker_based_on_vdc self;
    broker_get_cluster_config broker cluster_name
  else
    found ← _find_cluster_in_org self cluster_name;
    match found with
    | Some (cluster, broker) =>
        if dict_truthy cluster then
          name ← dict_getitem cluster "name";
          broker_get_cluster_config broker name
        else raise (cluster_not_found cluster_name)
    | None => raise (cluster_not_found cluster_name)
    end.

(** *** [BrokerManager._list_clusters] *)
Definition _list_clusters (self : BrokerManager) : M (list dict) :=
  if truthy (is_ovdc_present_in_request self) then
    broker ← get_broker_based_on_vdc self;
    broker_list_clusters broker
  else
    let vcd_broker := VcdBroker (req_headers self) (req_spec self) in
    clusters ← broker_list_clusters vcd_broker;
    let vcd_clusters :=
      map (λ cluster,
             <[CONTAINER_PROVIDER_KEY := VStr CtrProvType_VCD]>
               (dict_comprehension common_cluster_properties (dict_get cluster)))
          clusters in
    pks_ctx_list ← _create_pks_context_for_all_accounts_in_org self;
    per_account ← for_each
      (λ pks_ctx,
         let pks_broker := PKSBroker (req_headers self) (req_spec self) pks_ctx in
         clusters ← broker_list_clusters pks_broker;
         for_each
           (λ cluster,
              pks_cluster ← _get_truncated_cluster_info self cluster pks_broker
                              common_cluster_properties;
              mret (<[CONTAINER_PROVIDER_KEY := VStr CtrProvType_PKS]> pks_cluster))
           clusters)
      pks_ctx_list;
    let pks_clusters := concat per_account in
    mret (vcd_clusters ++ pks_clusters).

(** *** [BrokerManager._resize_cluster] *)
Definition _resize_cluster (self : BrokerManager) (cluster_spec : dict) : M response :=
  '(cluster, broker) ← _get_cluster_info self cluster_spec;
  broker_resize_cluster broker cluster cluster_spec.

(** *** [BrokerManager._delete_cluster] *)
Definition _delete_cluster (self : BrokerManager) (cluster_spec : dict) : M response :=
  cluster_name ← dict_getitem cluster_spec "cluster_name";
  '(_, broker) ← _get_cluster_info self cluster_spec;
  broker_delete_cluster broker cluster_name.

Definition cluster_already_found (cluster_name : value) : exn :=
  CseServerError
    ("Cluster with name: " +:+ str_of_value cluster_name +:+ " already found").

(** *** [BrokerManager._create_cluster] *)
Definition _create_cluster (self : BrokerManager) (cluster_spec : dict) : M response :=
  cluster_name ← dict_getitem cluster_spec "cluster_name";
  found ← _find_cluster_in_org self cluster_name;
  let cluster_is_true :=
    match found with
    | Some (cluster, _) => dict_truthy cluster
    | None => false
    end in
  if negb cluster_is_true then
    broker ← get_broker_based_on_vdc self;
    broker_create_cluster broker cluster_spec
  else
    raise (cluster_already_found cluster_name).

(** *** [BrokerManager._list_ovdcs] *)
Definition _list_ovdcs (self : BrokerManager) : M (list dict) :=
  sysadmin ← vcd_client_is_sysadmin;
  org_resource_list ←
    (if sysadmin : bool then vcd_client_get_org_list
     else org_resource ← vcd_client_get_org; org_children org_resource);
  per_org ← for_each
    (λ org_resource,
       vdc_list ← org_list_vdcs org_resource;
       for_each
         (λ vdc,
            vdc_name ← dict_getitem vdc "name";
            org_name ← org_get_name org_resource;
            ctr_prov_ctx ← ovdc_cache_get_ovdc_container_provider_metadata
              {| q_ovdc_name := vdc_name; q_ovdc_id := VNone; q_org_name := org_name;
                 q_credentials_required := false; q_nsxt_info_required := false |};
            org_name' ← org_get_name org_resource;
            vdc_name' ← dict_getitem vdc "name";
            provider ← dict_getitem ctr_prov_ctx CONTAINER_PROVIDER_KEY;
            mret (<[CONTAINER_PROVIDER_KEY := provider]>
                    (<["name" := vdc_name']> (<["org" := org_name']> ∅))))
         vdc_list)
    org_resource_list;
  mret (concat per_org).

(** *** [BrokerManager._get_ovdc_params] *)
Definition _get_ovdc_params (self : BrokerManager) : M (option dict * Ovdc) :=
  let ovdc_id := dict_get (req_spec self) "ovdc_id" in
  let org_name := dict_get (req_spec self) "org_name" in
  pks_plans ← dict_getitem (req_spec self) "pks_plans";
  ovdc ← ovdc_cache_get_ovdc ovdc_id;
  pvdc_id ← ovdc_cache_get_pvdc_id ovdc;
  provider ← dict_getitem (req_spec self) CONTAINER_PROVIDER_KEY;
  if bool_decide (provider = VStr CtrProvType_PKS) then
    match get_pks_cache with
    | None => raise (CseServerError "PKS config file does not exist")
    | Some pks_cache =>
        pvdc_info ← pks_cache_get_pvdc_info pks_cache pvdc_id;
        pks_account_info ←
          pks_cache_get_pks_account_info pks_cache org_name (vc pvdc_info);
        nsxt_info ← pks_cache_get_nsxt_info pks_cache (vc pvdc_info);
        pks_compute_profile_name ←
          ovdc_cache_get_compute_profile_name ovdc_id (dict_get (resource ovdc) "name");
        pks_context ← OvdcCache_construct_pks_context
          {| a_pks_account_info := pks_account_info;
             a_pvdc_info := Some pvdc_info;
             a_nsxt_info := Some nsxt_info;
             a_pks_compute_profile_name := Some pks_compute_profile_name;
             a_pks_plans := Some pks_plans;
             a_credentials_required := true |};
        mret (Some pks_context, ovdc)
    end
  else
    mret (None, ovdc).

(** [PksComputeProfileParams(...).to_dict()] *)
Definition PksComputeProfileParams_to_dict
    (cp_name az_name description cpi datacenter_name cluster_name ovdc_rp_name : value)
    : dict :=
  <["ovdc_rp_name" := ovdc_rp_name]>
    (<["cluster_name" := cluster_name]>
       (<["datacenter_name" := datacenter_name]>
          (<["cpi" := cpi]>
             (<["description" := description]>
                (<["az_name" := az_name]>
                   (<["cp_name" := cp_name]> ∅)))))).

(** *** [BrokerManager._create_pks_compute_profile] *)

(** The [compute_profile_params] of the method: the description, the
    availability zone and the resource pool are formatted from the
    request, the placement is read from the PKS context. *)
Definition compute_profile_params_of (self : BrokerManager) (pks_ctx : dict)
    (pks_compute_profile_name : value) : dict :=
  let ovdc_id := dict_get (req_spec self) "ovdc_id" in
  let org_name := dict_get (req_spec self) "org_name" in
  let ovdc_name := dict_get (req_spec self) "ovdc_name" in
  let pks_compute_profile_description :=
    str_of_value org_name +:+ "--" +:+ str_of_value ovdc_name +:+ "--" +:+
    str_of_value ovdc_id in
  let pks_az_name := "az-" +:+ str_of_value ovdc_name in
  let ovdc_rp_name :=
    str_of_value ovdc_name +:+ " (" +:+ str_of_value ovdc_id +:+ ")" in
  PksComputeProfileParams_to_dict
    pks_compute_profile_name (VStr pks_az_name)
    (VStr pks_compute_profile_description)
    (dict_get pks_ctx "cpi") (dict_get pks_ctx "datacenter") (dict_get pks_ctx "cluster")
    (VStr ovdc_rp_name).

Definition _create_pks_compute_profile (self : BrokerManager) (pks_ctx : option dict)
    : M unit :=
  let ovdc_id := dict_get (req_spec self) "ovdc_id" in
  let ovdc_name := dict_get (req_spec self) "ovdc_name" in
  pks_compute_profile_name ← ovdc_cache_get_compute_profile_name ovdc_id ovdc_name;
  match pks_ctx with
  | None => raise (AttributeError "get")
  | Some ctx =>
      let compute_profile_params :=
        compute_profile_params_of self ctx pks_compute_profile_name in
      log_debug (LogCreatingComputeProfile pks_compute_profile_name);;
      let pksbroker := PKSBroker (req_headers self) (req_spec self) ctx in
      try_except
        (broker_create_compute_profile pksbroker compute_profile_params)
        (λ ex,
           match ex with
           | PksServerError status _ =>
               if bool_decide (status = HTTPStatus_CONFLICT) then
                 log_debug (LogComputeProfileExists pks_compute_profile_name ex)
               else raise ex
           | _ => raise ex
           end)
  end.

(** *** [BrokerManager.invoke] (the body under [@exception_handler]) *)

(** The assignment to [self.is_ovdc_present_in_request] that opens
    [invoke]. *)
Definition with_ovdc_flag (self : BrokerManager) : BrokerManager :=
  {| req_headers := req_headers self; req_qparams := req_qparams self;
     req_spec := req_spec self; session := session self;
     is_ovdc_present_in_request :=
       py_or (dict_get (req_spec self) "vdc") (dict_get (req_qparams self) "vdc") |}.

(** The [cluster_spec] of the get, delete and config branches. *)
Definition cluster_spec_of_name (self : BrokerManager) : dict :=
  {["cluster_name" := dict_get (req_spec self) "cluster_name"]}.

(** The [cluster_spec] of the resize branch. *)
Definition cluster_spec_of_resize (self : BrokerManager) : dict :=
  <["node_count" := dict_get (req_spec self) "node_count"]>
    {["cluster_name" := dict_get (req_spec self) "cluster_name"]}.

(** The [cluster_spec] of the create branch. *)
Definition cluster_spec_of_create (self : BrokerManager) : dict :=
  <["pks_ext_host" := dict_get (req_spec self) "pks_ext_host"]>
    (<["pks_plan" := dict_get (req_spec self) "pks_plan"]>
       (<["template" := dict_get (req_spec self) "template"]>
          (<["network_name" := dict_get (req_spec self) "network"]>
             (<["storage_profile" := dict_get (req_spec self) "storage_profile"]>
                (<["node_count" := dict_get (req_spec self) "node_count"]>
                   (<["vdc_name" := dict_get (req_spec self) "vdc"]>
                      {["cluster_name" :=
                          dict_get (req_spec self) "cluster_name"]})))))).

Definition invoke (self0 : BrokerManager) (op : Operation) : M result :=
  let self := with_ovdc_flag self0 in
  match op with
  | INFO_OVDC =>
      let ovdc_id := dict_get (req_spec self) "ovdc_id" in
      metadata ← ovdc_cache_get_ovdc_container_provider_metadata
        {| q_ovdc_name := VNone; q_ovdc_id := ovdc_id; q_org_name := VNone;
           q_credentials_required := false; q_nsxt_info_required := false |};
      mret {| body := RDict metadata; status_code := OK |}
  | ENABLE_OVDC =>
      '(pks_ctx, ovdc) ← _get_ovdc_params self;
      provider ← dict_getitem (req_spec self) CONTAINER_PROVIDER_KEY;
      (if bool_decide (provider = VStr CtrProvType_PKS)
       then _create_pks_compute_profile self pks_ctx
       else mret ());;
      container_provider ← dict_getitem (req_spec self) CONTAINER_PROVIDER_KEY;
      task ← ovdc_cache_set_ovdc_container_provider_metadata
               ovdc pks_ctx container_provider;
      mret {| body := RDict {["task_href" := dict_get task "href"]};
              status_code := ACCEPTED |}
  | GET_CLUSTER =>
      '(cluster, _) ← _get_cluster_info self (cluster_spec_of_name self);
      mret {| body := RDict cluster; status_code := OK |}
  | LIST_CLUSTERS =>
      clusters ← _list_clusters self;
      mret {| body := RList clusters; status_code := OK |}
  | DELETE_CLUSTER =>
      r ← _delete_cluster self (cluster_spec_of_name self);
      mret {| body := r; status_code := ACCEPTED |}
  | RESIZE_CLUSTER =>
      r ← _resize_cluster self (cluster_spec_of_resize self);
      mret {| body := r; status_code := ACCEPTED |}
  | GET_CLUSTER_CONFIG =>
      r ← _get_cluster_config self (cluster_spec_of_name self);
      mret {| body := r; status_code := OK |}
  | CREATE_CLUSTER =>
      r ← _create_cluster self (cluster_spec_of_create self);
      mret {| body := r; status_code := ACCEPTED |}
  | LIST_OVDCS =>
      ovdcs ← _list_ovdcs self;
      mret {| body := RList ovdcs; status_code := OK |}
  end.

End Manager.

(** ** Observations on a trace *)

(** The broker calls of a trace, in order. *)
Definition broker_calls (t : list event) : list (broker * broker_call) :=
  omap (λ ev, match ev with EBroker b c => Some (b, c) | _ => None end) t.

(** The brokers asked for the information of a cluster, in order. *)
Definition probes (t : list event) : list broker :=
  omap (λ ev, match ev with EBroker b (GetClusterInfo _) => Some b | _ => None end) t.

(** The calls to [create_cluster]. *)
Definition create_calls (t : list event) : list (broker * dict) :=
  omap (λ ev, match ev with
              | EBroker b (CreateCluster cluster_spec) => Some (b, cluster_spec)
              | _ => None
              end) t.

(** The calls to [get_cluster_config]. *)
Definition config_calls (t : list event) : list (broker * value) :=
  omap (λ ev, match ev with
              | EBroker b (GetClusterConfig name) => Some (b, name)
              | _ => None
              end) t.

(** The lookups of ownership metadata in the ovdc cache. *)
Definition metadata_lookups (t : list event) : list metadata_query :=
  omap (λ ev, match ev with
              | EOvdcCache (GetOvdcContainerProviderMetadata q) => Some q
              | _ => None
              end) t.

(** The writes of ownership metadata. *)
Definition metadata_writes (t : list event) : list (Ovdc * option dict * value) :=
  omap (λ ev, match ev with
              | EOvdcCache (SetOvdcContainerProviderMetadata o d p) => Some (o, d, p)
              | _ => None
              end) t.

(** An argument of a call: a scalar or a dictionary. *)
Inductive arg : Type :=
| ArgValue (v : value)
| ArgDict (d : dict).

#[global] Instance arg_eq_dec : EqDecision arg.
Proof. solve_decision. Defined.

(** The keyword arguments with which the manager makes a broker call:
    [**cluster_spec] spreads the entries of the dictionary. *)
Definition call_kwargs (c : broker_call) : gmap string arg :=
  match c with
  | GetClusterInfo cluster_name => {["cluster_name" := ArgValue cluster_name]}
  | ListClusters => ∅
  | CreateCluster cluster_spec => ArgValue <$> cluster_spec
  | ResizeCluster curr_cluster_info cluster_spec =>
      <["curr_cluster_info" := ArgDict curr_cluster_info]> (ArgValue <$> cluster_spec)
  | DeleteCluster cluster_name => {["cluster_name" := ArgValue cluster_name]}
  | GetClusterConfig cluster_name => {["cluster_name" := ArgValue cluster_name]}
  | CreateComputeProfile params => ArgValue <$> params
  end.

(** An answer that is an exception. *)
Definition raises {A} (r : exn + A) : Prop :=
  match r with inl _ => True | inr _ => False end.

#[global] Instance raises_dec {A} (r : exn + A) : Decision (raises r).
Proof. destruct r; simpl; apply _. Defined.


(** ** Notions used in the statements *)

(** The candidates of a search in the order of probing: the vCD broker,
    then one PKS broker per enumerated context. *)
Definition candidates (self : BrokerManager) (pks_ctx_list : list dict) : list broker :=
  VcdBroker (req_headers self) (req_spec self)
  :: map (PKSBroker (req_headers self) (req_spec self)) pks_ctx_list.

(** The line logged when the probe of a candidate fails. *)
Definition probe_failure_log (cluster_name : value) (b : broker) (err : exn) : log_msg :=
  match b with
  | VcdBroker _ _ => LogGetClusterInfoFailedOnVcd cluster_name err
  | PKSBroker _ _ pks_ctx =>
      LogGetClusterInfoFailedOnPks cluster_name (dict_get pks_ctx "host") err
  end.

(** A PKS context has a host; the line logged on a failed probe
    subscripts it. *)
Definition has_host (pks_ctx : dict) : Prop := is_Some (pks_ctx !! "host").

#[global] Instance has_host_dec pks_ctx : Decision (has_host pks_ctx).
Proof. unfold has_host. apply _. Defined.

(** The probe of a candidate misses or fails: the broker raises, or
    answers with a record that is false. *)
Definition misses_or_fails `{Env} (cluster_name : value) (b : broker) : Prop :=
  match on_get_cluster_info b cluster_name with
  | inl _ => True
  | inr cluster => cluster = ∅
  end.

#[global] Instance misses_or_fails_dec `{Env} cluster_name b :
  Decision (misses_or_fails cluster_name b).
Proof. unfold misses_or_fails. destruct (on_get_cluster_info b cluster_name); apply _. Defined.

(** The cluster record that the resolution of the owner found reaches
    the broker: the last event of the operation is a call on the broker
    resolved, and one of its keyword arguments is that record. *)
Definition passes_resolved_record `{Env} (self : BrokerManager) (cluster_spec : dict)
    (operation : M response) : Prop :=
  ∀ cluster b,
    outcome (_get_cluster_info self cluster_spec) = inr (cluster, b) →
    ∃ c, last (trace operation) = Some (EBroker b c) ∧
         ∃ k, call_kwargs c !! k = Some (ArgDict cluster).

(** The query of [get_broker_based_on_vdc] to the ovdc cache. *)
Definition direct_query (ovdc_name org_name : value) : metadata_query :=
  {| q_ovdc_name := ovdc_name; q_ovdc_id := VNone; q_org_name := org_name;
     q_credentials_required := true; q_nsxt_info_required := true |}.

(** The vdc and the org that a request names. *)
Definition request_vdc (self : BrokerManager) : value :=
  py_or (dict_get (req_spec self) "vdc") (dict_get (req_qparams self) "vdc").
Definition request_org (self : BrokerManager) : value :=
  py_or (py_or (dict_get (req_spec self) "org") (dict_get (req_qparams self) "org"))
        (dict_get (session self) "org").

(** The request names a vdc (and its org is known) whose ownership
    metadata [ctr_prov_ctx] gives one of the two container providers. *)
Definition explicit_valid_vdc `{Env} (self : BrokerManager) (ctr_prov_ctx : dict) : Prop :=
  truthy (request_vdc self) = true ∧
  truthy (request_org self) = true ∧
  on_get_ovdc_container_provider_metadata
    (direct_query (request_vdc self) (request_org self)) = inr ctr_prov_ctx ∧
  (dict_get ctr_prov_ctx CONTAINER_PROVIDER_KEY = VStr CtrProvType_PKS ∨
   dict_get ctr_prov_ctx CONTAINER_PROVIDER_KEY = VStr CtrProvType_VCD).

(** The broker that such metadata selects. *)
Definition resolved_broker `{Env} (self : BrokerManager) (ctr_prov_ctx : dict) : broker :=
  if bool_decide (dict_get ctr_prov_ctx CONTAINER_PROVIDER_KEY = VStr CtrProvType_PKS)
  then PKSBroker (req_headers self) (req_spec self) ctr_prov_ctx
  else VcdBroker (req_headers self) (req_spec self).

(** The events of that resolution. *)
Definition resolution_events (self : BrokerManager) (ctr_prov_ctx : dict) : list event :=
  [ELog (LogOrgAndVdc (request_org self) (request_vdc self));
   EOvdcCache (GetOvdcContainerProviderMetadata
                 (direct_query (request_vdc self) (request_org self)));
   ELog (LogOvdcMetadata (request_vdc self) (request_org self) ctr_prov_ctx)].

(** An operation resolved its broker by one lookup of metadata and
    made one broker call. *)
Definition direct_single_call `{Env} (self : BrokerManager) (op : Operation) : Prop :=
  length (metadata_lookups (trace (invoke self op))) = 1%nat ∧
  length (broker_calls (trace (invoke self op))) = 1%nat.

(** The query of the enumeration for the metadata of one vdc. *)
Definition enumeration_query (vdc_name org_name : value) : metadata_query :=
  {| q_ovdc_name := vdc_name; q_ovdc_id := VNone; q_org_name := org_name;
     q_credentials_required := true; q_nsxt_info_required := false |}.

(** The metadata of a vdc names PKS as its container provider. *)
Definition owned_by_pks `{Env} (ctr_prov_ctx : dict) : Prop :=
  ctr_prov_ctx !! CONTAINER_PROVIDER_KEY = Some (VStr CtrProvType_PKS).

#[global] Instance owned_by_pks_dec `{Env} ctr_prov_ctx : Decision (owned_by_pks ctr_prov_ctx).
Proof. unfold owned_by_pks. apply _. Defined.

(** The dictionary that the loop of the enumeration builds from the
    metadata of the vdcs, in order. *)
Definition fold_pks_ctx_dict `{Env} (metas : list dict) (pks_ctx_dict : list (value * dict))
    : list (value * dict) :=
  foldl (λ d meta,
           if decide (owned_by_pks meta)
           then pydict_setitem d (dict_get meta "vc") meta
           else d)
        pks_ctx_dict metas.

(** The ovdc cache answers the enumeration's query for a vdc with
    [meta], which names a container provider and, when that is PKS,
    a vCenter. *)
Definition metadata_of `{Env} (org_name : value) (vdc_name : value) (meta : dict) : Prop :=
  on_get_ovdc_container_provider_metadata (enumeration_query vdc_name org_name)
    = inr meta ∧
  is_Some (meta !! CONTAINER_PROVIDER_KEY) ∧
  (owned_by_pks meta → is_Some (meta !! "vc")).

(** The fields of a PKS cluster that its projection reads: the last
    action (a string, or absent), the status (a string) and the name
    of the compute profile (a string, or absent). *)
Definition pks_cluster_fields (cluster : dict) (last_action status_str profile : string)
    : Prop :=
  dict_get_default cluster "last-action" (VStr "") = VStr last_action ∧
  cluster !! "status" = Some (VStr status_str) ∧
  dict_get_default cluster "compute-profile-name" (VStr "") = VStr profile.

Definition well_formed_pks_cluster (cluster : dict) : Prop :=
  ∃ last_action status_str profile,
    pks_cluster_fields cluster last_action status_str profile.

(** The keys of a record of the aggregated list. *)
Definition record_keys `{Env} : gset string :=
  {[ "name"; "vdc"; "status"; CONTAINER_PROVIDER_KEY ]}.

(** [record] is the projection of a vCD cluster. *)
Definition vcd_cluster_record `{Env} (cluster record : dict) : Prop :=
  dom record = record_keys ∧
  record !! "name" = Some (dict_get cluster "name") ∧
  record !! "vdc" = Some (dict_get cluster "vdc") ∧
  record !! "status" = Some (dict_get cluster "status") ∧
  record !! CONTAINER_PROVIDER_KEY = Some (VStr CtrProvType_VCD).

(** [record] is the projection of a PKS cluster. *)
Definition pks_cluster_record `{Env} (cluster record : dict) : Prop :=
  dom record = record_keys ∧
  record !! "name" = Some (dict_get cluster "name") ∧
  record !! CONTAINER_PROVIDER_KEY = Some (VStr CtrProvType_PKS) ∧
  ∀ last_action status_str profile,
    pks_cluster_fields cluster last_action status_str profile →
    record !! "vdc" = Some (VStr (last_segment (split_dashes profile))) ∧
    record !! "status" = Some (VStr (lower last_action +:+ " " +:+ lower status_str)).

(** ** Kinds of events *)

(** The broker calls that change the state of a provider. *)
Definition is_mutating (c : broker_call) : bool :=
  match c with
  | CreateCluster _ | ResizeCluster _ _ | DeleteCluster _ | CreateComputeProfile _ => true
  | GetClusterInfo _ | ListClusters | GetClusterConfig _ => false
  end.

(** An event that changes nothing outside the manager: any event but
    a mutating broker call or a write of ownership metadata. *)
Definition read_only_event (ev : event) : Prop :=
  match ev with
  | EBroker _ c => is_mutating c = false
  | EOvdcCache (SetOvdcContainerProviderMetadata _ _ _) => False
  | _ => True
  end.

(** An event that is not a broker call. *)
Definition no_broker_event (ev : event) : Prop :=
  match ev with
  | EBroker _ _ => False
  | _ => True
  end.

(** The mutating broker call that belongs to an operation. *)
Definition mutation_of (op : Operation) (c : broker_call) : Prop :=
  match op, c with
  | CREATE_CLUSTER, CreateCluster _ => True
  | RESIZE_CLUSTER, ResizeCluster _ _ => True
  | DELETE_CLUSTER, DeleteCluster _ => True
  | ENABLE_OVDC, CreateComputeProfile _ => True
  | _, _ => False
  end.

(** Every event of a computation satisfies [P]. *)
Definition emits_only {A} (P : event → Prop) (m : M A) : Prop := Forall P (trace m).

(** The operations that only read. *)
Definition is_read_operation (op : Operation) : bool :=
  match op with
  | GET_CLUSTER | LIST_CLUSTERS | GET_CLUSTER_CONFIG | LIST_OVDCS | INFO_OVDC => true
  | CREATE_CLUSTER | DELETE_CLUSTER | RESIZE_CLUSTER | ENABLE_OVDC => false
  end.

(** A log line or a read of the directory (the vCD client, the PKS
    cache, the reads of the ovdc cache): no broker call, no write. *)
Definition directory_read_event (ev : event) : Prop :=
  match ev with
  | EBroker _ _ => False
  | EOvdcCache (SetOvdcContainerProviderMetadata _ _ _) => False
  | _ => True
  end.

(** An event of a search: a probe, or a log line or directory read. *)
Definition search_event (ev : event) : Prop :=
  match ev with
  | EBroker _ (GetClusterInfo _) => True
  | _ => directory_read_event ev
  end.

(** A trace made of events of a search, with at most one more event
    at its end: a broker call that is the mutation of [op]. *)
Definition ends_with_mutation_of (op : Operation) (t : list event) : Prop :=
  Forall search_event t ∨
  ∃ t' b c, t = t' ++ [EBroker b c] ∧ Forall search_event t' ∧ mutation_of op c.

(** The request names a vdc (and its org is known) whose ownership
    metadata [ctr_prov_ctx] names neither container provider. *)
Definition explicit_unset_vdc `{Env} (self : BrokerManager) (ctr_prov_ctx : dict) : Prop :=
  truthy (request_vdc self) = true ∧
  truthy (request_org self) = true ∧
  on_get_ovdc_container_provider_metadata
    (direct_query (request_vdc self) (request_org self)) = inr ctr_prov_ctx ∧
  dict_get ctr_prov_ctx CONTAINER_PROVIDER_KEY ≠ VStr CtrProvType_PKS ∧
  dict_get ctr_prov_ctx CONTAINER_PROVIDER_KEY ≠ VStr CtrProvType_VCD.

(** The error of [get_broker_based_on_vdc] for such a vdc. *)
Definition vdc_not_enabled (ovdc_name : value) : exn :=
  CseServerError
    ("Vdc '" +:+ str_of_value ovdc_name +:+
     "' is not enabled for Kubernetes cluster deployment").

(** The arguments with which the enumeration builds the context of an
    account: [construct_pks_context(info, credentials_required=True)]. *)
Definition account_context_args (pks_account_info : PksAccountInfo) : pks_context_args :=
  {| a_pks_account_info := pks_account_info; a_pvdc_info := None;
     a_nsxt_info := None; a_pks_compute_profile_name := None;
     a_pks_plans := None; a_credentials_required := true |}.

(** The distinct elements of a list, in the order of their first
    occurrence. *)
Definition first_occurrences (l : list value) : list value :=
  foldl (λ acc k, if decide (k ∈ acc) then acc else acc ++ [k]) [] l.

(** [s.endswith('-')] *)
Fixpoint ends_with_dash (s : string) : bool :=
  match s with
  | EmptyString => false
  | String c s' =>
      match s' with
      | EmptyString => Ascii.eqb c "-"
      | String _ _ => ends_with_dash s'
      end
  end.

(** The entry of a vdc in the list of [_list_ovdcs]. *)
Definition ovdc_entry `{Env} (org_name vdc_name provider : value) : dict :=
  <[CONTAINER_PROVIDER_KEY := provider]>
    (<["name" := vdc_name]> (<["org" := org_name]> ∅)).

(** The query of [_list_ovdcs] for the metadata of one vdc. *)
Definition listing_query (vdc_name org_name : value) : metadata_query :=
  {| q_ovdc_name := vdc_name; q_ovdc_id := VNone; q_org_name := org_name;
     q_credentials_required := false; q_nsxt_info_required := false |}.

(** [entries] are the entries of the vdcs of the organisation
    [org_resource], whose name and vdcs and their metadata the
    collaborators give. *)
Definition org_listing `{Env} (org_resource : OrgResource) (entries : list dict) : Prop :=
  ∃ vdcs org_name,
    on_org_list_vdcs org_resource = inr vdcs ∧
    on_org_get_name org_resource = inr org_name ∧
    Forall2 (λ vdc entry,
               ∃ vdc_name meta provider,
                 vdc !! "name" = Some vdc_name ∧
                 on_get_ovdc_container_provider_metadata (listing_query vdc_name org_name)
                   = inr meta ∧
                 meta !! CONTAINER_PROVIDER_KEY = Some provider ∧
                 entry = ovdc_entry org_name vdc_name provider)
      vdcs entries.

(** The organisations that [_list_ovdcs] goes through: all of them for
    a system administrator, else those under the organisation of the
    caller. *)
Definition listed_orgs `{Env} (orgs : list OrgResource) : Prop :=
  (on_is_sysadmin = inr true ∧ on_get_org_list = inr orgs) ∨
  (on_is_sysadmin = inr false ∧
   ∃ org_resource, on_get_org = inr org_resource ∧ on_org_children org_resource = inr orgs).

(** A call to the vCD client, or a lookup of ownership metadata that
    asks for no credentials. *)
Definition listing_event (ev : event) : Prop :=
  match ev with
  | EVcdClient _ => True
  | EOvdcCache (GetOvdcContainerProviderMetadata q) =>
      q_credentials_required q = false ∧ q_nsxt_info_required q = false
  | _ => False
  end.

(** The arguments with which [_get_ovdc_params] has the PKS context of
    a vdc constructed. *)
Definition ovdc_context_args (pks_account_info : PksAccountInfo) (pvdc_info : PvdcInfo)
    (nsxt_info : dict) (pks_compute_profile_name pks_plans : value) : pks_context_args :=
  {| a_pks_account_info := pks_account_info;
     a_pvdc_info := Some pvdc_info;
     a_nsxt_info := Some nsxt_info;
     a_pks_compute_profile_name := Some pks_compute_profile_name;
     a_pks_plans := Some pks_plans;
     a_credentials_required := true |}.

(** The candidates that a search probes: those up to the first one
    whose [get_cluster_info] answers, that one included. *)
Fixpoint probed_candidates `{Env} (cluster_name : value) (bs : list broker) : list broker :=
  match bs with
  | [] => []
  | b :: rest =>
      if decide (raises (on_get_cluster_info b cluster_name))
      then b :: probed_candidates cluster_name rest
      else [b]
  end.

(** ** Example systems *)

Module Examples.

Definition unavailable {A} : exn + A := inl (OtherException "unavailable").

Definition no_such_cluster {A} (cluster_name : value) : exn + A :=
  inl (ClusterNotFoundError
         ("Cluster '" +:+ str_of_value cluster_name +:+ "' not found.")).

Definition vcd_metadata : dict := {["container_provider" := VStr "vcd"]}.

(** The lower-casing of the runtime of the example systems, on the
    UTF-8 strings of Latin-1 characters: besides [A] to [Z], the
    letters from [À] to [Þ] (two bytes: 195, then 128 to 158 but not
    151, the multiplication sign) are lowered. *)
Fixpoint latin1_lower (s : string) : string :=
  match s with
  | EmptyString => EmptyString
  | String c s' =>
      match s' with
      | String c' rest =>
          let n := nat_of_ascii c' in
          if ((nat_of_ascii c =? 195)%nat && (128 <=? n)%nat && (n <=? 158)%nat
              && negb (n =? 151)%nat)%bool
          then String c (String (ascii_of_nat (n + 32)) (latin1_lower rest))
          else String (lower_ascii c) (latin1_lower s')
      | EmptyString => String (lower_ascii c) EmptyString
      end
  end.

(** The cluster of organisation Acme on vCD. *)
Definition dup_cluster : dict :=
  <["status" := VStr "POWERED_ON"]>
    (<["vdc" := VStr "vdc1"]>
       (<["name" := VStr "dup"]> {["leader_endpoint" := VStr "10.0.0.2"]})).

(** Organisation Acme: one vdc owned by vCD, no PKS configuration, one
    cluster named [dup]. *)
Definition env_acme : Env := {|
  CONTAINER_PROVIDER_KEY := "container_provider";
  CtrProvType_VCD := "vcd";
  CtrProvType_PKS := "pks";
  get_pks_cache := None;
  on_is_sysadmin := inr false;
  on_get_org_list := unavailable;
  on_get_org := inr {| org_href := "org/acme" |};
  on_org_children := λ _, inr [];
  on_org_list_vdcs := λ _, inr [{["name" := VStr "vdc1"]}];
  on_org_get_name := λ _, inr (VStr "Acme");
  on_get_ovdc_container_provider_metadata := λ _, inr vcd_metadata;
  on_set_ovdc_container_provider_metadata := λ _ _ _, unavailable;
  on_get_ovdc := λ _, unavailable;
  on_get_pvdc_id := λ _, unavailable;
  on_get_compute_profile_name := λ _ _, unavailable;
  on_construct_pks_context := λ _, unavailable;
  on_get_cluster_info := λ b cluster_name,
    match b with
    | VcdBroker _ _ =>
        if bool_decide (cluster_name = VStr "dup") then inr dup_cluster
        else no_such_cluster cluster_name
    | PKSBroker _ _ _ => unavailable
    end;
  on_list_clusters := λ b,
    match b with
    | VcdBroker _ _ => inr [dup_cluster]
    | PKSBroker _ _ _ => unavailable
    end;
  on_create_cluster := λ _ _, inr (RValue (VStr "task/create"));
  on_resize_cluster := λ _ _ _, inr (RValue (VStr "task/resize"));
  on_delete_cluster := λ _ _, inr (RValue (VStr "task/delete"));
  on_get_cluster_config := λ _ _, inr (RValue (VStr "kubeconfig"));
  on_create_compute_profile := λ _ _, unavailable;
  unicode_lower := latin1_lower
|}.

(** A request of a user of Acme. *)
Definition acme_request (request_spec : dict) : BrokerManager :=
  {| req_headers := {["x-vcloud-authorization" := VStr "token"]};
     req_qparams := ∅;
     req_spec := request_spec;
     session := {["org" := VStr "Acme"]};
     is_ovdc_present_in_request := VNone |}.

(** The vCD broker of a request. *)
Definition vcd_broker_of (self : BrokerManager) : broker :=
  VcdBroker (req_headers self) (req_spec self).

(** Requests that name the cluster only. *)
Definition dup_request : BrokerManager :=
  acme_request {["cluster_name" := VStr "dup"]}.
Definition new_request : BrokerManager :=
  acme_request {["cluster_name" := VStr "new"]}.

(** Requests that also name the vdc. *)
Definition dup_in_vdc1_request : BrokerManager :=
  acme_request (<["vdc" := VStr "vdc1"]> {["cluster_name" := VStr "dup"]}).
Definition new_in_vdc1_request : BrokerManager :=
  acme_request (<["vdc" := VStr "vdc1"]> {["cluster_name" := VStr "new"]}).

(** Four PKS accounts, configured system-wide. *)
Definition pks_account (n : string) : PksAccountInfo :=
  {| account_fields :=
       <["host" := VStr ("pks" +:+ n +:+ ".example.com")]>
         (<["vc" := VStr ("vc" +:+ n)]> {["name" := VStr ("account" +:+ n)]}) |}.

Definition pks_accounts : list PksAccountInfo :=
  [pks_account "1"; pks_account "2"; pks_account "3"; pks_account "4"].

Definition web_app_cluster : dict :=
  <["status" := VStr "succeeded"]>
    (<["last-action" := VStr "CREATE"]>
       (<["compute-profile-name" := VStr "cp--f3272127-9b7f--vdc-PKS1"]>
          {["name" := VStr "web-app"]})).

(** A cluster of which the PKS service reports the status in French. *)
Definition echec_cluster : dict :=
  <["status" := VStr "ÉCHEC"]>
    (<["last-action" := VStr "CREATE"]>
       (<["compute-profile-name" := VStr "cp--f3272127-9b7f--vdc-PKS1"]>
          {["name" := VStr "db"]})).

Definition is_third_account (pks_ctx : dict) : bool :=
  bool_decide (pks_ctx !! "host" = Some (VStr "pks3.example.com")).

(** A system administrator; the cluster [web-app] lives on the third
    of the four PKS accounts, vCD has the cluster [dup]. *)
Definition env_sysadmin : Env := {|
  CONTAINER_PROVIDER_KEY := "container_provider";
  CtrProvType_VCD := "vcd";
  CtrProvType_PKS := "pks";
  get_pks_cache := Some {|
    on_get_all_pks_account_info_in_system := inr pks_accounts;
    on_do_orgs_have_exclusive_pks_account := inr false;
    on_get_exclusive_pks_accounts_info_for_org := λ _, inr [];
    on_get_pvdc_info := λ _, unavailable;
    on_get_pks_account_info := λ _ _, unavailable;
    on_get_nsxt_info := λ _, unavailable |};
  on_is_sysadmin := inr true;
  on_get_org_list := inr [];
  on_get_org := unavailable;
  on_org_children := λ _, inr [];
  on_org_list_vdcs := λ _, inr [];
  on_org_get_name := λ _, inr (VStr "System");
  on_get_ovdc_container_provider_metadata := λ _, inr vcd_metadata;
  on_set_ovdc_container_provider_metadata := λ _ _ _, unavailable;
  on_get_ovdc := λ _, unavailable;
  on_get_pvdc_id := λ _, unavailable;
  on_get_compute_profile_name := λ _ _, unavailable;
  on_construct_pks_context := λ args, inr (account_fields (a_pks_account_info args));
  on_get_cluster_info := λ b cluster_name,
    match b with
    | VcdBroker _ _ =>
        if bool_decide (cluster_name = VStr "dup") then inr dup_cluster
        else no_such_cluster cluster_name
    | PKSBroker _ _ pks_ctx =>
        if (is_third_account pks_ctx && bool_decide (cluster_name = VStr "web-app"))%bool
        then inr web_app_cluster
        else inl (PksServerError 404 "cluster not found")
    end;
  on_list_clusters := λ b,
    match b with
    | VcdBroker _ _ => inr [dup_cluster]
    | PKSBroker _ _ pks_ctx =>
        if is_third_account pks_ctx then inr [web_app_cluster] else inr []
    end;
  on_create_cluster := λ _ _, inr (RValue (VStr "task/create"));
  on_resize_cluster := λ _ _ _, inr (RValue (VStr "task/resize"));
  on_delete_cluster := λ _ _, inr (RValue (VStr "task/delete"));
  on_get_cluster_config := λ _ _, inr (RValue (VStr "kubeconfig"));
  on_create_compute_profile := λ _ _, unavailable;
  unicode_lower := latin1_lower
|}.

Definition sysadmin_request (request_spec : dict) : BrokerManager :=
  {| req_headers := ∅; req_qparams := ∅; req_spec := request_spec;
     session := {["org" := VStr "System"]};
     is_ovdc_present_in_request := VNone |}.

Definition web_app_request : BrokerManager :=
  sysadmin_request {["cluster_name" := VStr "web-app"]}.

Definition ghost_request : BrokerManager :=
  sysadmin_request {["cluster_name" := VStr "ghost"]}.

(** The contexts of the four accounts. *)
Definition pks_context (n : string) : dict := account_fields (pks_account n).
Definition pks_contexts : list dict := map account_fields pks_accounts.

(** The PKS brokers of a request of the administrator. *)
Definition sysadmin_pks_broker (self : BrokerManager) (n : string) : broker :=
  PKSBroker (req_headers self) (req_spec self) (pks_context n).

(** The metadata of the vdcs of organisation Umbrella: [vdc1] and
    [vdc2] are PKS vdcs on the same vCenter, [vdc3] is a vCD vdc,
    [vdc4] a PKS vdc on a second vCenter. *)
Definition pks_metadata (vdc_name vc_name : string) : dict :=
  <["container_provider" := VStr "pks"]>
    (<["vc" := VStr vc_name]>
       (<["host" := VStr ("pks." +:+ vc_name +:+ ".example.com")]>
          (<["cpi" := VStr "cpi-1"]>
             {["pks_compute_profile_name" := VStr ("cp--" +:+ vdc_name)]}))).

Definition umbrella_metadata (q : metadata_query) : exn + dict :=
  match q_ovdc_name q with
  | VStr "vdc1" => inr (pks_metadata "vdc1" "vc1")
  | VStr "vdc2" => inr (pks_metadata "vdc2" "vc1")
  | VStr "vdc3" => inr vcd_metadata
  | VStr "vdc4" => inr (pks_metadata "vdc4" "vc2")
  | _ => unavailable
  end.

Definition umbrella_vdcs : list dict :=
  [{["name" := VStr "vdc1"]}; {["name" := VStr "vdc2"]};
   {["name" := VStr "vdc3"]}; {["name" := VStr "vdc4"]}].

Definition umbrella_pks_cache : PksCache := {|
  on_get_all_pks_account_info_in_system := unavailable;
  on_do_orgs_have_exclusive_pks_account := inr false;
  on_get_exclusive_pks_accounts_info_for_org := λ _, inr [];
  on_get_pvdc_info := λ _, inr {| vc := VStr "vc1"; pvdc_fields := ∅ |};
  on_get_pks_account_info := λ _ _, inr (pks_account "1");
  on_get_nsxt_info := λ _, inr ∅ |}.

(** A user of Umbrella; the PKS service answers a request to create a
    compute profile with the error of status [profile_status]. *)
Definition env_umbrella (profile_status : Z) : Env := {|
  CONTAINER_PROVIDER_KEY := "container_provider";
  CtrProvType_VCD := "vcd";
  CtrProvType_PKS := "pks";
  get_pks_cache := Some umbrella_pks_cache;
  on_is_sysadmin := inr false;
  on_get_org_list := unavailable;
  on_get_org := inr {| org_href := "org/umbrella" |};
  on_org_children := λ _, inr [];
  on_org_list_vdcs := λ _, inr umbrella_vdcs;
  on_org_get_name := λ _, inr (VStr "Umbrella");
  on_get_ovdc_container_provider_metadata := umbrella_metadata;
  on_set_ovdc_container_provider_metadata := λ _ _ _,
    inr {["href" := VStr "task/enable"]};
  on_get_ovdc := λ _, inr {| resource := {["name" := VStr "vdc5"]} |};
  on_get_pvdc_id := λ _, inr (VStr "pvdc-1");
  on_get_compute_profile_name := λ _ _, inr (VStr "cp--id5--vdc5");
  on_construct_pks_context := λ args, inr (account_fields (a_pks_account_info args));
  on_get_cluster_info := λ _ cluster_name, no_such_cluster cluster_name;
  on_list_clusters := λ _, inr [];
  on_create_cluster := λ _ _, inr (RValue (VStr "task/create"));
  on_resize_cluster := λ _ _ _, inr (RValue (VStr "task/resize"));
  on_delete_cluster := λ _ _, inr (RValue (VStr "task/delete"));
  on_get_cluster_config := λ _ _, inr (RValue (VStr "kubeconfig"));
  on_create_compute_profile := λ _ _,
    inl (PksServerError profile_status "compute profile");
  unicode_lower := latin1_lower
|}.

Definition umbrella_request (request_spec : dict) : BrokerManager :=
  {| req_headers := ∅; req_qparams := ∅; req_spec := request_spec;
     session := {["org" := VStr "Umbrella"]};
     is_ovdc_present_in_request := VNone |}.

(** The request to enable [vdc5] for PKS. *)
Definition enable_request : BrokerManager :=
  umbrella_request
    (<["container_provider" := VStr "pks"]>
       (<["pks_plans" := VStr "small"]>
          (<["ovdc_name" := VStr "vdc5"]>
             (<["org_name" := VStr "Umbrella"]> {["ovdc_id" := VStr "id5"]})))).



End Examples.

(** ** More example systems *)

Module MoreExamples.
Import Examples.

(** The accounts of the system, as a PKS cache. *)
Definition system_pks_cache (accounts : list PksAccountInfo) : PksCache := {|
  on_get_all_pks_account_info_in_system := inr accounts;
  on_do_orgs_have_exclusive_pks_account := inr false;
  on_get_exclusive_pks_accounts_info_for_org := λ _, inr [];
  on_get_pvdc_info := λ _, unavailable;
  on_get_pks_account_info := λ _ _, unavailable;
  on_get_nsxt_info := λ _, unavailable |}.

(** A PKS cache in which every organisation has accounts of its own. *)
Definition exclusive_pks_cache : PksCache := {|
  on_get_all_pks_account_info_in_system := unavailable;
  on_do_orgs_have_exclusive_pks_account := inr true;
  on_get_exclusive_pks_accounts_info_for_org := λ org_name,
    if bool_decide (org_name = VStr "Umbrella")
    then inr [pks_account "1"; pks_account "2"] else inr [];
  on_get_pvdc_info := λ _, unavailable;
  on_get_pks_account_info := λ _ _, unavailable;
  on_get_nsxt_info := λ _, unavailable |}.

(** A system like that of Umbrella, of which the PKS configuration,
    the role of the caller, the organisations of the directory, the
    ownership metadata and the answers of the brokers are given.  The
    compute profile of a vdc is named after the name it is asked
    under. *)
Definition env_with (pks_cache : option PksCache) (sysadmin : bool)
    (orgs : list OrgResource)
    (metadata : metadata_query → exn + dict)
    (cluster_info : broker → value → exn + dict)
    (clusters : broker → exn + list dict)
    (profile : exn + unit) : Env := {|
  CONTAINER_PROVIDER_KEY := "container_provider";
  CtrProvType_VCD := "vcd";
  CtrProvType_PKS := "pks";
  get_pks_cache := pks_cache;
  on_is_sysadmin := inr sysadmin;
  on_get_org_list := inr orgs;
  on_get_org := inr {| org_href := "org/umbrella" |};
  on_org_children := λ _, inr orgs;
  on_org_list_vdcs := λ _, inr umbrella_vdcs;
  on_org_get_name := λ _, inr (VStr "Umbrella");
  on_get_ovdc_container_provider_metadata := metadata;
  on_set_ovdc_container_provider_metadata := λ _ _ _,
    inr {["href" := VStr "task/enable"]};
  on_get_ovdc := λ _, inr {| resource := {["name" := VStr "vdc5"]} |};
  on_get_pvdc_id := λ _, inr (VStr "pvdc-1");
  on_get_compute_profile_name := λ _ ovdc_name,
    inr (VStr ("cp--id5--" +:+ str_of_value ovdc_name));
  on_construct_pks_context := λ args, inr (account_fields (a_pks_account_info args));
  on_get_cluster_info := cluster_info;
  on_list_clusters := clusters;
  on_create_cluster := λ _ _, inr (RValue (VStr "task/create"));
  on_resize_cluster := λ _ _ _, inr (RValue (VStr "task/resize"));
  on_delete_cluster := λ _ _, inr (RValue (VStr "task/delete"));
  on_get_cluster_config := λ _ _, inr (RValue (VStr "kubeconfig"));
  on_create_compute_profile := λ _ _, profile;
  unicode_lower := latin1_lower
|}.

Definition no_cluster_info (b : broker) (cluster_name : value) : exn + dict :=
  no_such_cluster cluster_name.

Definition no_clusters (b : broker) : exn + list dict := inr [].

(** Umbrella on a server without PKS configuration. *)
Definition env_no_pks : Env :=
  env_with None false [] umbrella_metadata no_cluster_info no_clusters unavailable.

(** Umbrella when the PKS service creates the compute profile; the
    account of its vCenter records where compute profiles are placed. *)
Definition placed_account : PksAccountInfo :=
  {| account_fields :=
       <["cluster" := VStr "cluster-1"]>
         (<["datacenter" := VStr "dc-1"]>
            (<["cpi" := VStr "cpi-1"]> (account_fields (pks_account "1")))) |}.

Definition placed_pks_cache : PksCache := {|
  on_get_all_pks_account_info_in_system := unavailable;
  on_do_orgs_have_exclusive_pks_account := inr false;
  on_get_exclusive_pks_accounts_info_for_org := λ _, inr [];
  on_get_pvdc_info := λ _, inr {| vc := VStr "vc1"; pvdc_fields := ∅ |};
  on_get_pks_account_info := λ _ _, inr placed_account;
  on_get_nsxt_info := λ _, inr ∅ |}.

Definition env_profile_created : Env :=
  env_with (Some placed_pks_cache) false [] umbrella_metadata no_cluster_info
    no_clusters (inr ()).

(** A system whose vdcs have no ownership metadata yet. *)
Definition env_unset : Env :=
  env_with None false [] (λ _, inr ∅) no_cluster_info no_clusters unavailable.

(** Umbrella with exclusive PKS accounts. *)
Definition env_exclusive : Env :=
  env_with (Some exclusive_pks_cache) false [] umbrella_metadata no_cluster_info
    no_clusters unavailable.

(** An administrator of a system whose PKS cache does not answer. *)
Definition env_cache_down : Env :=
  env_with (Some umbrella_pks_cache) true [] umbrella_metadata no_cluster_info
    no_clusters unavailable.

(** An administrator of a system whose second PKS account has no host
    on record. *)
Definition hostless_account : PksAccountInfo :=
  {| account_fields := {["vc" := VStr "vc9"]} |}.

Definition env_hostless : Env :=
  env_with (Some (system_pks_cache [pks_account "1"; hostless_account; pks_account "3"]))
    true [] umbrella_metadata no_cluster_info no_clusters unavailable.

(** An administrator of a system whose third PKS account does not
    list its clusters, and one whose vCD does not. *)
Definition clusters_but_third (b : broker) : exn + list dict :=
  match b with
  | VcdBroker _ _ => inr [dup_cluster]
  | PKSBroker _ _ pks_ctx =>
      if is_third_account pks_ctx then unavailable else inr [web_app_cluster]
  end.

Definition env_third_down : Env :=
  env_with (Some (system_pks_cache pks_accounts)) true [] umbrella_metadata
    no_cluster_info clusters_but_third unavailable.

Definition env_vcd_down : Env :=
  env_with (Some (system_pks_cache pks_accounts)) true [] umbrella_metadata
    no_cluster_info (λ _, unavailable) unavailable.

(** The directory of a user of Umbrella. *)
Definition env_directory : Env :=
  env_with None false [{| org_href := "org/umbrella" |}] umbrella_metadata
    no_cluster_info no_clusters unavailable.

(** The entries of the vdcs of Umbrella. *)
Definition umbrella_entry (vdc_name provider : string) : dict :=
  <["container_provider" := VStr provider]>
    (<["name" := VStr vdc_name]> {["org" := VStr "Umbrella"]}).

Definition umbrella_entries : list dict :=
  [umbrella_entry "vdc1" "pks"; umbrella_entry "vdc2" "pks";
   umbrella_entry "vdc3" "vcd"; umbrella_entry "vdc4" "pks"].

(** The request to enable [vdc5] for vCD, one to enable a vdc without
    plans, and one to enable [vdc5] for PKS under another name. *)
Definition enable_for_vcd_request : BrokerManager :=
  umbrella_request
    (<["container_provider" := VStr "vcd"]>
       (<["pks_plans" := VStr ""]> {["ovdc_id" := VStr "id5"]})).

Definition enable_without_plans_request : BrokerManager :=
  umbrella_request
    (<["container_provider" := VStr "pks"]> {["ovdc_id" := VStr "id5"]}).

Definition enable_renamed_request : BrokerManager :=
  umbrella_request
    (<["container_provider" := VStr "pks"]>
       (<["pks_plans" := VStr "small"]>
          (<["ovdc_name" := VStr "VDC-5"]>
             (<["org_name" := VStr "Umbrella"]> {["ovdc_id" := VStr "id5"]})))).

(** A request of a user of Umbrella for the cluster [new] in [vdc9]. *)
Definition new_in_vdc9_request : BrokerManager :=
  umbrella_request (<["vdc" := VStr "vdc9"]> {["cluster_name" := VStr "new"]}).

(** A PKS cluster of which only the name is known, and one of which
    the name and the status are. *)
Definition bare_cluster : dict := {["name" := VStr "web-app"]}.

Definition plain_cluster : dict :=
  <["status" := VStr "Succeeded"]> (<["vdc" := VStr "elsewhere"]> {["name" := VStr "plain"]}).

End MoreExamples.
(** ** Laws of the monad *)

Section MonadLaws.
Context {A B : Type}.

Lemma outcome_bind (m : M A) (f : A → M B) :
  outcome (m ≫= f) =
  match outcome m with inl e => inl e | inr a => outcome (f a) end.
Proof.
  destruct m as [t [e|a]]; [reflexivity|].
  unfold outcome, mbind, M_bind. simpl. destruct (f a); reflexivity.
Qed.

Lemma trace_bind (m : M A) (f : A → M B) :
  trace (m ≫= f) =
  trace m ++ match outcome m with inl _ => [] | inr a => trace (f a) end.
Proof.
  destruct m as [t [e|a]].
  - unfold trace, outcome, mbind, M_bind. simpl. by rewrite app_nil_r.
  - unfold trace, outcome, mbind, M_bind. simpl. destruct (f a); reflexivity.
Qed.

Lemma outcome_try_except (m : M A) (h : exn → M A) :
  outcome (try_except m h) =
  match outcome m with inl e => outcome (h e) | inr a => inr a end.
Proof.
  destruct m as [t [e|a]]; [|reflexivity].
  unfold outcome, try_except. simpl. destruct (h e); reflexivity.
Qed.

Lemma trace_try_except (m : M A) (h : exn → M A) :
  trace (try_except m h) =
  trace m ++ match outcome m with inl e => trace (h e) | inr _ => [] end.
Proof.
  destruct m as [t [e|a]].
  - unfold trace, outcome, try_except. simpl. destruct (h e); reflexivity.
  - unfold trace, outcome, try_except. simpl. by rewrite app_nil_r.
Qed.

Lemma M_eq (m m' : M A) : trace m = trace m' → outcome m = outcome m' → m = m'.
Proof. destruct m, m'; simpl; congruence. Qed.

End MonadLaws.

Lemma outcome_ret {A} (a : A) : outcome (mret a : M A) = inr a.
Proof. reflexivity. Qed.
Lemma trace_ret {A} (a : A) : trace (mret a : M A) = [].
Proof. reflexivity. Qed.
Lemma outcome_raise {A} (e : exn) : outcome (raise e : M A) = inl e.
Proof. reflexivity. Qed.
Lemma trace_raise {A} (e : exn) : trace (raise e : M A) = [].
Proof. reflexivity. Qed.
Lemma outcome_call {A} ev (r : exn + A) : outcome (call ev r) = r.
Proof. reflexivity. Qed.
Lemma trace_call {A} ev (r : exn + A) : trace (call ev r) = [ev].
Proof. reflexivity. Qed.
Lemma outcome_log m : outcome (log_debug m) = inr ().
Proof. reflexivity. Qed.
Lemma trace_log m : trace (log_debug m) = [ELog m].
Proof. reflexivity. Qed.

Lemma outcome_dict_getitem (d : dict) k :
  outcome (dict_getitem d k) =
  match d !! k with Some v => inr v | None => inl (KeyError k) end.
Proof. unfold dict_getitem. destruct (d !! k); reflexivity. Qed.
Lemma trace_dict_getitem (d : dict) k : trace (dict_getitem d k) = [].
Proof. unfold dict_getitem. destruct (d !! k); reflexivity. Qed.

Lemma outcome_pair {A} (t : list event) (r : exn + A) : outcome (t, r) = r.
Proof. reflexivity. Qed.
Lemma trace_pair {A} (t : list event) (r : exn + A) : trace (t, r) = t.
Proof. reflexivity. Qed.

#[global] Arguments trace {A} m : simpl never.
#[global] Arguments outcome {A} m : simpl never.

Create Rewrite HintDb monad.
#[global] Hint Rewrite @outcome_bind @trace_bind @outcome_try_except @trace_try_except
  @outcome_ret @trace_ret @outcome_raise @trace_raise @outcome_call @trace_call
  outcome_log trace_log outcome_dict_getitem trace_dict_getitem
  @outcome_pair @trace_pair : monad.

(** Unfold one layer of monadic structure and simplify. *)
Ltac msimpl :=
  repeat (autorewrite with monad; cbn beta iota zeta delta [negb andb orb app]).
Ltac msimpl_in H :=
  repeat (autorewrite with monad in H; cbn beta iota zeta delta [negb andb orb app] in H).

(** ** String lemmas *)

Lemma split_dashes_cons c s :
  split_dashes (String c s) =
  match s with
  | String c' rest =>
      if (Ascii.eqb c "-" && Ascii.eqb c' "-")%bool
      then "" :: split_dashes rest
      else match split_dashes s with
           | seg :: segs => String c seg :: segs
           | [] => [String c ""]
           end
  | EmptyString => [String c ""]
  end.
Proof. destruct s; reflexivity. Qed.

Lemma split_dashes_nonempty s : split_dashes s ≠ [].
Proof.
  induction s as [|c s IH]; [done|].
  rewrite split_dashes_cons. destruct s as [|c' rest]; [done|].
  destruct (Ascii.eqb c "-" && Ascii.eqb c' "-")%bool; [done|].
  destruct (split_dashes (String c' rest)); done.
Qed.

Lemma join_dashes_cons_char c seg segs :
  join_dashes (String c seg :: segs) = String c (join_dashes (seg :: segs)).
Proof. destruct segs; reflexivity. Qed.

Lemma join_dashes_empty_head segs :
  segs ≠ [] → join_dashes ("" :: segs) = "--" +:+ join_dashes segs.
Proof. destruct segs; [done|reflexivity]. Qed.

(** Both properties below need the induction hypothesis two characters
    further, hence the induction on a bound of the length. *)
Lemma join_split_dashes_bounded n s :
  (String.length s ≤ n)%nat → join_dashes (split_dashes s) = s.
Proof.
  revert s. induction n as [|n IH]; intros s Hlen.
  - destruct s; [reflexivity | simpl in Hlen; lia].
  - destruct s as [|c s]; [reflexivity|].
    rewrite split_dashes_cons. destruct s as [|c' rest]; [reflexivity|].
    destruct (Ascii.eqb c "-") eqn:Ec, (Ascii.eqb c' "-") eqn:Ec'; simpl andb; cbv iota.
    + apply Ascii.eqb_eq in Ec, Ec'. subst.
      rewrite join_dashes_empty_head by apply split_dashes_nonempty.
      rewrite IH; [reflexivity | simpl in Hlen; lia].
    + pose proof (IH (String c' rest)) as IH'.
      destruct (split_dashes (String c' rest)) as [|seg segs] eqn:E.
      { by apply split_dashes_nonempty in E. }
      rewrite join_dashes_cons_char, IH'; [reflexivity | simpl in *; lia].
    + pose proof (IH (String c' rest)) as IH'.
      destruct (split_dashes (String c' rest)) as [|seg segs] eqn:E.
      { by apply split_dashes_nonempty in E. }
      rewrite join_dashes_cons_char, IH'; [reflexivity | simpl in *; lia].
    + pose proof (IH (String c' rest)) as IH'.
      destruct (split_dashes (String c' rest)) as [|seg segs] eqn:E.
      { by apply split_dashes_nonempty in E. }
      rewrite join_dashes_cons_char, IH'; [reflexivity | simpl in *; lia].
Qed.

(** Joining the segments with the separator gives the string back. *)
Lemma join_split_dashes s : join_dashes (split_dashes s) = s.
Proof. by apply (join_split_dashes_bounded (String.length s)). Qed.

(** The first segment is empty or starts like the string. *)
Lemma split_dashes_head c s seg segs :
  split_dashes (String c s) = seg :: segs →
  seg = "" ∨ ∃ seg', seg = String c seg'.
Proof.
  rewrite split_dashes_cons. destruct s as [|c' rest].
  - intros [= <- <-]. right. by eexists.
  - destruct (Ascii.eqb c "-" && Ascii.eqb c' "-")%bool.
    + intros [= <- <-]. by left.
    + destruct (split_dashes (String c' rest)); intros [= <- <-]; right; by eexists.
Qed.

Lemma has_dashes_cons c s :
  has_dashes (String c s) =
  match s with
  | String c' _ => (Ascii.eqb c "-" && Ascii.eqb c' "-") || has_dashes s
  | EmptyString => false
  end.
Proof. destruct s; reflexivity. Qed.

Lemma split_dashes_segments_bounded n s :
  (String.length s ≤ n)%nat → Forall (λ seg, has_dashes seg = false) (split_dashes s).
Proof.
  revert s. induction n as [|n IH]; intros s Hlen.
  - destruct s; [by repeat constructor | simpl in Hlen; lia].
  - destruct s as [|c s]; [by repeat constructor|].
    rewrite split_dashes_cons. destruct s as [|c' rest]; [by repeat constructor|].
    destruct (Ascii.eqb c "-" && Ascii.eqb c' "-")%bool eqn:Edd.
    + constructor; [reflexivity|]. apply IH. simpl in Hlen. lia.
    + pose proof (IH (String c' rest)) as IH'.
      destruct (split_dashes (String c' rest)) as [|seg segs] eqn:E.
      { by apply split_dashes_nonempty in E. }
      assert (Hall : Forall (λ seg, has_dashes seg = false) (seg :: segs)).
      { apply IH'. simpl in *. lia. }
      apply Forall_cons in Hall as [Hseg Hsegs]. constructor; [|done].
      apply split_dashes_head in E as [->|[seg' ->]]; [reflexivity|].
      rewrite has_dashes_cons, Edd. exact Hseg.
Qed.

(** No segment contains the separator. *)
Lemma split_dashes_segments s :
  Forall (λ seg, has_dashes seg = false) (split_dashes s).
Proof. by apply (split_dashes_segments_bounded (String.length s)). Qed.

Lemma last_segment_elem l : l ≠ [] → last_segment l ∈ l.
Proof.
  unfold last_segment. induction l as [|x l IH]; [done|]. intros _.
  destruct l as [|y l]; [simpl; by left|].
  right. change (List.last (x :: y :: l) "") with (List.last (y :: l) "").
  by apply IH.
Qed.

Lemma last_segment_no_dashes s : has_dashes (last_segment (split_dashes s)) = false.
Proof.
  pose proof (split_dashes_segments s) as Hall.
  rewrite Forall_forall in Hall. apply Hall, last_segment_elem, split_dashes_nonempty.
Qed.

(** ** Dictionary lemmas *)

Lemma foldl_insert_lookup (f : string → value) keys (d0 : dict) k :
  foldl (λ d k, <[k := f k]> d) d0 keys !! k =
  if decide (k ∈ keys) then Some (f k) else d0 !! k.
Proof.
  revert d0. induction keys as [|k' keys IH]; intros d0; cbn [foldl].
  - destruct (decide (k ∈ [])) as [Hin|_]; [by apply elem_of_nil in Hin | done].
  - rewrite IH.
    destruct (decide (k ∈ keys)) as [Hin|Hnin], (decide (k ∈ k' :: keys)) as [Hin'|Hnin'];
      try done.
    + exfalso. apply Hnin'. by right.
    + apply elem_of_cons in Hin' as [->|?]; [|done]. by rewrite lookup_insert_eq.
    + rewrite lookup_insert_ne; [done|]. intros ->. apply Hnin'. by left.
Qed.

Lemma dict_comprehension_lookup keys f k :
  dict_comprehension keys f !! k = if decide (k ∈ keys) then Some (f k) else None.
Proof. unfold dict_comprehension. by rewrite foldl_insert_lookup, lookup_empty. Qed.

(** ** Observations distribute over traces *)

Lemma broker_calls_app t t' : broker_calls (t ++ t') = broker_calls t ++ broker_calls t'.
Proof. apply omap_app. Qed.

Lemma broker_calls_cons ev t :
  broker_calls (ev :: t) =
  match ev with EBroker b c => (b, c) :: broker_calls t | _ => broker_calls t end.
Proof. by destruct ev. Qed.

Lemma broker_calls_nil : broker_calls [] = [].
Proof. reflexivity. Qed.

(** Simplify the broker calls of a computation, by cases on the
    answers of the collaborators. *)
Ltac no_broker_calls :=
  repeat (msimpl;
          rewrite ?broker_calls_app, ?broker_calls_cons, ?broker_calls_nil;
          cbn beta iota zeta;
          try reflexivity;
          try case_match).

Lemma probes_of_broker_calls t :
  probes t = omap (λ bc, match bc with (b, GetClusterInfo _) => Some b | _ => None end)
               (broker_calls t).
Proof.
  induction t as [|ev t IH]; [reflexivity|].
  destruct ev as [b []| | | |]; simpl; by rewrite ?IH.
Qed.

Lemma create_calls_of_broker_calls t :
  create_calls t =
  omap (λ bc, match bc with (b, CreateCluster s) => Some (b, s) | _ => None end)
    (broker_calls t).
Proof.
  induction t as [|ev t IH]; [reflexivity|].
  destruct ev as [b []| | | |]; simpl; by rewrite ?IH.
Qed.

Lemma config_calls_of_broker_calls t :
  config_calls t =
  omap (λ bc, match bc with (b, GetClusterConfig s) => Some (b, s) | _ => None end)
    (broker_calls t).
Proof.
  induction t as [|ev t IH]; [reflexivity|].
  destruct ev as [b []| | | |]; simpl; by rewrite ?IH.
Qed.

Lemma broker_calls_probes (bs : list broker) n :
  omap (λ bc, match bc with (b, GetClusterInfo _) => Some b | _ => None end)
    (map (λ b, (b, GetClusterInfo n)) bs) = bs.
Proof. induction bs as [|b bs IH]; [reflexivity|]. simpl. f_equal. exact IH. Qed.

(** A list either satisfies a decidable property everywhere or has a
    first element that does not. *)
Lemma Forall_or_first {A} (P : A → Prop) `{∀ x, Decision (P x)} (l : list A) :
  Forall P l ∨ ∃ pre x post, l = pre ++ x :: post ∧ Forall P pre ∧ ¬ P x.
Proof.
  induction l as [|x l IH]; [by left|].
  destruct (decide (P x)) as [Hx|Hx].
  - destruct IH as [Hall|(pre & y & post & -> & Hpre & Hy)].
    + left. by constructor.
    + right. exists (x :: pre), y, post. split; [done|]. split; [by constructor|done].
  - right. exists [], x, l. split; [done|]. split; [constructor|done].
Qed.

Lemma first_unique {A} (P : A → Prop) (pre pre' : list A) x x' post post' :
  pre ++ x :: post = pre' ++ x' :: post' →
  Forall P pre → ¬ P x → Forall P pre' → ¬ P x' →
  pre = pre' ∧ x = x' ∧ post = post'.
Proof.
  revert pre'. induction pre as [|y pre IH]; intros [|y' pre'] Heq Hpre Hx Hpre' Hx';
    simpl in Heq.
  - by injection Heq as -> ->.
  - injection Heq as -> ->. apply Forall_cons in Hpre' as [? _]. done.
  - injection Heq as -> <-. apply Forall_cons in Hpre as [? _]. done.
  - injection Heq as -> Heq. apply Forall_cons in Hpre as [_ Hpre].
    apply Forall_cons in Hpre' as [_ Hpre'].
    destruct (IH pre' Heq Hpre Hx Hpre' Hx') as (-> & -> & ->). done.
Qed.

(** ** The search of a cluster among the brokers *)

Section Search.
Context `{Env} (self : BrokerManager) (cluster_name : value).

Local Abbreviation PKS := (PKSBroker (req_headers self) (req_spec self)).
Local Abbreviation VCD := (VcdBroker (req_headers self) (req_spec self)).
Local Abbreviation probe b := (EBroker b (GetClusterInfo cluster_name)).

Lemma find_cluster_in_pks_hit pks_ctx rest cluster :
  on_get_cluster_info (PKS pks_ctx) cluster_name = inr cluster →
  find_cluster_in_pks self cluster_name (pks_ctx :: rest)
  = ([probe (PKS pks_ctx)], inr (Some (cluster, PKS pks_ctx))).
Proof.
  intros Hhit. cbn [find_cluster_in_pks]. unfold broker_get_cluster_info.
  rewrite Hhit. reflexivity.
Qed.

Lemma find_cluster_in_pks_miss pks_ctx rest err host :
  on_get_cluster_info (PKS pks_ctx) cluster_name = inl err →
  pks_ctx !! "host" = Some host →
  trace (find_cluster_in_pks self cluster_name (pks_ctx :: rest))
  = [probe (PKS pks_ctx);
     ELog (LogGetClusterInfoFailedOnPks cluster_name host err)]
    ++ trace (find_cluster_in_pks self cluster_name rest) ∧
  outcome (find_cluster_in_pks self cluster_name (pks_ctx :: rest))
  = outcome (find_cluster_in_pks self cluster_name rest).
Proof.
  intros Hmiss Hhost. cbn [find_cluster_in_pks]. unfold broker_get_cluster_info.
  split; msimpl; rewrite Hmiss; msimpl; rewrite Hhost; msimpl; reflexivity.
Qed.

Lemma find_cluster_in_pks_all_raise pks_ctx_list :
  Forall has_host pks_ctx_list →
  Forall (λ ctx, raises (on_get_cluster_info (PKS ctx) cluster_name)) pks_ctx_list →
  outcome (find_cluster_in_pks self cluster_name pks_ctx_list) = inr None ∧
  broker_calls (trace (find_cluster_in_pks self cluster_name pks_ctx_list))
  = map (λ b, (b, GetClusterInfo cluster_name)) (map PKS pks_ctx_list) ∧
  ∀ ctx err, ctx ∈ pks_ctx_list →
    on_get_cluster_info (PKS ctx) cluster_name = inl err →
    ELog (probe_failure_log cluster_name (PKS ctx) err)
    ∈ trace (find_cluster_in_pks self cluster_name pks_ctx_list).
Proof.
  induction pks_ctx_list as [|ctx l IH]; intros Hhost Hraise.
  - split; [reflexivity|]. split; [reflexivity|]. intros ? ? Hin. by apply elem_of_nil in Hin.
  - apply Forall_cons in Hhost as [[host Hh] Hhost].
    apply Forall_cons in Hraise as [Hr Hraise].
    destruct (on_get_cluster_info (PKS ctx) cluster_name) as [err|] eqn:E; [|done].
    destruct (find_cluster_in_pks_miss ctx l err host E Hh) as [Ht Ho].
    destruct (IH Hhost Hraise) as (IHo & IHc & IHl).
    rewrite Ht, Ho. split; [done|]. split.
    + rewrite broker_calls_app, IHc. reflexivity.
    + intros ctx' err' Hin Herr. apply elem_of_cons in Hin as [->|Hin].
      * rewrite E in Herr. injection Herr as <-. simpl. unfold dict_get. rewrite Hh.
        simpl. right. left.
      * apply elem_of_app. right. by apply IHl.
Qed.

Lemma find_cluster_in_pks_first_hit pre pks_ctx post cluster :
  Forall has_host pre →
  Forall (λ ctx, raises (on_get_cluster_info (PKS ctx) cluster_name)) pre →
  on_get_cluster_info (PKS pks_ctx) cluster_name = inr cluster →
  outcome (find_cluster_in_pks self cluster_name (pre ++ pks_ctx :: post))
  = inr (Some (cluster, PKS pks_ctx)) ∧
  broker_calls (trace (find_cluster_in_pks self cluster_name (pre ++ pks_ctx :: post)))
  = map (λ b, (b, GetClusterInfo cluster_name)) (map PKS (pre ++ [pks_ctx])) ∧
  ∀ ctx err, ctx ∈ pre →
    on_get_cluster_info (PKS ctx) cluster_name = inl err →
    ELog (probe_failure_log cluster_name (PKS ctx) err)
    ∈ trace (find_cluster_in_pks self cluster_name (pre ++ pks_ctx :: post)).
Proof.
  intros Hhost Hraise Hhit. induction pre as [|ctx l IH].
  - simpl app. rewrite (find_cluster_in_pks_hit _ _ _ Hhit).
    split; [reflexivity|]. split; [reflexivity|]. intros ? ? Hin. by apply elem_of_nil in Hin.
  - apply Forall_cons in Hhost as [[host Hh] Hhost].
    apply Forall_cons in Hraise as [Hr Hraise].
    destruct (on_get_cluster_info (PKS ctx) cluster_name) as [err|] eqn:E; [|done].
    destruct (find_cluster_in_pks_miss ctx (l ++ pks_ctx :: post) err host E Hh) as [Ht Ho].
    destruct (IH Hhost Hraise) as (IHo & IHc & IHl).
    rewrite <- app_comm_cons, Ht, Ho. split; [done|]. split.
    + rewrite broker_calls_app, IHc. reflexivity.
    + intros ctx' err' Hin Herr. apply elem_of_cons in Hin as [->|Hin].
      * rewrite E in Herr. injection Herr as <-. simpl. unfold dict_get. rewrite Hh.
        simpl. right. left.
      * apply elem_of_app. right. by apply IHl.
Qed.

Lemma broker_calls_for_each {A B} (f : A → M B) (l : list A) :
  (∀ x, broker_calls (trace (f x)) = []) →
  broker_calls (trace (for_each f l)) = [].
Proof.
  intros Hf. induction l as [|x l IH]; [reflexivity|].
  cbn [for_each]. msimpl. rewrite broker_calls_app, Hf.
  destruct (outcome (f x)); [reflexivity|]. msimpl.
  rewrite broker_calls_app, IH. by destruct (outcome (for_each f l)).
Qed.

Lemma broker_calls_collect_pks_ctx_dict org_name vdc_names pks_ctx_dict :
  broker_calls (trace (collect_pks_ctx_dict org_name vdc_names pks_ctx_dict)) = [].
Proof.
  revert pks_ctx_dict. induction vdc_names as [|vdc_name rest IH]; intros d; [reflexivity|].
  cbn [collect_pks_ctx_dict]. unfold ovdc_cache_get_ovdc_container_provider_metadata.
  no_broker_calls; rewrite IH; reflexivity.
Qed.

(** The enumeration of the accounts calls no broker. *)
Lemma broker_calls_enumeration :
  broker_calls (trace (_create_pks_context_for_all_accounts_in_org self)) = [].
Proof.
  unfold _create_pks_context_for_all_accounts_in_org.
  destruct get_pks_cache as [pks_cache|]; [|reflexivity].
  assert (Hctx : ∀ l, broker_calls (trace (for_each pks_context_of_account l)) = []).
  { intros l. by apply broker_calls_for_each. }
  assert (Hnames : ∀ l : list dict,
             broker_calls (trace (for_each (λ vdc, dict_getitem vdc "name") l)) = []).
  { intros l. apply broker_calls_for_each. intros x. by rewrite trace_dict_getitem. }
  unfold vcd_client_is_sysadmin, pks_cache_get_all_pks_account_info_in_system,
    pks_cache_do_orgs_have_exclusive_pks_account,
    pks_cache_get_exclusive_pks_accounts_info_for_org, vcd_client_get_org, org_list_vdcs.
  no_broker_calls;
    rewrite ?Hctx, ?Hnames, ?broker_calls_collect_pks_ctx_dict; no_broker_calls.
Qed.

Lemma find_cluster_in_org_vcd_hit cluster :
  on_get_cluster_info VCD cluster_name = inr cluster →
  _find_cluster_in_org self cluster_name = ([probe VCD], inr (Some (cluster, VCD))).
Proof.
  intros Hhit. unfold _find_cluster_in_org, broker_get_cluster_info.
  rewrite Hhit. reflexivity.
Qed.

Lemma find_cluster_in_org_vcd_miss err :
  on_get_cluster_info VCD cluster_name = inl err →
  trace (_find_cluster_in_org self cluster_name)
  = [probe VCD; ELog (LogGetClusterInfoFailedOnVcd cluster_name err)]
    ++ trace (_create_pks_context_for_all_accounts_in_org self)
    ++ match outcome (_create_pks_context_for_all_accounts_in_org self) with
       | inl _ => []
       | inr pks_ctx_list => trace (find_cluster_in_pks self cluster_name pks_ctx_list)
       end ∧
  outcome (_find_cluster_in_org self cluster_name)
  = match outcome (_create_pks_context_for_all_accounts_in_org self) with
    | inl e => inl e
    | inr pks_ctx_list => outcome (find_cluster_in_pks self cluster_name pks_ctx_list)
    end.
Proof.
  intros Hmiss. unfold _find_cluster_in_org, broker_get_cluster_info.
  split; msimpl; rewrite Hmiss; msimpl; reflexivity.
Qed.

(** The search when every candidate raises. *)
Lemma search_all_raise pks_ctx_list :
  outcome (_create_pks_context_for_all_accounts_in_org self) = inr pks_ctx_list →
  Forall has_host pks_ctx_list →
  Forall (λ b, raises (on_get_cluster_info b cluster_name)) (candidates self pks_ctx_list) →
  outcome (_find_cluster_in_org self cluster_name) = inr None ∧
  broker_calls (trace (_find_cluster_in_org self cluster_name))
  = map (λ b, (b, GetClusterInfo cluster_name)) (candidates self pks_ctx_list) ∧
  ∀ b err, b ∈ candidates self pks_ctx_list →
    on_get_cluster_info b cluster_name = inl err →
    ELog (probe_failure_log cluster_name b err)
    ∈ trace (_find_cluster_in_org self cluster_name).
Proof.
  intros Henum Hhost Hraise. unfold candidates in *.
  apply Forall_cons in Hraise as [Hvcd Hpks]. rewrite Forall_map in Hpks.
  destruct (on_get_cluster_info VCD cluster_name) as [err|] eqn:E; [|done].
  destruct (find_cluster_in_org_vcd_miss err E) as [Ht Ho].
  destruct (find_cluster_in_pks_all_raise pks_ctx_list Hhost Hpks) as (Po & Pc & Pl).
  rewrite Ht, Ho, Henum. split; [done|]. split.
  - rewrite !broker_calls_app, broker_calls_enumeration, Pc. reflexivity.
  - intros b err' Hin Herr. apply elem_of_cons in Hin as [->|Hin].
    + rewrite E in Herr. injection Herr as <-. right. left.
    + apply list_elem_of_fmap in Hin as (ctx & -> & Hin).
      apply elem_of_app. right. apply elem_of_app. right. by apply Pl.
Qed.

(** The search when a candidate answers and those before it raise. *)
Lemma search_first_hit pks_ctx_list pre b post cluster :
  outcome (_create_pks_context_for_all_accounts_in_org self) = inr pks_ctx_list →
  Forall has_host pks_ctx_list →
  candidates self pks_ctx_list = pre ++ b :: post →
  Forall (λ b, raises (on_get_cluster_info b cluster_name)) pre →
  on_get_cluster_info b cluster_name = inr cluster →
  outcome (_find_cluster_in_org self cluster_name) = inr (Some (cluster, b)) ∧
  broker_calls (trace (_find_cluster_in_org self cluster_name))
  = map (λ b, (b, GetClusterInfo cluster_name)) (pre ++ [b]) ∧
  ∀ b' err, b' ∈ pre →
    on_get_cluster_info b' cluster_name = inl err →
    ELog (probe_failure_log cluster_name b' err)
    ∈ trace (_find_cluster_in_org self cluster_name).
Proof.
  intros Henum Hhost Hcands Hraise Hhit. unfold candidates in Hcands.
  destruct pre as [|b0 pre].
  - injection Hcands as <- _. rewrite (find_cluster_in_org_vcd_hit _ Hhit).
    split; [reflexivity|]. split; [reflexivity|]. intros ? ? Hin. by apply elem_of_nil in Hin.
  - injection Hcands as <- Hrest.
    apply Forall_cons in Hraise as [Hvcd Hpre].
    destruct (on_get_cluster_info VCD cluster_name) as [err|] eqn:E; [|done].
    destruct (find_cluster_in_org_vcd_miss err E) as [Ht Ho].
    apply fmap_app_inv in Hrest as (cpre & crest & -> & Hcrest & ->).
    symmetry in Hcrest. apply fmap_cons_inv in Hcrest as (ctx & cpost & -> & -> & ->).
    apply Forall_app in Hhost as [Hhpre _]. rewrite Forall_map in Hpre.
    destruct (find_cluster_in_pks_first_hit cpre ctx cpost cluster Hhpre Hpre Hhit)
      as (Po & Pc & Pl).
    rewrite Ht, Ho, Henum. split; [done|]. split.
    + rewrite !broker_calls_app, broker_calls_enumeration, Pc.
      rewrite !fmap_app. reflexivity.
    + intros b' err' Hin Herr. apply elem_of_cons in Hin as [->|Hin].
      * rewrite E in Herr. injection Herr as <-. right. left.
      * apply list_elem_of_fmap in Hin as (ctx' & -> & Hin).
        apply elem_of_app. right. apply elem_of_app. right. by apply Pl.
Qed.

End Search.

(** ** The operations in terms of the search and of the resolution *)

Section Operations.
Context `{Env} (self : BrokerManager).

Local Abbreviation VCD := (VcdBroker (req_headers self) (req_spec self)).

Lemma broker_calls_get_broker_based_on_vdc :
  broker_calls (trace (get_broker_based_on_vdc self)) = [].
Proof.
  unfold get_broker_based_on_vdc, ovdc_cache_get_ovdc_container_provider_metadata.
  no_broker_calls.
Qed.

(** Without a vdc name or without an org name no metadata is looked
    up and the vCD broker is returned. *)
Lemma get_broker_based_on_vdc_fallback :
  let ovdc_name :=
    py_or (dict_get (req_spec self) "vdc") (dict_get (req_qparams self) "vdc") in
  let org_name :=
    py_or (py_or (dict_get (req_spec self) "org") (dict_get (req_qparams self) "org"))
          (dict_get (session self) "org") in
  truthy ovdc_name = false ∨ truthy org_name = false →
  get_broker_based_on_vdc self = ([ELog (LogOrgAndVdc org_name ovdc_name)], inr VCD).
Proof.
  intros ovdc_name org_name Hmissing. unfold get_broker_based_on_vdc.
  fold ovdc_name org_name.
  assert (Hand : (truthy ovdc_name && truthy org_name)%bool = false).
  { destruct Hmissing as [->| ->]; [reflexivity | apply andb_false_r]. }
  rewrite Hand. reflexivity.
Qed.

Lemma create_calls_probes (bs : list broker) n :
  omap (λ bc, match bc with (b, CreateCluster s) => Some (b, s) | _ => None end)
    (map (λ b : broker, (b, GetClusterInfo n)) bs) = [].
Proof. induction bs as [|b bs IH]; [reflexivity|]. simpl. exact IH. Qed.

Lemma config_calls_probes (bs : list broker) n :
  omap (λ bc, match bc with (b, GetClusterConfig s) => Some (b, s) | _ => None end)
    (map (λ b : broker, (b, GetClusterInfo n)) bs) = [].
Proof. induction bs as [|b bs IH]; [reflexivity|]. simpl. exact IH. Qed.


(** [_create_cluster] when the search returns nothing. *)
Lemma create_cluster_not_found cluster_spec cluster_name :
  cluster_spec !! "cluster_name" = Some cluster_name →
  outcome (_find_cluster_in_org self cluster_name) = inr None →
  trace (_create_cluster self cluster_spec)
  = trace (_find_cluster_in_org self cluster_name)
    ++ trace (get_broker_based_on_vdc self)
    ++ match outcome (get_broker_based_on_vdc self) with
       | inl _ => []
       | inr b => [EBroker b (CreateCluster cluster_spec)]
       end ∧
  outcome (_create_cluster self cluster_spec)
  = match outcome (get_broker_based_on_vdc self) with
    | inl e => inl e
    | inr b => on_create_cluster b cluster_spec
    end.
Proof.
  intros Hname Hfound. unfold _create_cluster, broker_create_cluster.
  split; msimpl; rewrite Hname; msimpl; rewrite Hfound; msimpl;
    destruct (outcome (get_broker_based_on_vdc self)); msimpl; reflexivity.
Qed.

(** [_get_cluster_info] without a vdc in the request. *)
Lemma get_cluster_info_search cluster_spec cluster_name :
  cluster_spec !! "cluster_name" = Some cluster_name →
  truthy (is_ovdc_present_in_request self) = false →
  trace (_get_cluster_info self cluster_spec)
  = trace (_find_cluster_in_org self cluster_name) ∧
  outcome (_get_cluster_info self cluster_spec)
  = match outcome (_find_cluster_in_org self cluster_name) with
    | inl e => inl e
    | inr (Some (cluster, b)) =>
        if dict_truthy cluster then inr (cluster, b)
        else inl (cluster_not_found cluster_name)
    | inr None => inl (cluster_not_found cluster_name)
    end.
Proof.
  intros Hname Hflag. unfold _get_cluster_info. rewrite Hflag.
  split; msimpl; rewrite Hname; msimpl;
    destruct (outcome (_find_cluster_in_org self cluster_name)) as [|[[c b]|]];
    msimpl; rewrite ?app_nil_r; try reflexivity;
    destruct (dict_truthy c); msimpl; rewrite ?app_nil_r; reflexivity.
Qed.

(** [_get_cluster_config] without a vdc in the request. *)
Lemma get_cluster_config_search cluster_spec cluster_name :
  cluster_spec !! "cluster_name" = Some cluster_name →
  truthy (is_ovdc_present_in_request self) = false →
  trace (_get_cluster_config self cluster_spec)
  = trace (_find_cluster_in_org self cluster_name)
    ++ match outcome (_find_cluster_in_org self cluster_name) with
       | inr (Some (cluster, b)) =>
           if dict_truthy cluster then
             match cluster !! "name" with
             | Some name => [EBroker b (GetClusterConfig name)]
             | None => []
             end
           else []
       | _ => []
       end ∧
  outcome (_get_cluster_config self cluster_spec)
  = match outcome (_find_cluster_in_org self cluster_name) with
    | inl e => inl e
    | inr (Some (cluster, b)) =>
        if dict_truthy cluster then
          match cluster !! "name" with
          | Some name => on_get_cluster_config b name
          | None => inl (KeyError "name")
          end
        else inl (cluster_not_found cluster_name)
    | inr None => inl (cluster_not_found cluster_name)
    end.
Proof.
  intros Hname Hflag. unfold _get_cluster_config, broker_get_cluster_config.
  rewrite Hflag.
  split; msimpl; rewrite Hname; msimpl;
    destruct (outcome (_find_cluster_in_org self cluster_name)) as [|[[c b]|]];
    msimpl; rewrite ?app_nil_r; try reflexivity;
    destruct (dict_truthy c); msimpl; rewrite ?app_nil_r; try reflexivity;
    destruct (c !! "name"); msimpl; reflexivity.
Qed.

End Operations.

(** ** Requests that name their vdc *)

Section Direct.
Context `{Env} (self : BrokerManager) (ctr_prov_ctx : dict).
Hypothesis Hvalid : explicit_valid_vdc self ctr_prov_ctx.

Lemma get_broker_based_on_vdc_direct :
  get_broker_based_on_vdc self
  = (resolution_events self ctr_prov_ctx, inr (resolved_broker self ctr_prov_ctx)).
Proof.
  destruct Hvalid as (Hvdc & Horg & Hmeta & Hprov).
  unfold get_broker_based_on_vdc, ovdc_cache_get_ovdc_container_provider_metadata.
  fold (request_vdc self) (request_org self).
  rewrite Hvdc, Horg. cbn [andb].
  fold (direct_query (request_vdc self) (request_org self)). rewrite Hmeta.
  unfold resolved_broker, resolution_events.
  destruct Hprov as [Hp|Hp]; apply M_eq; msimpl; rewrite Hp.
  - rewrite bool_decide_eq_true_2 by done. msimpl. reflexivity.
  - rewrite bool_decide_eq_true_2 by done. msimpl. reflexivity.
  - destruct (bool_decide (VStr CtrProvType_VCD = VStr CtrProvType_PKS)); msimpl;
      [reflexivity|]. rewrite bool_decide_eq_true_2 by done. msimpl. reflexivity.
  - destruct (bool_decide (VStr CtrProvType_VCD = VStr CtrProvType_PKS)); msimpl;
      [reflexivity|]. rewrite bool_decide_eq_true_2 by done. msimpl. reflexivity.
Qed.

Lemma flag_of_explicit_valid_vdc :
  truthy (is_ovdc_present_in_request (with_ovdc_flag self)) = true.
Proof. by destruct Hvalid as (Hvdc & _). Qed.

End Direct.

(** The search does not read the flag that [invoke] sets. *)
Lemma find_cluster_in_pks_with_flag `{Env} self cluster_name pks_ctx_list :
  find_cluster_in_pks (with_ovdc_flag self) cluster_name pks_ctx_list
  = find_cluster_in_pks self cluster_name pks_ctx_list.
Proof.
  induction pks_ctx_list as [|pks_ctx rest IH]; [reflexivity|].
  cbn [find_cluster_in_pks]. rewrite IH. reflexivity.
Qed.

Lemma find_cluster_in_org_with_flag `{Env} self cluster_name :
  _find_cluster_in_org (with_ovdc_flag self) cluster_name
  = _find_cluster_in_org self cluster_name.
Proof.
  unfold _find_cluster_in_org.
  change (_create_pks_context_for_all_accounts_in_org (with_ovdc_flag self))
    with (_create_pks_context_for_all_accounts_in_org self).
  unfold broker_get_cluster_info.
  change (req_headers (with_ovdc_flag self)) with (req_headers self).
  change (req_spec (with_ovdc_flag self)) with (req_spec self).
  apply M_eq; msimpl;
    destruct (on_get_cluster_info _ cluster_name); msimpl; try reflexivity;
    destruct (outcome (_create_pks_context_for_all_accounts_in_org self)); msimpl;
    rewrite ?find_cluster_in_pks_with_flag; reflexivity.
Qed.

Lemma enumeration_with_flag `{Env} self :
  _create_pks_context_for_all_accounts_in_org (with_ovdc_flag self)
  = _create_pks_context_for_all_accounts_in_org self.
Proof. reflexivity. Qed.

Lemma explicit_valid_vdc_with_flag `{Env} self ctr_prov_ctx :
  explicit_valid_vdc self ctr_prov_ctx →
  explicit_valid_vdc (with_ovdc_flag self) ctr_prov_ctx.
Proof. done. Qed.

(** ** Dictionaries in insertion order *)

Section PyDict.
Context {K V : Type} `{EqDecision K}.
Implicit Types (d : list (K * V)) (k : K) (v : V).

Lemma pydict_setitem_keys d k v :
  map fst (pydict_setitem d k v)
  = if decide (k ∈ map fst d) then map fst d else map fst d ++ [k].
Proof.
  induction d as [|[k' v'] d IH]; cbn [pydict_setitem map fst].
  - destruct (decide (k ∈ [])) as [Hin|_]; [by apply elem_of_nil in Hin | done].
  - destruct (decide (k' = k)) as [->|Hne]; cbn [map fst].
    + destruct (decide (k ∈ k :: map fst d)) as [_|Hn]; [done|].
      exfalso. apply Hn. by left.
    + rewrite IH.
      destruct (decide (k ∈ map fst d)) as [Hin|Hnin],
               (decide (k ∈ k' :: map fst d)) as [Hin'|Hnin']; try done.
      * exfalso. apply Hnin'. by right.
      * apply elem_of_cons in Hin' as [?|?]; congruence.
Qed.

Lemma pydict_setitem_elem d k v k' v' :
  (k', v') ∈ pydict_setitem d k v → (k' = k ∧ v' = v) ∨ (k', v') ∈ d.
Proof.
  induction d as [|[k0 v0] d IH]; simpl.
  - intros [= -> ->]%list_elem_of_singleton. by left.
  - destruct (decide (k0 = k)) as [->|Hne].
    + intros [[= -> ->]|Hin]%elem_of_cons; [by left|]. right. by right.
    + intros [[= -> ->]|Hin]%elem_of_cons; [right; by left|].
      destruct (IH Hin) as [?|?]; [by left|]. right. by right.
Qed.

Lemma pydict_setitem_NoDup d k v :
  NoDup (map fst d) → NoDup (map fst (pydict_setitem d k v)).
Proof.
  intros Hnd. rewrite pydict_setitem_keys. destruct (decide (k ∈ map fst d)); [done|].
  apply NoDup_app. split; [done|]. split; [|apply NoDup_singleton].
  intros x Hx ->%list_elem_of_singleton. done.
Qed.

Lemma pydict_setitem_key k' d k v :
  k' = k ∨ k' ∈ map fst d → k' ∈ map fst (pydict_setitem d k v).
Proof.
  rewrite pydict_setitem_keys. destruct (decide (k ∈ map fst d)) as [Hin|Hnin].
  - intros [->|?]; done.
  - intros [->|?]; apply elem_of_app; [right; by left | by left].
Qed.

End PyDict.



(** ** The enumeration of the accounts *)

Section Enumeration.
Context `{Env}.

Lemma for_each_names (vdcs : list dict) (names : list value) :
  Forall2 (λ vdc name, vdc !! "name" = Some name) vdcs names →
  for_each (λ vdc, dict_getitem vdc "name") vdcs = ([], inr names).
Proof.
  induction 1 as [|vdc name vdcs names Hname _ IH]; [reflexivity|].
  cbn [for_each]. apply M_eq; msimpl; rewrite Hname; msimpl; rewrite IH; by msimpl.
Qed.

Lemma collect_pks_ctx_dict_fold org_name names metas pks_ctx_dict :
  Forall2 (metadata_of org_name) names metas →
  outcome (collect_pks_ctx_dict org_name names pks_ctx_dict)
    = inr (fold_pks_ctx_dict metas pks_ctx_dict) ∧
  metadata_lookups (trace (collect_pks_ctx_dict org_name names pks_ctx_dict))
    = map (λ name, enumeration_query name org_name) names.
Proof.
  intros Hmetas. revert pks_ctx_dict.
  induction Hmetas as [|name meta names metas (Hq & [prov Hprov] & Hvc) _ IH];
    intros d; [done|].
  cbn [collect_pks_ctx_dict]. unfold ovdc_cache_get_ovdc_container_provider_metadata.
  fold (enumeration_query name org_name). unfold fold_pks_ctx_dict. cbn [foldl].
  fold (fold_pks_ctx_dict metas).
  unfold metadata_lookups in *.
  split; msimpl; rewrite Hq; msimpl; rewrite Hprov; msimpl.
  - destruct (decide (owned_by_pks meta)) as [Hown|Hown].
    + unfold owned_by_pks in Hown. rewrite Hprov in Hown. injection Hown as ->.
      rewrite bool_decide_eq_true_2 by done. msimpl.
      destruct Hvc as [vc_name Hvc]; [by unfold owned_by_pks|].
      rewrite Hvc. msimpl. unfold dict_get. rewrite Hvc. apply IH.
    + rewrite bool_decide_eq_false_2.
      * apply IH.
      * intros ->. by apply Hown.
  - cbn [omap list_omap map]. f_equal.
    destruct (bool_decide (prov = VStr CtrProvType_PKS)) eqn:Eb.
    + apply bool_decide_eq_true_1 in Eb as ->.
      destruct Hvc as [vc_name Hvc]; [by unfold owned_by_pks|].
      msimpl. rewrite Hvc. msimpl. apply IH.
    + apply IH.
Qed.

(** The invariant of the loop: distinct keys, every value carries its
    key and is the metadata of a vdc owned by PKS, and every such
    vdc seen so far has its key present. *)
Lemma fold_pks_ctx_dict_invariant metas :
  Forall (λ meta, owned_by_pks meta → is_Some (meta !! "vc")) metas →
  ∀ d seen,
    NoDup (map fst d) →
    (∀ k v, (k, v) ∈ d → v !! "vc" = Some k ∧ v ∈ seen ∧ owned_by_pks v) →
    (∀ m, m ∈ seen → owned_by_pks m → dict_get m "vc" ∈ map fst d) →
    let d' := fold_pks_ctx_dict metas d in
    NoDup (map fst d') ∧
    (∀ k v, (k, v) ∈ d' → v !! "vc" = Some k ∧ v ∈ seen ++ metas ∧ owned_by_pks v) ∧
    (∀ m, m ∈ seen ++ metas → owned_by_pks m → dict_get m "vc" ∈ map fst d').
Proof.
  induction 1 as [|meta metas Hvc _ IH]; intros d seen Hnd Hval Hkeys.
  - simpl. rewrite app_nil_r. done.
  - unfold fold_pks_ctx_dict. cbn [foldl]. fold (fold_pks_ctx_dict metas).
    replace (seen ++ meta :: metas) with ((seen ++ [meta]) ++ metas)
      by (by rewrite <- app_assoc).
    destruct (decide (owned_by_pks meta)) as [Hown|Hown].
    + destruct (Hvc Hown) as [k Hk].
      assert (Hget : dict_get meta "vc" = k) by (unfold dict_get; by rewrite Hk).
      rewrite Hget. apply IH.
      * by apply pydict_setitem_NoDup.
      * intros k' v' [[-> ->]|Hin]%pydict_setitem_elem.
        -- split; [done|]. split; [|done]. apply elem_of_app. right. by left.
        -- destruct (Hval _ _ Hin) as (? & ? & ?). split; [done|]. split; [|done].
           apply elem_of_app. by left.
      * intros m [Hm|Hm%list_elem_of_singleton]%elem_of_app Hmown;
          apply pydict_setitem_key.
        -- right. by apply Hkeys.
        -- left. by subst.
    + apply IH; [done| |].
      * intros k' v' Hin. destruct (Hval _ _ Hin) as (? & ? & ?).
        split; [done|]. split; [|done]. apply elem_of_app. by left.
      * intros m [Hm|Hm%list_elem_of_singleton]%elem_of_app Hmown;
          [by apply Hkeys | by subst].
Qed.

End Enumeration.

(** ** Writes of ownership metadata *)

Lemma metadata_writes_app t t' :
  metadata_writes (t ++ t') = metadata_writes t ++ metadata_writes t'.
Proof. apply omap_app. Qed.

Lemma metadata_writes_cons ev t :
  metadata_writes (ev :: t) =
  match ev with
  | EOvdcCache (SetOvdcContainerProviderMetadata o d p) => (o, d, p) :: metadata_writes t
  | _ => metadata_writes t
  end.
Proof. destruct ev as [| |[]| |]; reflexivity. Qed.

Lemma metadata_writes_nil : metadata_writes [] = [].
Proof. reflexivity. Qed.

(** Simplify the metadata writes of a computation, by cases on the
    answers of the collaborators. *)
Ltac no_metadata_writes :=
  repeat (msimpl;
          rewrite ?metadata_writes_app, ?metadata_writes_cons, ?metadata_writes_nil;
          cbn beta iota zeta;
          try reflexivity;
          try case_match).

Section EnableOvdc.
Context `{Env} (self : BrokerManager).

Lemma metadata_writes_get_ovdc_params :
  metadata_writes (trace (_get_ovdc_params self)) = [].
Proof.
  unfold _get_ovdc_params, ovdc_cache_get_ovdc, ovdc_cache_get_pvdc_id,
    pks_cache_get_pvdc_info, pks_cache_get_pks_account_info, pks_cache_get_nsxt_info,
    ovdc_cache_get_compute_profile_name, OvdcCache_construct_pks_context.
  no_metadata_writes.
Qed.

Lemma metadata_writes_create_pks_compute_profile pks_ctx :
  metadata_writes (trace (_create_pks_compute_profile self pks_ctx)) = [].
Proof.
  unfold _create_pks_compute_profile, ovdc_cache_get_compute_profile_name,
    broker_create_compute_profile.
  no_metadata_writes.
Qed.

End EnableOvdc.

(** ** The projection of the clusters *)

Section ProjectionLemmas.
Context `{Env}.

(** The record that [_get_truncated_cluster_info] returns. *)
Lemma truncated_cluster_info_eq
    (self : BrokerManager) (cluster : dict) (pks_broker : broker)
    (cluster_property_keys : list string) (last_action status_str profile : string) :
  "status" ∈ cluster_property_keys →
  pks_cluster_fields cluster last_action status_str profile →
  _get_truncated_cluster_info self cluster pks_broker cluster_property_keys
  = ([], inr (<["status" := VStr (lower last_action +:+ " " +:+ lower status_str)]>
               (<["vdc" := VStr (last_segment (split_dashes profile))]>
                  (dict_comprehension cluster_property_keys (dict_get cluster))))).
Proof.
  intros Hkey (Hla & Hst & Hcp).
  assert (Hvdc : (if truthy (VStr profile)
                  then segments ← str_split_dashes (VStr profile);
                       mret (last_segment segments)
                  else mret "")
                 = (([], inr (last_segment (split_dashes profile))) : M string)).
  { simpl. destruct profile; reflexivity. }
  unfold _get_truncated_cluster_info. rewrite Hcp, Hvdc, Hla.
  assert (Hread : dict_get_default
            (<["vdc" := VStr (last_segment (split_dashes profile))]>
               (dict_comprehension cluster_property_keys (dict_get cluster)))
            "status" (VStr "") = VStr status_str).
  { unfold dict_get_default. rewrite lookup_insert_ne by done.
    rewrite dict_comprehension_lookup, decide_True by done.
    unfold dict_get. by rewrite Hst. }
  apply M_eq; msimpl; rewrite Hread; reflexivity.
Qed.

Lemma dict_comprehension_common (f : string → value) :
  dict_comprehension common_cluster_properties f
  = <["status" := f "status"]> (<["vdc" := f "vdc"]> (<["name" := f "name"]> ∅)).
Proof. reflexivity. Qed.

Lemma key_not_common :
  CONTAINER_PROVIDER_KEY ∉ common_cluster_properties →
  CONTAINER_PROVIDER_KEY ≠ "name" ∧ CONTAINER_PROVIDER_KEY ≠ "vdc" ∧
  CONTAINER_PROVIDER_KEY ≠ "status".
Proof.
  intros Hnin. repeat split; intros Heq; apply Hnin; rewrite Heq;
    unfold common_cluster_properties; set_solver.
Qed.

(** The domain of a dictionary built by insertions, as a set of keys. *)
Ltac dom_keys :=
  rewrite !dom_insert_L, dom_empty_L; apply set_eq; intros ?;
  rewrite !elem_of_union, !elem_of_singleton, elem_of_empty; tauto.

Lemma vcd_projection_record (cluster : dict) :
  CONTAINER_PROVIDER_KEY ∉ common_cluster_properties →
  vcd_cluster_record cluster
    (<[CONTAINER_PROVIDER_KEY := VStr CtrProvType_VCD]>
       (dict_comprehension common_cluster_properties (dict_get cluster))).
Proof.
  intros (Hn & Hv & Hs)%key_not_common. rewrite dict_comprehension_common.
  unfold vcd_cluster_record, record_keys. split; [|split; [|split; [|split]]].
  - dom_keys.
  - by rewrite lookup_insert_ne, lookup_insert_ne, lookup_insert_ne, lookup_insert_eq.
  - by rewrite lookup_insert_ne, lookup_insert_ne, lookup_insert_eq.
  - by rewrite lookup_insert_ne, lookup_insert_eq.
  - by rewrite lookup_insert_eq.
Qed.

Lemma pks_projection_record (cluster : dict) (last_action status_str profile : string) :
  CONTAINER_PROVIDER_KEY ∉ common_cluster_properties →
  pks_cluster_fields cluster last_action status_str profile →
  pks_cluster_record cluster
    (<[CONTAINER_PROVIDER_KEY := VStr CtrProvType_PKS]>
       (<["status" := VStr (lower last_action +:+ " " +:+ lower status_str)]>
          (<["vdc" := VStr (last_segment (split_dashes profile))]>
             (dict_comprehension common_cluster_properties (dict_get cluster))))).
Proof.
  intros (Hn & Hv & Hs)%key_not_common Hfields. rewrite dict_comprehension_common.
  unfold pks_cluster_record, record_keys. split; [|split; [|split]].
  - dom_keys.
  - rewrite lookup_insert_ne by done. do 4 rewrite lookup_insert_ne by done.
    by rewrite lookup_insert_eq.
  - by rewrite lookup_insert_eq.
  - intros la st cp (Hla & Hst & Hcp). destruct Hfields as (Hla' & Hst' & Hcp').
    assert (la = last_action) as -> by congruence.
    assert (st = status_str) as -> by congruence.
    assert (cp = profile) as -> by congruence.
    split.
    + by rewrite lookup_insert_ne, lookup_insert_ne, lookup_insert_eq.
    + by rewrite lookup_insert_ne, lookup_insert_eq.
Qed.

Lemma Forall2_concat {A B} (P : A → B → Prop) (ls : list (list A)) (ks : list (list B)) :
  Forall2 (Forall2 P) ls ks → Forall2 P (concat ls) (concat ks).
Proof. induction 1; simpl; [constructor | by apply Forall2_app]. Qed.

(** The loop over the clusters of one PKS account. *)
Lemma project_pks_clusters (self : BrokerManager) (pks_broker : broker) (clusters : list dict) :
  CONTAINER_PROVIDER_KEY ∉ common_cluster_properties →
  Forall well_formed_pks_cluster clusters →
  ∃ records,
    for_each
      (λ cluster,
         pks_cluster ← _get_truncated_cluster_info self cluster pks_broker
                         common_cluster_properties;
         mret (<[CONTAINER_PROVIDER_KEY := VStr CtrProvType_PKS]> pks_cluster))
      clusters
    = ([], inr records) ∧
    Forall2 pks_cluster_record clusters records.
Proof.
  intros Hkey. induction 1 as [|cluster clusters (la & st & cp & Hf) _ (records & IH & IHr)].
  - exists []. split; [reflexivity | constructor].
  - eexists (_ :: records). split.
    + cbn [for_each].
      rewrite (truncated_cluster_info_eq self cluster pks_broker _ la st cp);
        [|unfold common_cluster_properties; set_solver | done].
      rewrite IH. reflexivity.
    + constructor; [|done]. by apply pks_projection_record.
Qed.

(** The loop over the PKS accounts. *)
Lemma project_pks_accounts (self : BrokerManager)
    (pks_ctx_list : list dict) (per_account : list (list dict)) :
  CONTAINER_PROVIDER_KEY ∉ common_cluster_properties →
  Forall2 (λ ctx clusters,
             on_list_clusters (PKSBroker (req_headers self) (req_spec self) ctx)
             = inr clusters) pks_ctx_list per_account →
  Forall (Forall well_formed_pks_cluster) per_account →
  ∃ records,
    for_each
      (λ pks_ctx,
         let pks_broker := PKSBroker (req_headers self) (req_spec self) pks_ctx in
         clusters ← broker_list_clusters pks_broker;
         for_each
           (λ cluster,
              pks_cluster ← _get_truncated_cluster_info self cluster pks_broker
                              common_cluster_properties;
              mret (<[CONTAINER_PROVIDER_KEY := VStr CtrProvType_PKS]> pks_cluster))
           clusters)
      pks_ctx_list
    = (map (λ ctx, EBroker (PKSBroker (req_headers self) (req_spec self) ctx) ListClusters)
         pks_ctx_list,
       inr records) ∧
    Forall2 (Forall2 pks_cluster_record) per_account records.
Proof.
  intros Hkey Hlists. induction Hlists as [|ctx clusters ctxs per Hlist _ IH]; intros Hwf.
  - exists []. split; [reflexivity | constructor].
  - apply Forall_cons in Hwf as [Hwf1 Hwf].
    destruct (IH Hwf) as (records & Heq & Hrec).
    destruct (project_pks_clusters self
                (PKSBroker (req_headers self) (req_spec self) ctx) clusters Hkey Hwf1)
      as (recs & Heq1 & Hrec1).
    exists (recs :: records). split; [|by constructor].
    cbn [for_each]. unfold broker_list_clusters in *.
    apply M_eq; msimpl; rewrite Hlist; msimpl; rewrite Heq1; msimpl; rewrite Heq; msimpl;
      rewrite ?app_nil_r; reflexivity.
Qed.

End ProjectionLemmas.

(** ** The projection of a PKS cluster *)

Section Projection.
Context `{Env}.

(** C6: in the record that [_get_truncated_cluster_info] makes of a PKS
    cluster, the status is the lower-cased last action, one space and
    the lower-cased status, and the vdc is the last segment of the
    compute profile name split at ['--'].  The lower-casing is that of
    [str.lower]: on strings of ASCII characters it lowers the letters
    [A] to [Z] and keeps the rest.  The segments are those of
    [str.split]: joined with the separator they give the name back and
    none of them contains the separator. *)
Theorem truncated_cluster_info_status_and_vdc
    (self : BrokerManager) (cluster : dict) (pks_broker : broker)
    (cluster_property_keys : list string) (last_action status_str profile : string) :
  "status" ∈ cluster_property_keys →
  dict_get_default cluster "last-action" (VStr "") = VStr last_action →
  cluster !! "status" = Some (VStr status_str) →
  dict_get_default cluster "compute-profile-name" (VStr "") = VStr profile →
  ∃ pks_cluster : dict,
    _get_truncated_cluster_info self cluster pks_broker cluster_property_keys
      = ([], inr pks_cluster) ∧
    pks_cluster !! "status"
      = Some (VStr (lower last_action +:+ " " +:+ lower status_str)) ∧
    (is_ascii last_action = true → is_ascii status_str = true →
     pks_cluster !! "status"
       = Some (VStr (ascii_lower last_action +:+ " " +:+ ascii_lower status_str))) ∧
    pks_cluster !! "vdc" = Some (VStr (last_segment (split_dashes profile))) ∧
    join_dashes (split_dashes profile) = profile ∧
    has_dashes (last_segment (split_dashes profile)) = false.
Proof.
  intros Hkey Hla Hst Hcp. eexists. split.
  { apply (truncated_cluster_info_eq self cluster pks_broker cluster_property_keys
             last_action status_str profile Hkey). by repeat split. }
  split; [by rewrite lookup_insert_eq|].
  split; [intros Ha Hs; unfold lower; by rewrite Ha, Hs, lookup_insert_eq|].
  split; [by rewrite lookup_insert_ne, lookup_insert_eq|].
  split; [apply join_split_dashes | apply last_segment_no_dashes].
Qed.

(** C7: without a vdc in the request, [_list_clusters] asks the vCD
    broker, then the PKS broker of each enumerated account in order,
    and returns the records of the vCD clusters followed by the records
    of the PKS clusters, account by account; every record has the keys
    name, vdc and status and the container provider key, whose value
    tells the provider. *)
Theorem list_clusters_aggregates
    (self : BrokerManager) (vcd_clusters : list dict) (pks_ctx_list : list dict)
    (per_account : list (list dict)) :
  let vcd_broker := VcdBroker (req_headers self) (req_spec self) in
  let pks_broker := PKSBroker (req_headers self) (req_spec self) in
  truthy (is_ovdc_present_in_request self) = false →
  CONTAINER_PROVIDER_KEY ∉ common_cluster_properties →
  on_list_clusters vcd_broker = inr vcd_clusters →
  outcome (_create_pks_context_for_all_accounts_in_org self) = inr pks_ctx_list →
  Forall2 (λ ctx clusters, on_list_clusters (pks_broker ctx) = inr clusters)
    pks_ctx_list per_account →
  Forall (Forall well_formed_pks_cluster) per_account →
  ∃ vcd_records pks_records,
    outcome (_list_clusters self) = inr (vcd_records ++ pks_records) ∧
    Forall2 vcd_cluster_record vcd_clusters vcd_records ∧
    Forall2 pks_cluster_record (concat per_account) pks_records ∧
    broker_calls (trace (_list_clusters self))
    = (vcd_broker, ListClusters) :: map (λ ctx, (pks_broker ctx, ListClusters)) pks_ctx_list.
Proof.
  intros vcd_broker pks_broker Hflag Hkey Hvcd Henum Hlists Hwf.
  destruct (project_pks_accounts self pks_ctx_list per_account Hkey Hlists Hwf)
    as (records & Heq & Hrec).
  eexists _, (concat records). split; [|split; [|split]].
  - unfold _list_clusters, broker_list_clusters in *. rewrite Hflag. msimpl.
    fold vcd_broker. rewrite Hvcd. msimpl. rewrite Henum. msimpl. rewrite Heq.
    msimpl. reflexivity.
  - apply Forall2_fmap_r, Forall_Forall2_diag, Forall_forall. intros c _.
    by apply vcd_projection_record.
  - by apply Forall2_concat.
  - unfold _list_clusters, broker_list_clusters in *. rewrite Hflag. msimpl.
    fold vcd_broker. rewrite Hvcd. msimpl. rewrite Henum. msimpl. rewrite Heq.
    msimpl. rewrite broker_calls_cons, !broker_calls_app, broker_calls_enumeration.
    rewrite app_nil_r. cbn [app]. f_equal.
    clear. induction pks_ctx_list as [|ctx l IH]; [reflexivity|].
    cbn [map]. rewrite broker_calls_cons. by f_equal.
Qed.

End Projection.

(** ** The search for the owner of a cluster *)

Section SearchClaims.
Context `{Env}.

(** C2: [_find_cluster_in_org] probes the vCD broker first and then the
    PKS brokers in the order of the enumerated contexts; it stops at
    the first broker whose [get_cluster_info] answers and returns that
    answer with that broker; the brokers probed are exactly the
    candidates up to that one, and all of them when every one raises. *)
Theorem find_cluster_in_org_first_answer (self : BrokerManager) (cluster_name : value) :
  let vcd_broker := VcdBroker (req_headers self) (req_spec self) in
  head (trace (_find_cluster_in_org self cluster_name))
    = Some (EBroker vcd_broker (GetClusterInfo cluster_name)) ∧
  (∀ cluster,
     on_get_cluster_info vcd_broker cluster_name = inr cluster →
     _find_cluster_in_org self cluster_name
     = ([EBroker vcd_broker (GetClusterInfo cluster_name)],
        inr (Some (cluster, vcd_broker)))) ∧
  (∀ pks_ctx_list,
     outcome (_create_pks_context_for_all_accounts_in_org self) = inr pks_ctx_list →
     Forall has_host pks_ctx_list →
     (∀ pre b post cluster,
        candidates self pks_ctx_list = pre ++ b :: post →
        Forall (λ b', raises (on_get_cluster_info b' cluster_name)) pre →
        on_get_cluster_info b cluster_name = inr cluster →
        outcome (_find_cluster_in_org self cluster_name) = inr (Some (cluster, b)) ∧
        probes (trace (_find_cluster_in_org self cluster_name)) = pre ++ [b]) ∧
     (Forall (λ b, raises (on_get_cluster_info b cluster_name))
        (candidates self pks_ctx_list) →
      outcome (_find_cluster_in_org self cluster_name) = inr None ∧
      probes (trace (_find_cluster_in_org self cluster_name))
      = candidates self pks_ctx_list)).
Proof.
  intros vcd_broker. split; [|split].
  - destruct (on_get_cluster_info vcd_broker cluster_name) as [err|c] eqn:E.
    + destruct (find_cluster_in_org_vcd_miss self cluster_name err E) as [-> _].
      reflexivity.
    + by rewrite (find_cluster_in_org_vcd_hit self cluster_name c E).
  - apply find_cluster_in_org_vcd_hit.
  - intros pks_ctx_list Henum Hhost. split.
    + intros pre b post cluster Hcands Hraise Hhit.
      destruct (search_first_hit self cluster_name pks_ctx_list pre b post cluster
                  Henum Hhost Hcands Hraise Hhit) as (Ho & Hc & _).
      split; [exact Ho|]. rewrite probes_of_broker_calls, Hc. apply broker_calls_probes.
    + intros Hraise.
      destruct (search_all_raise self cluster_name pks_ctx_list Henum Hhost Hraise)
        as (Ho & Hc & _).
      split; [exact Ho|]. rewrite probes_of_broker_calls, Hc. apply broker_calls_probes.
Qed.

(** The probes of a search are the candidates up to the first one that
    does not raise. *)
Lemma search_probes (self : BrokerManager) cluster_name pks_ctx_list :
  outcome (_create_pks_context_for_all_accounts_in_org self) = inr pks_ctx_list →
  Forall has_host pks_ctx_list →
  (outcome (_find_cluster_in_org self cluster_name) = inr None ∧
   probes (trace (_find_cluster_in_org self cluster_name)) = candidates self pks_ctx_list ∧
   Forall (λ b, raises (on_get_cluster_info b cluster_name)) (candidates self pks_ctx_list))
  ∨ ∃ pre b post cluster,
      candidates self pks_ctx_list = pre ++ b :: post ∧
      Forall (λ b, raises (on_get_cluster_info b cluster_name)) pre ∧
      on_get_cluster_info b cluster_name = inr cluster ∧
      outcome (_find_cluster_in_org self cluster_name) = inr (Some (cluster, b)) ∧
      probes (trace (_find_cluster_in_org self cluster_name)) = pre ++ [b].
Proof.
  intros Henum Hhost.
  destruct (Forall_or_first (λ b, raises (on_get_cluster_info b cluster_name))
              (candidates self pks_ctx_list))
    as [Hall|(pre & b & post & Hcands & Hpre & Hb)].
  - left.
    destruct (search_all_raise self cluster_name pks_ctx_list Henum Hhost Hall)
      as (Ho & Hc & _).
    split; [exact Ho|]. split; [|exact Hall].
    rewrite probes_of_broker_calls, Hc. apply broker_calls_probes.
  - right. destruct (on_get_cluster_info b cluster_name) as [|cluster] eqn:E; [by destruct Hb|].
    exists pre, b, post, cluster.
    destruct (search_first_hit self cluster_name pks_ctx_list pre b post cluster
                Henum Hhost Hcands Hpre E) as (Ho & Hc & _).
    repeat (split; [done|]).
    rewrite probes_of_broker_calls, Hc. apply broker_calls_probes.
Qed.

Lemma raises_misses_or_fails cluster_name b :
  raises (on_get_cluster_info b cluster_name) → misses_or_fails cluster_name b.
Proof. unfold misses_or_fails. by destruct (on_get_cluster_info b cluster_name). Qed.

Lemma probed_candidates_all_raise cluster_name (bs : list broker) :
  Forall (λ b, raises (on_get_cluster_info b cluster_name)) bs →
  probed_candidates cluster_name bs = bs.
Proof.
  induction 1 as [|b bs Hb _ IH]; [reflexivity|].
  cbn [probed_candidates]. destruct (decide _); [by rewrite IH | done].
Qed.

Lemma probed_candidates_first_hit cluster_name (pre post : list broker) b cluster :
  Forall (λ b, raises (on_get_cluster_info b cluster_name)) pre →
  on_get_cluster_info b cluster_name = inr cluster →
  probed_candidates cluster_name (pre ++ b :: post) = pre ++ [b].
Proof.
  intros Hpre Hb. induction Hpre as [|b' pre Hb' _ IH].
  - cbn [app probed_candidates]. destruct (decide _) as [Hr|]; [|reflexivity].
    by rewrite Hb in Hr.
  - cbn [app probed_candidates]. destruct (decide _); [by rewrite IH | done].
Qed.

(** C3: in a search, the exception of a broker's [get_cluster_info] is
    caught and logged and the next candidate is probed; the search
    itself does not raise.  [_get_cluster_info] and
    [_get_cluster_config] probe the candidates (the vCD broker, then
    the PKS brokers of the enumerated accounts) up to the first that
    answers, and raise [ClusterNotFoundError] exactly when every one
    of these misses or fails (for the configuration, provided the
    brokers' [get_cluster_config] does not raise that error itself);
    when the first answer is a record that is not empty, they return
    it with its broker, and the configuration that this broker gives
    for the name in the record. *)
Theorem search_failures_are_misses
    (self : BrokerManager) (cluster_spec : dict) (cluster_name : value)
    (pks_ctx_list : list dict) :
  cluster_spec !! "cluster_name" = Some cluster_name →
  truthy (is_ovdc_present_in_request self) = false →
  outcome (_create_pks_context_for_all_accounts_in_org self) = inr pks_ctx_list →
  Forall has_host pks_ctx_list →
  let probed := probed_candidates cluster_name (candidates self pks_ctx_list) in
  (∀ pre b post,
     candidates self pks_ctx_list = pre ++ b :: post →
     Forall (λ b', raises (on_get_cluster_info b' cluster_name)) pre →
     b ∈ probes (trace (_find_cluster_in_org self cluster_name)) ∧
     ∀ b' err, b' ∈ pre →
       on_get_cluster_info b' cluster_name = inl err →
       ELog (probe_failure_log cluster_name b' err)
       ∈ trace (_find_cluster_in_org self cluster_name)) ∧
  (∃ found, outcome (_find_cluster_in_org self cluster_name) = inr found) ∧
  probes (trace (_get_cluster_info self cluster_spec)) = probed ∧
  probes (trace (_get_cluster_config self cluster_spec)) = probed ∧
  ((∃ msg, outcome (_get_cluster_info self cluster_spec) = inl (ClusterNotFoundError msg))
   ↔ Forall (misses_or_fails cluster_name) probed) ∧
  ((∀ b name msg, on_get_cluster_config b name ≠ inl (ClusterNotFoundError msg)) →
   ((∃ msg, outcome (_get_cluster_config self cluster_spec)
            = inl (ClusterNotFoundError msg))
    ↔ Forall (misses_or_fails cluster_name) probed)) ∧
  (∀ pre b post cluster,
     candidates self pks_ctx_list = pre ++ b :: post →
     Forall (λ b', raises (on_get_cluster_info b' cluster_name)) pre →
     on_get_cluster_info b cluster_name = inr cluster →
     cluster ≠ ∅ →
     outcome (_get_cluster_info self cluster_spec) = inr (cluster, b) ∧
     outcome (_get_cluster_config self cluster_spec)
     = match cluster !! "name" with
       | Some name => on_get_cluster_config b name
       | None => inl (KeyError "name")
       end).
Proof.
  intros Hname Hflag Henum Hhost probed.
  pose proof (search_probes self cluster_name pks_ctx_list Henum Hhost) as Hsearch.
  destruct (get_cluster_info_search self cluster_spec cluster_name Hname Hflag)
    as [Hit Hio].
  destruct (get_cluster_config_search self cluster_spec cluster_name Hname Hflag)
    as [Hct Hco].
  assert (Hprobed : probes (trace (_find_cluster_in_org self cluster_name)) = probed).
  { subst probed.
    destruct Hsearch as [(_ & Hp & Hall)|(pre & b & post & c & Hcands & Hpre & Hb & _ & Hp)].
    - by rewrite Hp, probed_candidates_all_raise.
    - by rewrite Hp, Hcands, (probed_candidates_first_hit _ _ _ _ c). }
  assert (Hcfgp : probes (trace (_get_cluster_config self cluster_spec)) = probed).
  { rewrite Hct. unfold probes in *. rewrite omap_app, Hprobed.
    destruct (outcome (_find_cluster_in_org self cluster_name)) as [|[[c b]|]];
      rewrite ?app_nil_r; try reflexivity.
    destruct (dict_truthy c); rewrite ?app_nil_r; try reflexivity.
    destruct (c !! "name"); by rewrite app_nil_r. }
  split; [|split; [|split; [|split; [|split; [|split]]]]].
  - intros pre b post Hcands Hpre.
    destruct (on_get_cluster_info b cluster_name) as [err|cluster] eqn:E.
    + destruct (Forall_or_first (λ b, raises (on_get_cluster_info b cluster_name)) post)
        as [Hall|(pre2 & b2 & post2 & -> & Hpre2 & Hb2)].
      * assert (Hcall : Forall (λ b, raises (on_get_cluster_info b cluster_name))
                          (candidates self pks_ctx_list)).
        { rewrite Hcands. apply Forall_app. split; [done|]. constructor; [|done].
          by rewrite E. }
        destruct (search_all_raise self cluster_name pks_ctx_list Henum Hhost Hcall)
          as (_ & Hc & Hl).
        split.
        -- rewrite probes_of_broker_calls, Hc, broker_calls_probes, Hcands.
           apply elem_of_app. right. left.
        -- intros b' err' Hin Herr. apply Hl; [|done]. rewrite Hcands.
           apply elem_of_app. by left.
      * destruct (on_get_cluster_info b2 cluster_name) as [|c2] eqn:E2; [by destruct Hb2|].
        assert (Hcands' : candidates self pks_ctx_list
                          = (pre ++ b :: pre2) ++ b2 :: post2).
        { by rewrite Hcands, <- app_assoc. }
        assert (Hpre' : Forall (λ b, raises (on_get_cluster_info b cluster_name))
                          (pre ++ b :: pre2)).
        { apply Forall_app. split; [done|]. constructor; [|done]. by rewrite E. }
        destruct (search_first_hit self cluster_name pks_ctx_list _ b2 post2 c2
                    Henum Hhost Hcands' Hpre' E2) as (_ & Hc & Hl).
        split.
        -- rewrite probes_of_broker_calls, Hc, broker_calls_probes.
           apply elem_of_app. left. apply elem_of_app. right. left.
        -- intros b' err' Hin Herr. apply Hl; [|done]. apply elem_of_app. by left.
    + destruct (search_first_hit self cluster_name pks_ctx_list pre b post cluster
                  Henum Hhost Hcands Hpre E) as (_ & Hc & Hl).
      split; [|exact Hl].
      rewrite probes_of_broker_calls, Hc, broker_calls_probes.
      apply elem_of_app. right. left.
  - destruct Hsearch as [(Ho & _)|(pre & b & post & c & _ & _ & _ & Ho & _)];
      rewrite Ho; by eexists.
  - by rewrite Hit.
  - exact Hcfgp.
  - rewrite <- Hprobed, Hio.
    destruct Hsearch as [(Ho & Hp & Hall)|(pre & b & post & c & _ & Hpre & Hb & Ho & Hp)];
      rewrite Ho, Hp.
    + split; [intros _|intros _; by eexists].
      eapply Forall_impl; [exact Hall|]. apply raises_misses_or_fails.
    + assert (Hpre' : Forall (misses_or_fails cluster_name) pre).
      { eapply Forall_impl; [exact Hpre|]. apply raises_misses_or_fails. }
      unfold dict_truthy. destruct (decide (c = ∅)) as [->|Hne].
      * rewrite bool_decide_eq_true_2 by done. simpl. split; [intros _|intros _; by eexists].
        apply Forall_app. split; [done|]. constructor; [|done].
        unfold misses_or_fails. by rewrite Hb.
      * rewrite bool_decide_eq_false_2 by done. simpl. split; [by intros [? ?]|].
        intros [_ Hlast]%Forall_app. apply Forall_cons in Hlast as [Hlast _].
        unfold misses_or_fails in Hlast. rewrite Hb in Hlast. done.
  - intros Hcfg. rewrite <- Hprobed, Hco.
    destruct Hsearch as [(Ho & Hp & Hall)|(pre & b & post & c & _ & Hpre & Hb & Ho & Hp)];
      rewrite Ho, Hp.
    + split; [intros _|intros _; by eexists].
      eapply Forall_impl; [exact Hall|]. apply raises_misses_or_fails.
    + assert (Hpre' : Forall (misses_or_fails cluster_name) pre).
      { eapply Forall_impl; [exact Hpre|]. apply raises_misses_or_fails. }
      unfold dict_truthy. destruct (decide (c = ∅)) as [->|Hne].
      * rewrite bool_decide_eq_true_2 by done. simpl.
        split; [intros _|intros _; by eexists].
        apply Forall_app. split; [done|]. constructor; [|done].
        unfold misses_or_fails. by rewrite Hb.
      * rewrite bool_decide_eq_false_2 by done. simpl.
        split.
        -- intros [msg Hmsg]. destruct (c !! "name"); [|done]. by apply Hcfg in Hmsg.
        -- intros [_ Hlast]%Forall_app. apply Forall_cons in Hlast as [Hlast _].
           unfold misses_or_fails in Hlast. rewrite Hb in Hlast. done.
  - intros pre b post cluster Hcands Hpre Hb Hne.
    destruct (search_first_hit self cluster_name pks_ctx_list pre b post cluster
                Henum Hhost Hcands Hpre Hb) as (Ho & _).
    assert (Htrue : dict_truthy cluster = true).
    { unfold dict_truthy. by rewrite bool_decide_eq_false_2. }
    rewrite Hio, Hco, Ho, Htrue. by destruct (cluster !! "name").
Qed.

End SearchClaims.

(** ** Creation of a cluster *)

Section CreateClaims.
Context `{Env}.

Lemma create_calls_search (self : BrokerManager) cluster_name (bs : list broker) :
  broker_calls (trace (_find_cluster_in_org self cluster_name))
  = map (λ b, (b, GetClusterInfo cluster_name)) bs →
  create_calls (trace (_find_cluster_in_org self cluster_name)) = [].
Proof. intros Hc. rewrite create_calls_of_broker_calls, Hc. apply create_calls_probes. Qed.

Lemma create_calls_app t t' : create_calls (t ++ t') = create_calls t ++ create_calls t'.
Proof. apply omap_app. Qed.

Lemma create_calls_get_broker_based_on_vdc (self : BrokerManager) :
  create_calls (trace (get_broker_based_on_vdc self)) = [].
Proof.
  by rewrite create_calls_of_broker_calls, broker_calls_get_broker_based_on_vdc.
Qed.

(** When every candidate raises, the cluster is created on the broker
    that the request resolves to. *)
Lemma create_cluster_when_all_raise
    (self : BrokerManager) (cluster_spec : dict) (cluster_name : value) pks_ctx_list :
  cluster_spec !! "cluster_name" = Some cluster_name →
  outcome (_create_pks_context_for_all_accounts_in_org self) = inr pks_ctx_list →
  Forall has_host pks_ctx_list →
  Forall (λ b, raises (on_get_cluster_info b cluster_name))
    (candidates self pks_ctx_list) →
  ∀ b, outcome (get_broker_based_on_vdc self) = inr b →
    outcome (_create_cluster self cluster_spec) = on_create_cluster b cluster_spec ∧
    create_calls (trace (_create_cluster self cluster_spec)) = [(b, cluster_spec)].
Proof.
  intros Hname Henum Hhost Hall b Hb.
  destruct (search_all_raise self cluster_name pks_ctx_list Henum Hhost Hall)
    as (Ho & Hc & _).
  destruct (create_cluster_not_found self cluster_spec cluster_name Hname Ho)
    as [-> ->].
  rewrite Hb. split; [reflexivity|].
  rewrite !create_calls_app, (create_calls_search _ _ _ Hc),
    create_calls_get_broker_based_on_vdc.
  reflexivity.
Qed.

(** A vdc whose metadata names neither provider is not resolved. *)
Lemma get_broker_based_on_vdc_unset (self : BrokerManager) ctr_prov_ctx :
  explicit_unset_vdc self ctr_prov_ctx →
  get_broker_based_on_vdc self
  = (resolution_events self ctr_prov_ctx, inl (vdc_not_enabled (request_vdc self))).
Proof.
  intros (Hvdc & Horg & Hmeta & Hpks & Hvcd).
  unfold get_broker_based_on_vdc, ovdc_cache_get_ovdc_container_provider_metadata.
  fold (request_vdc self) (request_org self).
  rewrite Hvdc, Horg. cbn [andb].
  fold (direct_query (request_vdc self) (request_org self)). rewrite Hmeta.
  unfold resolution_events, vdc_not_enabled.
  apply M_eq; msimpl; rewrite !bool_decide_eq_false_2 by done; by msimpl.
Qed.


(** C10: without a vdc name or without an org name
    [get_broker_based_on_vdc] looks nothing up, raises nothing and
    returns the vCD broker; a create-cluster request that names no vdc,
    whose search finds every candidate raising, creates the cluster on
    the vCD broker. *)
Theorem missing_vdc_or_org_falls_back_to_vcd (self : BrokerManager) :
  let vcd_broker := VcdBroker (req_headers self) (req_spec self) in
  let ovdc_name :=
    py_or (dict_get (req_spec self) "vdc") (dict_get (req_qparams self) "vdc") in
  let org_name :=
    py_or (py_or (dict_get (req_spec self) "org") (dict_get (req_qparams self) "org"))
          (dict_get (session self) "org") in
  (truthy ovdc_name = false ∨ truthy org_name = false →
   get_broker_based_on_vdc self
   = ([ELog (LogOrgAndVdc org_name ovdc_name)], inr vcd_broker)) ∧
  (∀ pks_ctx_list,
     truthy ovdc_name = false →
     outcome (_create_pks_context_for_all_accounts_in_org self) = inr pks_ctx_list →
     Forall has_host pks_ctx_list →
     Forall (λ b, raises (on_get_cluster_info b (dict_get (req_spec self) "cluster_name")))
       (candidates self pks_ctx_list) →
     outcome (invoke self CREATE_CLUSTER)
     = match on_create_cluster vcd_broker (cluster_spec_of_create self) with
       | inl e => inl e
       | inr r => inr {| body := r; status_code := ACCEPTED |}
       end ∧
     create_calls (trace (invoke self CREATE_CLUSTER))
     = [(vcd_broker, cluster_spec_of_create self)]).
Proof.
  intros vcd_broker ovdc_name org_name. split.
  - apply get_broker_based_on_vdc_fallback.
  - intros pks_ctx_list Hvdc Henum Hhost Hall.
    assert (Hname : cluster_spec_of_create (with_ovdc_flag self) !! "cluster_name"
                    = Some (dict_get (req_spec self) "cluster_name")).
    { unfold cluster_spec_of_create. by repeat rewrite lookup_insert_ne by done. }
    pose proof (get_broker_based_on_vdc_fallback (with_ovdc_flag self) (or_introl Hvdc))
      as Hbroker.
    destruct (create_cluster_when_all_raise (with_ovdc_flag self)
                (cluster_spec_of_create (with_ovdc_flag self)) _ pks_ctx_list
                Hname Henum Hhost Hall _ (f_equal outcome Hbroker)) as [Ho Hc].
    unfold invoke. msimpl. split.
    + rewrite Ho. reflexivity.
    + rewrite create_calls_app, Hc.
      by destruct (outcome (_create_cluster (with_ovdc_flag self)
                              (cluster_spec_of_create (with_ovdc_flag self)))).
Qed.

End CreateClaims.

(** ** Resize and delete *)

Section ResizeDeleteClaims.
Context `{Env}.

(** C4 (as the code has it): once [_get_cluster_info] has resolved the
    cluster record and the broker, [_resize_cluster] makes one more
    call, [resize_cluster] on that broker, with the record as
    [curr_cluster_info]; [_delete_cluster] makes one more call,
    [delete_cluster] on that broker, whose only argument is the name
    of the cluster: the record is not passed. *)
Theorem resize_passes_record_delete_passes_name
    (self : BrokerManager) (cluster_spec : dict) (cluster_name : value)
    (cluster : dict) (b : broker) :
  cluster_spec !! "cluster_name" = Some cluster_name →
  outcome (_get_cluster_info self cluster_spec) = inr (cluster, b) →
  (trace (_resize_cluster self cluster_spec)
   = trace (_get_cluster_info self cluster_spec)
     ++ [EBroker b (ResizeCluster cluster cluster_spec)] ∧
   outcome (_resize_cluster self cluster_spec)
   = on_resize_cluster b cluster cluster_spec ∧
   call_kwargs (ResizeCluster cluster cluster_spec) !! "curr_cluster_info"
   = Some (ArgDict cluster)) ∧
  (trace (_delete_cluster self cluster_spec)
   = trace (_get_cluster_info self cluster_spec)
     ++ [EBroker b (DeleteCluster cluster_name)] ∧
   outcome (_delete_cluster self cluster_spec) = on_delete_cluster b cluster_name ∧
   ∀ k a, call_kwargs (DeleteCluster cluster_name) !! k = Some a →
          k = "cluster_name" ∧ a = ArgValue cluster_name).
Proof.
  intros Hname Hinfo. split; [split; [|split]|split; [|split]].
  - unfold _resize_cluster, broker_resize_cluster. msimpl. rewrite Hinfo. by msimpl.
  - unfold _resize_cluster, broker_resize_cluster. msimpl. rewrite Hinfo. by msimpl.
  - simpl. apply lookup_insert_eq.
  - unfold _delete_cluster, broker_delete_cluster. msimpl. rewrite Hname. msimpl.
    rewrite Hinfo. by msimpl.
  - unfold _delete_cluster, broker_delete_cluster. msimpl. rewrite Hname. msimpl.
    rewrite Hinfo. by msimpl.
  - intros k a Hk. simpl in Hk. apply lookup_singleton_Some in Hk as [<- <-]. done.
Qed.

End ResizeDeleteClaims.

(** ** Requests that name their vdc *)

Section DirectClaims.
Context `{Env}.

Lemma get_cluster_info_direct (self : BrokerManager) ctr_prov_ctx cluster_spec cluster_name :
  explicit_valid_vdc self ctr_prov_ctx →
  truthy (is_ovdc_present_in_request self) = true →
  cluster_spec !! "cluster_name" = Some cluster_name →
  _get_cluster_info self cluster_spec
  = (resolution_events self ctr_prov_ctx
       ++ [EBroker (resolved_broker self ctr_prov_ctx) (GetClusterInfo cluster_name)],
     match on_get_cluster_info (resolved_broker self ctr_prov_ctx) cluster_name with
     | inl e => inl e
     | inr cluster => inr (cluster, resolved_broker self ctr_prov_ctx)
     end).
Proof.
  intros Hvalid Hflag Hname. unfold _get_cluster_info, broker_get_cluster_info.
  rewrite Hflag, (get_broker_based_on_vdc_direct self ctr_prov_ctx Hvalid).
  apply M_eq; msimpl; rewrite Hname; msimpl;
    destruct (on_get_cluster_info _ _); msimpl; reflexivity.
Qed.

Lemma cluster_spec_of_name_lookup (self : BrokerManager) :
  cluster_spec_of_name self !! "cluster_name"
  = Some (dict_get (req_spec self) "cluster_name").
Proof. apply lookup_singleton_eq. Qed.

Lemma cluster_spec_of_resize_lookup (self : BrokerManager) :
  cluster_spec_of_resize self !! "cluster_name"
  = Some (dict_get (req_spec self) "cluster_name").
Proof. unfold cluster_spec_of_resize. rewrite lookup_insert_ne by done. apply lookup_singleton_eq. Qed.

Lemma cluster_spec_of_create_lookup (self : BrokerManager) :
  cluster_spec_of_create self !! "cluster_name"
  = Some (dict_get (req_spec self) "cluster_name").
Proof.
  unfold cluster_spec_of_create. repeat rewrite lookup_insert_ne by done.
  apply lookup_singleton_eq.
Qed.

(** C5 (as the code has it): for a request that names a vdc with valid
    ownership metadata, get-cluster-info, get-cluster-config and
    list-clusters look the metadata up once and make one broker call,
    on the broker resolved; resize and delete look the metadata up once
    and make two calls on that broker, [get_cluster_info] and the
    operation; create-cluster starts with the search of the name among
    all brokers, and when the search finds nothing looks the metadata
    up once and calls [create_cluster] on the broker resolved. *)
Theorem explicit_vdc_dispatch (self : BrokerManager) (ctr_prov_ctx : dict) :
  explicit_valid_vdc self ctr_prov_ctx →
  let b := resolved_broker self ctr_prov_ctx in
  let cluster_name := dict_get (req_spec self) "cluster_name" in
  let resolution := resolution_events self ctr_prov_ctx in
  (trace (invoke self GET_CLUSTER)
     = resolution ++ [EBroker b (GetClusterInfo cluster_name)] ∧
   direct_single_call self GET_CLUSTER) ∧
  (trace (invoke self GET_CLUSTER_CONFIG)
     = resolution ++ [EBroker b (GetClusterConfig cluster_name)] ∧
   direct_single_call self GET_CLUSTER_CONFIG) ∧
  (trace (invoke self LIST_CLUSTERS) = resolution ++ [EBroker b ListClusters] ∧
   direct_single_call self LIST_CLUSTERS) ∧
  (∀ cluster,
     on_get_cluster_info b cluster_name = inr cluster →
     trace (invoke self RESIZE_CLUSTER)
       = resolution ++ [EBroker b (GetClusterInfo cluster_name);
                        EBroker b (ResizeCluster cluster (cluster_spec_of_resize self))] ∧
     trace (invoke self DELETE_CLUSTER)
       = resolution ++ [EBroker b (GetClusterInfo cluster_name);
                        EBroker b (DeleteCluster cluster_name)]) ∧
  (head (trace (invoke self CREATE_CLUSTER))
     = Some (EBroker (VcdBroker (req_headers self) (req_spec self))
               (GetClusterInfo cluster_name)) ∧
   (outcome (_find_cluster_in_org self cluster_name) = inr None →
    trace (invoke self CREATE_CLUSTER)
      = trace (_find_cluster_in_org self cluster_name)
        ++ resolution ++ [EBroker b (CreateCluster (cluster_spec_of_create self))])).
Proof.
  intros Hvalid b cluster_name resolution.
  pose proof (explicit_valid_vdc_with_flag self ctr_prov_ctx Hvalid) as Hvalid'.
  pose proof (flag_of_explicit_valid_vdc self ctr_prov_ctx Hvalid) as Hflag.
  pose proof (get_broker_based_on_vdc_direct _ _ Hvalid') as Hbroker.
  pose proof (get_cluster_info_direct _ _ _ _ Hvalid' Hflag
                (cluster_spec_of_name_lookup (with_ovdc_flag self))) as Hinfo.
  pose proof (get_cluster_info_direct _ _ _ _ Hvalid' Hflag
                (cluster_spec_of_resize_lookup (with_ovdc_flag self))) as Hinfo'.
  change (resolution_events (with_ovdc_flag self) ctr_prov_ctx) with resolution in *.
  change (resolved_broker (with_ovdc_flag self) ctr_prov_ctx) with b in *.
  change (dict_get (req_spec (with_ovdc_flag self)) "cluster_name") with cluster_name in *.
  assert (Hget : trace (invoke self GET_CLUSTER)
                 = resolution ++ [EBroker b (GetClusterInfo cluster_name)]).
  { unfold invoke. msimpl. rewrite Hinfo. msimpl.
    destruct (on_get_cluster_info b cluster_name) as [|c]; msimpl;
      by rewrite ?app_nil_r. }
  assert (Hcfg : trace (invoke self GET_CLUSTER_CONFIG)
                 = resolution ++ [EBroker b (GetClusterConfig cluster_name)]).
  { unfold invoke, _get_cluster_config, broker_get_cluster_config.
    rewrite Hflag, Hbroker. msimpl. rewrite cluster_spec_of_name_lookup. msimpl.
    change (dict_get (req_spec (with_ovdc_flag self)) "cluster_name") with cluster_name.
    destruct (on_get_cluster_config b cluster_name); msimpl; by rewrite ?app_nil_r. }
  assert (Hlist : trace (invoke self LIST_CLUSTERS) = resolution ++ [EBroker b ListClusters]).
  { unfold invoke, _list_clusters, broker_list_clusters.
    rewrite Hflag, Hbroker. msimpl.
    destruct (on_list_clusters b); msimpl; by rewrite ?app_nil_r. }
  assert (Hcount : ∀ op c, trace (invoke self op) = resolution ++ [EBroker b c] →
                     direct_single_call self op).
  { intros op c Ht. unfold direct_single_call. rewrite Ht. done. }
  split; [split; [exact Hget | by eapply Hcount]|].
  split; [split; [exact Hcfg | by eapply Hcount]|].
  split; [split; [exact Hlist | by eapply Hcount]|].
  split.
  - intros cluster Hcluster. rewrite Hcluster in Hinfo, Hinfo'. split.
    + unfold invoke, _resize_cluster, broker_resize_cluster. msimpl.
      rewrite Hinfo'. msimpl.
      destruct (on_resize_cluster b cluster _); msimpl; by rewrite ?app_nil_r.
    + unfold invoke, _delete_cluster, broker_delete_cluster. msimpl.
      rewrite cluster_spec_of_name_lookup. msimpl. rewrite Hinfo. msimpl.
      change (dict_get (req_spec (with_ovdc_flag self)) "cluster_name") with cluster_name.
      destruct (on_delete_cluster b cluster_name); msimpl; by rewrite ?app_nil_r.
  - assert (Hhead : head (trace (_find_cluster_in_org (with_ovdc_flag self) cluster_name))
                    = Some (EBroker (VcdBroker (req_headers self) (req_spec self))
                              (GetClusterInfo cluster_name))).
    { destruct (on_get_cluster_info (VcdBroker (req_headers self) (req_spec self))
                  cluster_name) as [err|c] eqn:E.
      - destruct (find_cluster_in_org_vcd_miss (with_ovdc_flag self) cluster_name err E)
          as [-> _]. reflexivity.
      - by rewrite (find_cluster_in_org_vcd_hit (with_ovdc_flag self) cluster_name c E). }
    split.
    + unfold invoke, _create_cluster. msimpl. rewrite cluster_spec_of_create_lookup.
      msimpl.
      change (dict_get (req_spec (with_ovdc_flag self)) "cluster_name") with cluster_name.
      destruct (trace (_find_cluster_in_org (with_ovdc_flag self) cluster_name));
        [done|exact Hhead].
    + intros Hnone. rewrite <- find_cluster_in_org_with_flag in Hnone.
      destruct (create_cluster_not_found (with_ovdc_flag self)
                  (cluster_spec_of_create (with_ovdc_flag self)) cluster_name
                  (cluster_spec_of_create_lookup _) Hnone) as [Ht Ho].
      unfold invoke. msimpl. rewrite Ht, Ho, Hbroker. msimpl.
      rewrite find_cluster_in_org_with_flag.
      destruct (on_create_cluster b _); msimpl; rewrite ?app_nil_r, <- ?app_assoc;
        reflexivity.
Qed.

End DirectClaims.

(** ** The enumeration of the PKS accounts *)

Section EnumerationClaims.
Context `{Env}.


End EnumerationClaims.

(** ** Provisioning of the compute profile *)

Section ComputeProfileClaims.
Context `{Env}.

(** C8: when [create_compute_profile] raises a [PksServerError],
    [_create_pks_compute_profile] logs and returns if the status is
    409 (conflict) and raises that error again otherwise; so the
    enable-ovdc operation goes on to write the ownership metadata and
    returns its task in the first case, and ends with the error,
    nothing written, in the second. *)
Theorem compute_profile_conflict_is_swallowed
    (self : BrokerManager) (pks_ctx : dict) (pks_compute_profile_name : value)
    (status : Z) (body_ : string) :
  let pksbroker := PKSBroker (req_headers self) (req_spec self) pks_ctx in
  let ex := PksServerError status body_ in
  on_get_compute_profile_name
    (dict_get (req_spec self) "ovdc_id") (dict_get (req_spec self) "ovdc_name")
    = inr pks_compute_profile_name →
  on_create_compute_profile pksbroker
    (compute_profile_params_of self pks_ctx pks_compute_profile_name) = inl ex →
  (status = HTTPStatus_CONFLICT →
   outcome (_create_pks_compute_profile self (Some pks_ctx)) = inr () ∧
   last (trace (_create_pks_compute_profile self (Some pks_ctx)))
   = Some (ELog (LogComputeProfileExists pks_compute_profile_name ex))) ∧
  (status ≠ HTTPStatus_CONFLICT →
   outcome (_create_pks_compute_profile self (Some pks_ctx)) = inl ex) ∧
  (∀ ovdc,
     outcome (_get_ovdc_params self) = inr (Some pks_ctx, ovdc) →
     req_spec self !! CONTAINER_PROVIDER_KEY = Some (VStr CtrProvType_PKS) →
     (status = HTTPStatus_CONFLICT →
      outcome (invoke self ENABLE_OVDC)
      = match on_set_ovdc_container_provider_metadata ovdc (Some pks_ctx)
                (VStr CtrProvType_PKS) with
        | inl e => inl e
        | inr task =>
            inr {| body := RDict {["task_href" := dict_get task "href"]};
                   status_code := ACCEPTED |}
        end ∧
      metadata_writes (trace (invoke self ENABLE_OVDC))
      = [(ovdc, Some pks_ctx, VStr CtrProvType_PKS)]) ∧
     (status ≠ HTTPStatus_CONFLICT →
      outcome (invoke self ENABLE_OVDC) = inl ex ∧
      metadata_writes (trace (invoke self ENABLE_OVDC)) = [])).
Proof.
  intros pksbroker ex Hname Hcreate. subst pksbroker ex.
  assert (Hconflict : status = HTTPStatus_CONFLICT →
            outcome (_create_pks_compute_profile self (Some pks_ctx)) = inr () ∧
            last (trace (_create_pks_compute_profile self (Some pks_ctx)))
            = Some (ELog (LogComputeProfileExists pks_compute_profile_name
                            (PksServerError status body_)))).
  { intros ->. unfold _create_pks_compute_profile, ovdc_cache_get_compute_profile_name,
      broker_create_compute_profile.
    split; msimpl; rewrite Hname; msimpl; rewrite Hcreate; msimpl; reflexivity. }
  assert (Hother : status ≠ HTTPStatus_CONFLICT →
            outcome (_create_pks_compute_profile self (Some pks_ctx))
            = inl (PksServerError status body_)).
  { intros Hne. unfold _create_pks_compute_profile, ovdc_cache_get_compute_profile_name,
      broker_create_compute_profile.
    msimpl. rewrite Hname. msimpl. rewrite Hcreate. msimpl.
    rewrite bool_decide_eq_false_2 by done. reflexivity. }
  split; [exact Hconflict|]. split; [exact Hother|].
  intros ovdc Hparams Hprov.
  change (_get_ovdc_params self) with (_get_ovdc_params (with_ovdc_flag self)) in Hparams.
  change (req_spec self) with (req_spec (with_ovdc_flag self)) in Hprov.
  pose proof (metadata_writes_get_ovdc_params (with_ovdc_flag self)) as Hw1.
  pose proof (metadata_writes_create_pks_compute_profile (with_ovdc_flag self)
                (Some pks_ctx)) as Hw2.
  change (_create_pks_compute_profile self (Some pks_ctx))
    with (_create_pks_compute_profile (with_ovdc_flag self) (Some pks_ctx))
    in Hconflict, Hother.
  split.
  - intros Hst. destruct (Hconflict Hst) as [Ho _].
    unfold invoke, ovdc_cache_set_ovdc_container_provider_metadata.
    split; msimpl; rewrite Hparams; msimpl; rewrite Hprov; msimpl;
      rewrite bool_decide_eq_true_2 by done; msimpl; rewrite Ho; msimpl;
      rewrite Hprov; msimpl.
    + by destruct (on_set_ovdc_container_provider_metadata _ _ _).
    + rewrite !metadata_writes_app, Hw1, Hw2, metadata_writes_cons.
      by destruct (on_set_ovdc_container_provider_metadata _ _ _).
  - intros Hst. pose proof (Hother Hst) as Ho.
    unfold invoke, ovdc_cache_set_ovdc_container_provider_metadata.
    split; msimpl; rewrite Hparams; msimpl; rewrite Hprov; msimpl;
      rewrite bool_decide_eq_true_2 by done; msimpl; rewrite Ho; msimpl.
    + reflexivity.
    + by rewrite !metadata_writes_app, Hw1, Hw2.
Qed.

End ComputeProfileClaims.

(** ** The claims on the example systems *)

Section Witnesses.
Import Examples.

(** Evaluate a closed equation, or decide a closed proposition. *)
Ltac by_compute := vm_compute; reflexivity.
Ltac by_decide := apply (bool_decide_unpack _); vm_compute; exact I.

(** The projection of the cluster [web-app], and of a cluster whose
    status has a letter beyond ASCII. *)
Lemma truncated_cluster_info_status_and_vdc_witness :
  let b := sysadmin_pks_broker web_app_request "3" in
  "status" ∈ common_cluster_properties ∧
  dict_get_default web_app_cluster "last-action" (VStr "") = VStr "CREATE" ∧
  web_app_cluster !! "status" = Some (VStr "succeeded") ∧
  dict_get_default web_app_cluster "compute-profile-name" (VStr "")
    = VStr "cp--f3272127-9b7f--vdc-PKS1" ∧
  is_ascii "CREATE" = true ∧
  is_ascii "succeeded" = true ∧
  (∃ pks_cluster : dict,
     @_get_truncated_cluster_info env_sysadmin web_app_request web_app_cluster b
       common_cluster_properties
       = ([], inr pks_cluster) ∧
     pks_cluster !! "status" = Some (VStr "create succeeded") ∧
     pks_cluster !! "vdc" = Some (VStr "vdc-PKS1")) ∧
  dict_get_default echec_cluster "last-action" (VStr "") = VStr "CREATE" ∧
  echec_cluster !! "status" = Some (VStr "ÉCHEC") ∧
  dict_get_default echec_cluster "compute-profile-name" (VStr "")
    = VStr "cp--f3272127-9b7f--vdc-PKS1" ∧
  is_ascii "ÉCHEC" = false ∧
  (∃ pks_cluster : dict,
     @_get_truncated_cluster_info env_sysadmin web_app_request echec_cluster b
       common_cluster_properties
       = ([], inr pks_cluster) ∧
     pks_cluster !! "status" = Some (VStr "create échec")).
Proof.
  intros b.
  assert (Hkey : "status" ∈ common_cluster_properties) by by_decide.
  assert (Hla : dict_get_default web_app_cluster "last-action" (VStr "") = VStr "CREATE")
    by by_compute.
  assert (Hst : web_app_cluster !! "status" = Some (VStr "succeeded")) by by_compute.
  assert (Hcp : dict_get_default web_app_cluster "compute-profile-name" (VStr "")
                = VStr "cp--f3272127-9b7f--vdc-PKS1") by by_compute.
  assert (Hla' : dict_get_default echec_cluster "last-action" (VStr "") = VStr "CREATE")
    by by_compute.
  assert (Hst' : echec_cluster !! "status" = Some (VStr "ÉCHEC")) by by_compute.
  assert (Hcp' : dict_get_default echec_cluster "compute-profile-name" (VStr "")
                 = VStr "cp--f3272127-9b7f--vdc-PKS1") by by_compute.
  split; [exact Hkey|]. split; [exact Hla|]. split; [exact Hst|]. split; [exact Hcp|].
  split; [reflexivity|]. split; [reflexivity|].
  split.
  { destruct (@truncated_cluster_info_status_and_vdc env_sysadmin web_app_request
                web_app_cluster b common_cluster_properties _ _ _ Hkey Hla Hst Hcp)
      as (pks_cluster & Heq & _ & Hstatus & Hvdc & _).
    exists pks_cluster. split; [exact Heq|].
    split; [exact (Hstatus eq_refl eq_refl) | exact Hvdc]. }
  split; [exact Hla'|]. split; [exact Hst'|]. split; [exact Hcp'|].
  split; [reflexivity|].
  destruct (@truncated_cluster_info_status_and_vdc env_sysadmin web_app_request
              echec_cluster b common_cluster_properties _ _ _ Hkey Hla' Hst' Hcp')
    as (pks_cluster & Heq & Hstatus & _).
  exists pks_cluster. split; [exact Heq | exact Hstatus].
Defined.

(** The enumeration for the administrator gives the four contexts. *)
Lemma sysadmin_enumeration (self : BrokerManager) :
  outcome (@_create_pks_context_for_all_accounts_in_org env_sysadmin self)
  = inr pks_contexts.
Proof. reflexivity. Qed.

Lemma pks_contexts_have_host : Forall has_host pks_contexts.
Proof. by_decide. Qed.

(** The administrator looks for [web-app]: vCD and the first two PKS
    accounts raise, the third answers, the fourth is not probed. *)
Lemma find_cluster_in_org_first_answer_witness :
  let self := web_app_request in
  let pre := [vcd_broker_of self; sysadmin_pks_broker self "1";
              sysadmin_pks_broker self "2"] in
  let b := sysadmin_pks_broker self "3" in
  let post := [sysadmin_pks_broker self "4"] in
  outcome (@_create_pks_context_for_all_accounts_in_org env_sysadmin self)
    = inr pks_contexts ∧
  Forall has_host pks_contexts ∧
  candidates self pks_contexts = pre ++ b :: post ∧
  Forall (λ b', raises (@on_get_cluster_info env_sysadmin b' (VStr "web-app"))) pre ∧
  @on_get_cluster_info env_sysadmin b (VStr "web-app") = inr web_app_cluster ∧
  outcome (@_find_cluster_in_org env_sysadmin self (VStr "web-app"))
    = inr (Some (web_app_cluster, b)) ∧
  probes (trace (@_find_cluster_in_org env_sysadmin self (VStr "web-app")))
    = pre ++ [b].
Proof.
  intros self pre b post.
  assert (Henum : outcome (@_create_pks_context_for_all_accounts_in_org env_sysadmin self)
                  = inr pks_contexts) by apply sysadmin_enumeration.
  assert (Hcands : candidates self pks_contexts = pre ++ b :: post) by reflexivity.
  assert (Hpre : Forall (λ b', raises (@on_get_cluster_info env_sysadmin b'
                                         (VStr "web-app"))) pre) by by_decide.
  assert (Hhit : @on_get_cluster_info env_sysadmin b (VStr "web-app")
                 = inr web_app_cluster) by by_compute.
  split; [exact Henum|]. split; [exact pks_contexts_have_host|].
  split; [exact Hcands|]. split; [exact Hpre|]. split; [exact Hhit|].
  destruct (@find_cluster_in_org_first_answer env_sysadmin self (VStr "web-app"))
    as (_ & _ & Hsearch).
  destruct (Hsearch pks_contexts Henum pks_contexts_have_host) as [Hfirst _].
  exact (Hfirst pre b post web_app_cluster Hcands Hpre Hhit).
Defined.

(** The failure of the second account is logged and [web-app] is
    found on the third, which gives its configuration; the fourth is
    not probed.  [ghost], which no broker knows, is reported as not
    found after all five candidates were probed. *)
Lemma search_failures_are_misses_witness :
  let self := web_app_request in
  let spec := cluster_spec_of_name self in
  let ghost_spec := cluster_spec_of_name ghost_request in
  let probed := [vcd_broker_of self; sysadmin_pks_broker self "1";
                 sysadmin_pks_broker self "2"; sysadmin_pks_broker self "3"] in
  spec !! "cluster_name" = Some (VStr "web-app") ∧
  truthy (is_ovdc_present_in_request self) = false ∧
  outcome (@_create_pks_context_for_all_accounts_in_org env_sysadmin self)
    = inr pks_contexts ∧
  Forall has_host pks_contexts ∧
  (∀ b name msg, @on_get_cluster_config env_sysadmin b name
                 ≠ inl (ClusterNotFoundError msg)) ∧
  ELog (probe_failure_log (VStr "web-app") (sysadmin_pks_broker self "2")
          (PksServerError 404 "cluster not found"))
    ∈ trace (@_find_cluster_in_org env_sysadmin self (VStr "web-app")) ∧
  probes (trace (@_get_cluster_info env_sysadmin self spec)) = probed ∧
  probes (trace (@_get_cluster_config env_sysadmin self spec)) = probed ∧
  outcome (@_get_cluster_info env_sysadmin self spec)
    = inr (web_app_cluster, sysadmin_pks_broker self "3") ∧
  outcome (@_get_cluster_config env_sysadmin self spec)
    = inr (RValue (VStr "kubeconfig")) ∧
  ¬ (∃ msg, outcome (@_get_cluster_info env_sysadmin self spec)
            = inl (ClusterNotFoundError msg)) ∧
  ¬ (∃ msg, outcome (@_get_cluster_config env_sysadmin self spec)
            = inl (ClusterNotFoundError msg)) ∧
  probes (trace (@_get_cluster_config env_sysadmin ghost_request ghost_spec))
    = candidates ghost_request pks_contexts ∧
  (∃ msg, outcome (@_get_cluster_info env_sysadmin ghost_request ghost_spec)
          = inl (ClusterNotFoundError msg)) ∧
  (∃ msg, outcome (@_get_cluster_config env_sysadmin ghost_request ghost_spec)
          = inl (ClusterNotFoundError msg)).
Proof.
  intros self spec ghost_spec probed.
  assert (Hname : spec !! "cluster_name" = Some (VStr "web-app")) by by_compute.
  assert (Hflag : truthy (is_ovdc_present_in_request self) = false) by reflexivity.
  assert (Hcfg : ∀ b name msg, @on_get_cluster_config env_sysadmin b name
                               ≠ inl (ClusterNotFoundError msg)) by done.
  split; [exact Hname|]. split; [exact Hflag|].
  split; [apply sysadmin_enumeration|]. split; [exact pks_contexts_have_host|].
  split; [exact Hcfg|].
  pose proof (@search_failures_are_misses env_sysadmin self spec (VStr "web-app")
                pks_contexts Hname Hflag (sysadmin_enumeration self)
                pks_contexts_have_host) as Hweb.
  cbv zeta in Hweb.
  destruct Hweb as (Hcaught & _ & Hinfop & Hcfgp & Hinfo & Hconfig & Hfound).
  assert (Hprobed : @probed_candidates env_sysadmin (VStr "web-app")
                      (candidates self pks_contexts) = probed) by by_compute.
  rewrite Hprobed in Hinfop, Hcfgp.
  destruct (Hfound [vcd_broker_of self; sysadmin_pks_broker self "1";
                    sysadmin_pks_broker self "2"]
              (sysadmin_pks_broker self "3") [sysadmin_pks_broker self "4"]
              web_app_cluster) as [Hinfo_web Hconfig_web];
    [reflexivity | by_decide | by_compute | by_decide |].
  assert (Hname' : ghost_spec !! "cluster_name" = Some (VStr "ghost")) by by_compute.
  pose proof (@search_failures_are_misses env_sysadmin ghost_request ghost_spec
                (VStr "ghost") pks_contexts Hname' eq_refl
                (sysadmin_enumeration ghost_request) pks_contexts_have_host) as Hghost.
  cbv zeta in Hghost.
  destruct Hghost as (_ & _ & _ & Hgcfgp & Hginfo & Hgconfig & _).
  assert (Hgprobed : @probed_candidates env_sysadmin (VStr "ghost")
                       (candidates ghost_request pks_contexts)
                     = candidates ghost_request pks_contexts) by by_compute.
  split; [|split; [|split; [|split; [|split; [|split; [|split; [|split; [|split]]]]]]]].
  - destruct (Hcaught [vcd_broker_of self; sysadmin_pks_broker self "1";
                       sysadmin_pks_broker self "2"]
                (sysadmin_pks_broker self "3") [sysadmin_pks_broker self "4"])
      as [_ Hlogged]; [reflexivity | by_decide |].
    apply Hlogged; [by_decide | by_compute].
  - exact Hinfop.
  - exact Hcfgp.
  - exact Hinfo_web.
  - exact Hconfig_web.
  - intros Hnot. apply Hinfo in Hnot. revert Hnot. by_decide.
  - intros Hnot. apply (Hconfig Hcfg) in Hnot. revert Hnot. by_decide.
  - by rewrite Hgcfgp, Hgprobed.
  - apply Hginfo. by_decide.
  - apply (Hgconfig Hcfg). by_decide.
Defined.

(** Acme has no PKS configuration: the enumeration is empty. *)
Lemma acme_enumeration (self : BrokerManager) :
  outcome (@_create_pks_context_for_all_accounts_in_org env_acme self) = inr [].
Proof. reflexivity. Qed.


(** C4 as the claim states it fails: deleting the cluster [dup] of
    Acme, the record that the resolution found is not among the
    arguments of the call to [delete_cluster]. *)
Lemma delete_cluster_does_not_pass_record :
  ¬ @passes_resolved_record env_acme dup_request (cluster_spec_of_name dup_request)
      (@_delete_cluster env_acme dup_request (cluster_spec_of_name dup_request)).
Proof.
  intros Hclaim.
  destruct (Hclaim dup_cluster (vcd_broker_of dup_request)) as (c & Hlast & k & Hk).
  { by_compute. }
  assert (Hc : c = DeleteCluster (VStr "dup")).
  { vm_compute in Hlast. by injection Hlast. }
  subst c. simpl in Hk. apply lookup_singleton_Some in Hk as [_ Hk]. discriminate.
Qed.

(** Resizing and deleting the cluster [dup] of Acme. *)
Lemma resize_passes_record_delete_passes_name_witness :
  let self := dup_request in
  let spec := cluster_spec_of_resize self in
  let b := vcd_broker_of self in
  spec !! "cluster_name" = Some (VStr "dup") ∧
  outcome (@_get_cluster_info env_acme self spec) = inr (dup_cluster, b) ∧
  trace (@_resize_cluster env_acme self spec)
    = trace (@_get_cluster_info env_acme self spec)
      ++ [EBroker b (ResizeCluster dup_cluster spec)] ∧
  @passes_resolved_record env_acme self spec (@_resize_cluster env_acme self spec) ∧
  trace (@_delete_cluster env_acme self spec)
    = trace (@_get_cluster_info env_acme self spec)
      ++ [EBroker b (DeleteCluster (VStr "dup"))] ∧
  outcome (@_delete_cluster env_acme self spec) = inr (RValue (VStr "task/delete")).
Proof.
  intros self spec b.
  assert (Hname : spec !! "cluster_name" = Some (VStr "dup")) by by_compute.
  assert (Hinfo : outcome (@_get_cluster_info env_acme self spec) = inr (dup_cluster, b))
    by by_compute.
  split; [exact Hname|]. split; [exact Hinfo|].
  destruct (@resize_passes_record_delete_passes_name env_acme self spec (VStr "dup")
              dup_cluster b Hname Hinfo)
    as ((Hrt & _ & Hkw) & (Hdt & Hdo & _)).
  split; [exact Hrt|]. split; [|split; [exact Hdt | exact Hdo]].
  intros cluster b' Hinfo'. rewrite Hinfo in Hinfo'. injection Hinfo' as <- <-.
  exists (ResizeCluster dup_cluster spec). split.
  - rewrite Hrt. apply last_snoc.
  - exists "curr_cluster_info". exact Hkw.
Defined.

(** C5 as the claim states it fails: a create-cluster request that
    names [vdc1] of Acme, a vdc with valid ownership metadata, makes
    two broker calls, the probe of the search and the creation. *)
Lemma create_cluster_with_explicit_vdc_searches :
  @explicit_valid_vdc env_acme new_in_vdc1_request vcd_metadata ∧
  broker_calls (trace (@invoke env_acme new_in_vdc1_request CREATE_CLUSTER))
    = [(vcd_broker_of new_in_vdc1_request, GetClusterInfo (VStr "new"));
       (vcd_broker_of new_in_vdc1_request,
        CreateCluster (cluster_spec_of_create new_in_vdc1_request))] ∧
  ¬ @direct_single_call env_acme new_in_vdc1_request CREATE_CLUSTER.
Proof.
  split; [|split].
  - unfold explicit_valid_vdc. repeat split; try by_compute. right. by_compute.
  - by_compute.
  - intros [_ Hcalls]. vm_compute in Hcalls. discriminate.
Qed.

(** The operations on [dup] of a request that names [vdc1]. *)
Lemma explicit_vdc_dispatch_witness :
  let self := dup_in_vdc1_request in
  let b := vcd_broker_of self in
  @explicit_valid_vdc env_acme self vcd_metadata ∧
  @resolved_broker env_acme self vcd_metadata = b ∧
  @on_get_cluster_info env_acme b (VStr "dup") = inr dup_cluster ∧
  trace (@invoke env_acme self GET_CLUSTER)
    = resolution_events self vcd_metadata ++ [EBroker b (GetClusterInfo (VStr "dup"))] ∧
  @direct_single_call env_acme self GET_CLUSTER ∧
  @direct_single_call env_acme self GET_CLUSTER_CONFIG ∧
  @direct_single_call env_acme self LIST_CLUSTERS ∧
  trace (@invoke env_acme self DELETE_CLUSTER)
    = resolution_events self vcd_metadata
      ++ [EBroker b (GetClusterInfo (VStr "dup")); EBroker b (DeleteCluster (VStr "dup"))] ∧
  head (trace (@invoke env_acme self CREATE_CLUSTER))
    = Some (EBroker b (GetClusterInfo (VStr "dup"))).
Proof.
  intros self b.
  assert (Hvalid : @explicit_valid_vdc env_acme self vcd_metadata).
  { unfold explicit_valid_vdc. repeat split; try by_compute. right. by_compute. }
  assert (Hb : @resolved_broker env_acme self vcd_metadata = b) by by_compute.
  assert (Hhit : @on_get_cluster_info env_acme b (VStr "dup") = inr dup_cluster)
    by by_compute.
  split; [exact Hvalid|]. split; [exact Hb|]. split; [exact Hhit|].
  destruct (@explicit_vdc_dispatch env_acme self vcd_metadata Hvalid)
    as ((Hget & Hget1) & (_ & Hcfg1) & (_ & Hlist1) & Htwo & (Hhead & _)).
  rewrite Hb in Hget, Htwo.
  destruct (Htwo dup_cluster Hhit) as [_ Hdel].
  split; [exact Hget|]. split; [exact Hget1|]. split; [exact Hcfg1|].
  split; [exact Hlist1|]. split; [exact Hdel | exact Hhead].
Defined.

(** The administrator lists the clusters: [dup] of vCD, then
    [web-app] of the third PKS account. *)
Lemma list_clusters_aggregates_witness :
  let self := sysadmin_request ∅ in
  let per_account := [[]; []; [web_app_cluster]; []] in
  truthy (is_ovdc_present_in_request self) = false ∧
  ((@CONTAINER_PROVIDER_KEY env_sysadmin) ∉ common_cluster_properties) ∧
  @on_list_clusters env_sysadmin (vcd_broker_of self) = inr [dup_cluster] ∧
  Forall2 (λ ctx clusters,
             @on_list_clusters env_sysadmin
               (PKSBroker (req_headers self) (req_spec self) ctx) = inr clusters)
    pks_contexts per_account ∧
  Forall (Forall well_formed_pks_cluster) per_account ∧
  ∃ vcd_record pks_record,
    outcome (@_list_clusters env_sysadmin self) = inr [vcd_record; pks_record] ∧
    @vcd_cluster_record env_sysadmin dup_cluster vcd_record ∧
    @pks_cluster_record env_sysadmin web_app_cluster pks_record.
Proof.
  intros self per_account.
  assert (Hflag : truthy (is_ovdc_present_in_request self) = false) by reflexivity.
  assert (Hkey : (@CONTAINER_PROVIDER_KEY env_sysadmin) ∉ common_cluster_properties)
    by by_decide.
  assert (Hvcd : @on_list_clusters env_sysadmin (vcd_broker_of self) = inr [dup_cluster])
    by reflexivity.
  assert (Hlists : Forall2 (λ ctx clusters,
                              @on_list_clusters env_sysadmin
                                (PKSBroker (req_headers self) (req_spec self) ctx)
                              = inr clusters) pks_contexts per_account).
  { repeat constructor. }
  assert (Hwf : Forall (Forall well_formed_pks_cluster) per_account).
  { repeat constructor.
    exists "CREATE", "succeeded", "cp--f3272127-9b7f--vdc-PKS1".
    repeat split; by_compute. }
  repeat (split; [assumption|]).
  destruct (@list_clusters_aggregates env_sysadmin self [dup_cluster] pks_contexts
              per_account Hflag Hkey Hvcd (sysadmin_enumeration self) Hlists Hwf)
    as (vcd_records & pks_records & Ho & Hv & Hp & _).
  apply Forall2_cons_inv_l in Hv as (vcd_record & vtail & Hvr & Hvnil & ->).
  apply Forall2_nil_inv_l in Hvnil as ->.
  simpl in Hp.
  apply Forall2_cons_inv_l in Hp as (pks_record & ptail & Hpr & Hpnil & ->).
  apply Forall2_nil_inv_l in Hpnil as ->.
  exists vcd_record, pks_record. split; [exact Ho|]. split; [exact Hvr | exact Hpr].
Defined.

(** Enabling [vdc5] for PKS when its compute profile exists. *)
Lemma compute_profile_conflict_is_swallowed_witness :
  let env := env_umbrella 409 in
  let self := enable_request in
  let pks_ctx := pks_context "1" in
  let ovdc := {| resource := {["name" := VStr "vdc5"]} |} in
  let pksbroker := PKSBroker (req_headers self) (req_spec self) pks_ctx in
  @on_get_compute_profile_name env (VStr "id5") (VStr "vdc5") = inr (VStr "cp--id5--vdc5") ∧
  @on_create_compute_profile env pksbroker
    (compute_profile_params_of self pks_ctx (VStr "cp--id5--vdc5"))
    = inl (PksServerError 409 "compute profile") ∧
  outcome (@_get_ovdc_params env self) = inr (Some pks_ctx, ovdc) ∧
  outcome (@_create_pks_compute_profile env self (Some pks_ctx)) = inr () ∧
  outcome (@invoke env self ENABLE_OVDC)
    = inr {| body := RDict {["task_href" := VStr "task/enable"]};
             status_code := ACCEPTED |} ∧
  metadata_writes (trace (@invoke env self ENABLE_OVDC))
    = [(ovdc, Some pks_ctx, VStr "pks")].
Proof.
  intros env self pks_ctx ovdc pksbroker.
  assert (Hname : @on_get_compute_profile_name env
                    (dict_get (req_spec self) "ovdc_id")
                    (dict_get (req_spec self) "ovdc_name")
                  = inr (VStr "cp--id5--vdc5")) by reflexivity.
  assert (Hcreate : @on_create_compute_profile env pksbroker
                      (compute_profile_params_of self pks_ctx (VStr "cp--id5--vdc5"))
                    = inl (PksServerError 409 "compute profile")) by reflexivity.
  assert (Hparams : outcome (@_get_ovdc_params env self) = inr (Some pks_ctx, ovdc))
    by by_compute.
  assert (Hprov : req_spec self !! @CONTAINER_PROVIDER_KEY env
                  = Some (VStr (@CtrProvType_PKS env))) by by_compute.
  split; [exact Hname|]. split; [exact Hcreate|]. split; [exact Hparams|].
  destruct (@compute_profile_conflict_is_swallowed env self pks_ctx
              (VStr "cp--id5--vdc5") 409 "compute profile" Hname Hcreate)
    as (Hconflict & _ & Henable).
  destruct (Hconflict eq_refl) as [Ho _].
  destruct (Henable ovdc Hparams Hprov) as [Hok _].
  destruct (Hok eq_refl) as [Hresult Hwrites].
  split; [exact Ho|]. split; [exact Hresult | exact Hwrites].
Defined.


(** Creating [new] with no vdc in the request. *)
Lemma missing_vdc_or_org_falls_back_to_vcd_witness :
  let self := new_request in
  let b := vcd_broker_of self in
  truthy (request_vdc self) = false ∧
  Forall (λ b', raises (@on_get_cluster_info env_acme b' (VStr "new")))
    (candidates self []) ∧
  outcome (@get_broker_based_on_vdc env_acme self) = inr b ∧
  metadata_lookups (trace (@get_broker_based_on_vdc env_acme self)) = [] ∧
  outcome (@invoke env_acme self CREATE_CLUSTER)
    = inr {| body := RValue (VStr "task/create"); status_code := ACCEPTED |} ∧
  create_calls (trace (@invoke env_acme self CREATE_CLUSTER))
    = [(b, cluster_spec_of_create self)].
Proof.
  intros self b.
  assert (Hvdc : truthy (request_vdc self) = false) by reflexivity.
  assert (Hall : Forall (λ b', raises (@on_get_cluster_info env_acme b' (VStr "new")))
                   (candidates self [])) by by_decide.
  split; [exact Hvdc|]. split; [exact Hall|].
  destruct (@missing_vdc_or_org_falls_back_to_vcd env_acme self) as [Hfallback Hcreate].
  pose proof (Hfallback (or_introl Hvdc)) as Hbroker.
  destruct (Hcreate [] Hvdc (acme_enumeration self) (Forall_nil_2 _) Hall)
    as [Hresult Hcalls].
  split; [by rewrite Hbroker|]. split; [by rewrite Hbroker|].
  split; [exact Hresult | exact Hcalls].
Defined.

(** A PKS cluster without a status: the record built by the
    comprehension has the key with [None], so the default of
    [pks_cluster.get('status', '')] is not used and [lower] fails. *)
Lemma truncated_cluster_info_without_status :
  outcome (@_get_truncated_cluster_info env_sysadmin web_app_request
             {["name" := VStr "web-app"]} (sysadmin_pks_broker web_app_request "3")
             common_cluster_properties)
  = inl (AttributeError "lower").
Proof. by_compute. Qed.

End Witnesses.

(** * Further properties of the manager *)

(** ** Computations that emit only events of one kind *)

Section EmitsOnly.
Context {A B : Type} (P : event → Prop).

Lemma emits_only_ret (a : A) : emits_only P (mret a : M A).
Proof. constructor. Qed.

Lemma emits_only_raise (e : exn) : emits_only P (raise e : M A).
Proof. constructor. Qed.

Lemma emits_only_call ev (r : exn + A) : P ev → emits_only P (call ev r).
Proof. intros HP. by repeat constructor. Qed.

Lemma emits_only_bind (m : M A) (f : A → M B) :
  emits_only P m → (∀ a, emits_only P (f a)) → emits_only P (m ≫= f).
Proof.
  unfold emits_only. intros Hm Hf. rewrite trace_bind. apply Forall_app. split; [done|].
  destruct (outcome m); [constructor | apply Hf].
Qed.

Lemma emits_only_try_except (m : M A) (h : exn → M A) :
  emits_only P m → (∀ e, emits_only P (h e)) → emits_only P (try_except m h).
Proof.
  unfold emits_only. intros Hm Hh. rewrite trace_try_except. apply Forall_app.
  split; [done|]. destruct (outcome m); [apply Hh | constructor].
Qed.

Lemma emits_only_impl (Q : event → Prop) (m : M A) :
  (∀ ev, P ev → Q ev) → emits_only P m → emits_only Q m.
Proof. intros HPQ Hm. unfold emits_only in *. eapply Forall_impl; [exact Hm | exact HPQ]. Qed.

End EmitsOnly.

Lemma emits_only_for_each {A B} P (f : A → M B) (l : list A) :
  (∀ x, emits_only P (f x)) → emits_only P (for_each f l).
Proof.
  intros Hf. induction l as [|x l IH]; [constructor|].
  cbn [for_each]. apply emits_only_bind; [apply Hf|]. intros y.
  apply emits_only_bind; [apply IH|]. intros ys. constructor.
Qed.

Lemma emits_only_log P m : P (ELog m) → emits_only P (log_debug m).
Proof. intros HP. by repeat constructor. Qed.

Lemma emits_only_dict_getitem P (d : dict) k : emits_only P (dict_getitem d k).
Proof. unfold emits_only. rewrite trace_dict_getitem. constructor. Qed.

Lemma emits_only_str_lower `{Env} P v : emits_only P (str_lower v).
Proof. destruct v; constructor. Qed.

Lemma emits_only_str_split_dashes P v : emits_only P (str_split_dashes v).
Proof. destruct v; constructor. Qed.

(** Decompose a goal on the events of a computation along its
    structure; what is left are the events of the calls. *)
Ltac emits_step :=
  lazymatch goal with
  | |- emits_only _ (mbind _ _) => apply emits_only_bind; [|intros]
  | |- emits_only _ (mret _) => apply emits_only_ret
  | |- emits_only _ (raise _) => apply emits_only_raise
  | |- emits_only _ (log_debug _) => apply emits_only_log
  | |- emits_only _ (call _ _) => apply emits_only_call
  | |- emits_only _ (try_except _ _) => apply emits_only_try_except; [|intros]
  | |- emits_only _ (dict_getitem _ _) => apply emits_only_dict_getitem
  | |- emits_only _ (str_lower _) => apply emits_only_str_lower
  | |- emits_only _ (str_split_dashes _) => apply emits_only_str_split_dashes
  | |- emits_only _ (for_each _ _) => apply emits_only_for_each; intros
  | |- emits_only _ (if ?b then _ else _) => destruct b
  | |- emits_only _ (match ?x with _ => _ end) => destruct x
  end.

Ltac emits := repeat emits_step; try (exact I); try reflexivity; try assumption.

Lemma directory_read_is_search ev : directory_read_event ev → search_event ev.
Proof. by destruct ev as [b []|?|?|?|?]. Qed.

Lemma search_is_read_only ev : search_event ev → read_only_event ev.
Proof. by destruct ev as [b []|?|[]|?|?]. Qed.

Lemma directory_read_is_read_only ev : directory_read_event ev → read_only_event ev.
Proof. intros. by apply search_is_read_only, directory_read_is_search. Qed.

Lemma directory_read_no_broker ev : directory_read_event ev → no_broker_event ev.
Proof. by destruct ev. Qed.

Section EventsOfMethods.
Context `{Env} (self : BrokerManager).

Lemma collect_pks_ctx_dict_events org_name vdc_names pks_ctx_dict :
  emits_only directory_read_event (collect_pks_ctx_dict org_name vdc_names pks_ctx_dict).
Proof.
  revert pks_ctx_dict. induction vdc_names as [|vdc_name rest IH]; intros d.
  - constructor.
  - cbn [collect_pks_ctx_dict]. unfold ovdc_cache_get_ovdc_container_provider_metadata.
    emits; apply IH.
Qed.

Lemma enumeration_events :
  emits_only directory_read_event (_create_pks_context_for_all_accounts_in_org self).
Proof.
  unfold _create_pks_context_for_all_accounts_in_org, vcd_client_is_sysadmin,
    pks_cache_get_all_pks_account_info_in_system,
    pks_cache_do_orgs_have_exclusive_pks_account,
    pks_cache_get_exclusive_pks_accounts_info_for_org, vcd_client_get_org, org_list_vdcs,
    pks_context_of_account, OvdcCache_construct_pks_context.
  emits. apply collect_pks_ctx_dict_events.
Qed.

Lemma get_broker_based_on_vdc_events :
  emits_only directory_read_event (get_broker_based_on_vdc self).
Proof.
  unfold get_broker_based_on_vdc, ovdc_cache_get_ovdc_container_provider_metadata.
  emits.
Qed.

Lemma find_cluster_in_pks_events cluster_name pks_ctx_list :
  emits_only search_event (find_cluster_in_pks self cluster_name pks_ctx_list).
Proof.
  induction pks_ctx_list as [|pks_ctx rest IH]; [constructor|].
  cbn [find_cluster_in_pks]. unfold broker_get_cluster_info. emits.
Qed.

Lemma find_cluster_in_org_events cluster_name :
  emits_only search_event (_find_cluster_in_org self cluster_name).
Proof.
  unfold _find_cluster_in_org, broker_get_cluster_info. emits.
  - eapply emits_only_impl; [apply directory_read_is_search | apply enumeration_events].
  - apply find_cluster_in_pks_events.
Qed.

Lemma get_cluster_info_events cluster_spec :
  emits_only search_event (_get_cluster_info self cluster_spec).
Proof.
  unfold _get_cluster_info, broker_get_cluster_info. emits.
  - eapply emits_only_impl;
      [apply directory_read_is_search | apply get_broker_based_on_vdc_events].
  - apply find_cluster_in_org_events.
Qed.

Lemma get_ovdc_params_events :
  emits_only directory_read_event (_get_ovdc_params self).
Proof.
  unfold _get_ovdc_params, ovdc_cache_get_ovdc, ovdc_cache_get_pvdc_id,
    pks_cache_get_pvdc_info, pks_cache_get_pks_account_info, pks_cache_get_nsxt_info,
    ovdc_cache_get_compute_profile_name, OvdcCache_construct_pks_context.
  emits.
Qed.

Lemma list_ovdcs_events : emits_only directory_read_event (_list_ovdcs self).
Proof.
  unfold _list_ovdcs, vcd_client_is_sysadmin, vcd_client_get_org_list, vcd_client_get_org,
    org_children, org_list_vdcs, org_get_name,
    ovdc_cache_get_ovdc_container_provider_metadata.
  emits.
Qed.

Lemma get_truncated_cluster_info_events P cluster pks_broker keys :
  emits_only P (_get_truncated_cluster_info self cluster pks_broker keys).
Proof. unfold _get_truncated_cluster_info. emits. Qed.

Lemma list_clusters_events : emits_only read_only_event (_list_clusters self).
Proof.
  unfold _list_clusters, broker_list_clusters. emits.
  - eapply emits_only_impl;
      [apply directory_read_is_read_only | apply get_broker_based_on_vdc_events].
  - eapply emits_only_impl;
      [apply directory_read_is_read_only | apply enumeration_events].
  - apply get_truncated_cluster_info_events.
Qed.

Lemma get_cluster_config_events :
  ∀ cluster_spec, emits_only read_only_event (_get_cluster_config self cluster_spec).
Proof.
  intros cluster_spec. unfold _get_cluster_config, broker_get_cluster_config. emits.
  - eapply emits_only_impl;
      [apply directory_read_is_read_only | apply get_broker_based_on_vdc_events].
  - eapply emits_only_impl; [apply search_is_read_only | apply find_cluster_in_org_events].
Qed.

End EventsOfMethods.

(** ** What the operations change *)

Lemma read_only_broker_calls t :
  Forall read_only_event t →
  Forall (λ bc : broker * broker_call, is_mutating bc.2 = false) (broker_calls t).
Proof.
  induction 1 as [|ev t Hev _ IH]; [constructor|].
  rewrite broker_calls_cons. destruct ev; try done. by constructor.
Qed.

Lemma read_only_metadata_writes t : Forall read_only_event t → metadata_writes t = [].
Proof.
  induction 1 as [|ev t Hev _ IH]; [reflexivity|].
  rewrite metadata_writes_cons. by destruct ev as [| |[]| |].
Qed.

Section Mutations.
Context `{Env}.

Lemma invoke_read_events (self : BrokerManager) (op : Operation) :
  is_read_operation op = true → emits_only read_only_event (invoke self op).
Proof.
  intros Hop. destruct op; try discriminate; unfold invoke.
  - emits. eapply emits_only_impl; [apply search_is_read_only|].
    apply get_cluster_info_events.
  - emits. apply list_clusters_events.
  - emits. eapply emits_only_impl; [apply directory_read_is_read_only|].
    apply list_ovdcs_events.
  - unfold ovdc_cache_get_ovdc_container_provider_metadata. emits.
  - emits. apply get_cluster_config_events.
Qed.

(** X1: the five reading operations (get cluster, list clusters, get
    cluster config, list ovdcs, info ovdc) make no mutating broker
    call and write no ownership metadata, whatever the request and
    whatever the collaborators answer. *)
Theorem read_operations_change_nothing (self : BrokerManager) (op : Operation) :
  is_read_operation op = true →
  Forall (λ bc : broker * broker_call, is_mutating bc.2 = false)
    (broker_calls (trace (invoke self op))) ∧
  metadata_writes (trace (invoke self op)) = [].
Proof.
  intros Hop. pose proof (invoke_read_events self op Hop) as Hev. split.
  - by apply read_only_broker_calls.
  - by apply read_only_metadata_writes.
Qed.

Lemma ends_with_mutation_of_bind {A B} op (m : M A) (f : A → M B) :
  emits_only search_event m →
  (∀ a, ends_with_mutation_of op (trace (f a))) →
  ends_with_mutation_of op (trace (m ≫= f)).
Proof.
  intros Hm Hf. rewrite trace_bind. destruct (outcome m) as [e|a].
  - left. by rewrite app_nil_r.
  - destruct (Hf a) as [Hall|(t' & b & c & -> & Hall & Hc)].
    + left. apply Forall_app. by split.
    + right. exists (trace m ++ t'), b, c. split; [by rewrite app_assoc|].
      split; [|done]. apply Forall_app. by split.
Qed.

Lemma ends_with_mutation_of_result {A B} op (m : M A) (g : A → B) :
  ends_with_mutation_of op (trace m) →
  ends_with_mutation_of op (trace (m ≫= λ a, mret (g a))).
Proof.
  intros Hm. rewrite trace_bind.
  replace (match outcome m with inl _ => [] | inr a => trace (mret (g a) : M B) end)
    with ([] : list event) by (by destruct (outcome m)).
  by rewrite app_nil_r.
Qed.

Lemma ends_with_mutation_of_call {A} op b c (r : exn + A) :
  mutation_of op c → ends_with_mutation_of op (trace (call (EBroker b c) r)).
Proof. intros Hc. right. exists [], b, c. split; [reflexivity|]. by split. Qed.

Lemma ends_with_mutation_of_raise {A} op e :
  ends_with_mutation_of op (trace (raise e : M A)).
Proof. left. constructor. Qed.

(** X2: a create, resize or delete request makes at most one mutating
    broker call, of the kind of the operation, and that call is the
    last event of the request: what precedes it are probes, log lines
    and reads of the directory only. *)
Theorem cluster_operations_mutate_once_and_last (self : BrokerManager) (op : Operation) :
  op ∈ [CREATE_CLUSTER; RESIZE_CLUSTER; DELETE_CLUSTER] →
  ends_with_mutation_of op (trace (invoke self op)).
Proof.
  intros Hop. pose proof (get_broker_based_on_vdc_events (with_ovdc_flag self)) as Hb.
  apply (emits_only_impl _ _ _ directory_read_is_search) in Hb.
  repeat (apply elem_of_cons in Hop as [->|Hop]); [| | |by apply elem_of_nil in Hop];
    unfold invoke; apply (ends_with_mutation_of_result _ _ (λ r, Build_result r ACCEPTED)).
  - unfold _create_cluster, broker_create_cluster.
    apply ends_with_mutation_of_bind; [apply emits_only_dict_getitem|]. intros n.
    apply ends_with_mutation_of_bind; [apply find_cluster_in_org_events|]. intros found.
    destruct (negb _); [|apply ends_with_mutation_of_raise].
    apply ends_with_mutation_of_bind; [exact Hb|]. intros b.
    by apply ends_with_mutation_of_call.
  - unfold _resize_cluster, broker_resize_cluster.
    apply ends_with_mutation_of_bind; [apply get_cluster_info_events|]. intros [c b].
    by apply ends_with_mutation_of_call.
  - unfold _delete_cluster, broker_delete_cluster.
    apply ends_with_mutation_of_bind; [apply emits_only_dict_getitem|]. intros n.
    apply ends_with_mutation_of_bind; [apply get_cluster_info_events|]. intros [c b].
    by apply ends_with_mutation_of_call.
Qed.

End Mutations.

(** ** Enabling a vdc *)

Section Enable.
Context `{Env}.

(** X3: enabling a vdc for a provider other than PKS reads the vdc
    and its provider vdc, creates no compute profile, consults neither
    a broker nor the PKS cache, and writes the ownership metadata with
    no provider data; the result carries the task of that write with
    the status ACCEPTED. *)
Theorem enable_ovdc_without_pks
    (self : BrokerManager) (pks_plans provider pvdc_id : value) (ovdc : Ovdc) :
  req_spec self !! "pks_plans" = Some pks_plans →
  req_spec self !! CONTAINER_PROVIDER_KEY = Some provider →
  provider ≠ VStr CtrProvType_PKS →
  on_get_ovdc (dict_get (req_spec self) "ovdc_id") = inr ovdc →
  on_get_pvdc_id ovdc = inr pvdc_id →
  trace (invoke self ENABLE_OVDC)
  = [EOvdcCache (GetOvdc (dict_get (req_spec self) "ovdc_id"));
     EOvdcCache (GetPvdcId ovdc);
     EOvdcCache (SetOvdcContainerProviderMetadata ovdc None provider)] ∧
  outcome (invoke self ENABLE_OVDC)
  = match on_set_ovdc_container_provider_metadata ovdc None provider with
    | inl e => inl e
    | inr task =>
        inr {| body := RDict {["task_href" := dict_get task "href"]};
               status_code := ACCEPTED |}
    end.
Proof.
  intros Hplans Hprov Hne Hovdc Hpvdc.
  unfold invoke, _get_ovdc_params, ovdc_cache_get_ovdc, ovdc_cache_get_pvdc_id,
    ovdc_cache_set_ovdc_container_provider_metadata.
  change (req_spec (with_ovdc_flag self)) with (req_spec self).
  split; msimpl; rewrite Hplans; msimpl; rewrite Hovdc; msimpl; rewrite Hpvdc; msimpl;
    rewrite Hprov; msimpl; rewrite bool_decide_eq_false_2 by done; msimpl;
    rewrite Hprov; msimpl; rewrite bool_decide_eq_false_2 by done; msimpl;
    rewrite Hprov; msimpl;
    by destruct (on_set_ovdc_container_provider_metadata ovdc None provider).
Qed.

(** X4: [_get_ovdc_params] fails before any call when the request has
    no ['pks_plans'], and enabling a vdc for PKS on a server without
    PKS configuration fails with the error 'PKS config file does not
    exist' after reading the vdc; in both cases the enable operation
    fails with the same error, creates no compute profile and writes
    nothing. *)
Theorem get_ovdc_params_errors (self : BrokerManager) :
  (req_spec self !! "pks_plans" = None →
   _get_ovdc_params self = ([], inl (KeyError "pks_plans")) ∧
   invoke self ENABLE_OVDC = ([], inl (KeyError "pks_plans"))) ∧
  (∀ pks_plans ovdc pvdc_id,
     req_spec self !! "pks_plans" = Some pks_plans →
     req_spec self !! CONTAINER_PROVIDER_KEY = Some (VStr CtrProvType_PKS) →
     get_pks_cache = None →
     on_get_ovdc (dict_get (req_spec self) "ovdc_id") = inr ovdc →
     on_get_pvdc_id ovdc = inr pvdc_id →
     let t := [EOvdcCache (GetOvdc (dict_get (req_spec self) "ovdc_id"));
               EOvdcCache (GetPvdcId ovdc)] in
     let e := CseServerError "PKS config file does not exist" in
     _get_ovdc_params self = (t, inl e) ∧ invoke self ENABLE_OVDC = (t, inl e)).
Proof.
  split.
  - intros Hplans.
    assert (Hp : _get_ovdc_params self = ([], inl (KeyError "pks_plans"))).
    { unfold _get_ovdc_params. apply M_eq; msimpl; by rewrite Hplans. }
    split; [exact Hp|]. unfold invoke.
    change (_get_ovdc_params (with_ovdc_flag self)) with (_get_ovdc_params self).
    by rewrite Hp.
  - intros pks_plans ovdc pvdc_id Hplans Hprov Hcache Hovdc Hpvdc t e.
    assert (Hp : _get_ovdc_params self = (t, inl e)).
    { unfold _get_ovdc_params, ovdc_cache_get_ovdc, ovdc_cache_get_pvdc_id.
      rewrite Hcache.
      apply M_eq; msimpl; rewrite Hplans; msimpl; rewrite Hovdc; msimpl; rewrite Hpvdc;
        msimpl; rewrite Hprov; msimpl; rewrite bool_decide_eq_true_2 by done; by msimpl. }
    split; [exact Hp|]. unfold invoke.
    change (_get_ovdc_params (with_ovdc_flag self)) with (_get_ovdc_params self).
    by rewrite Hp.
Qed.

Lemma create_pks_compute_profile_calls (self : BrokerManager) (pks_ctx : option dict) :
  broker_calls (trace (_create_pks_compute_profile self pks_ctx)) = [] ∨
  ∃ ctx name,
    pks_ctx = Some ctx ∧
    broker_calls (trace (_create_pks_compute_profile self pks_ctx))
    = [(PKSBroker (req_headers self) (req_spec self) ctx,
        CreateComputeProfile (compute_profile_params_of self ctx name))].
Proof.
  unfold _create_pks_compute_profile, ovdc_cache_get_compute_profile_name,
    broker_create_compute_profile.
  cbv zeta.
  destruct (on_get_compute_profile_name (dict_get (req_spec self) "ovdc_id")
              (dict_get (req_spec self) "ovdc_name")) as [e|name] eqn:Ename.
  - left. by msimpl.
  - destruct pks_ctx as [ctx|].
    + right. exists ctx, name. split; [done|]. msimpl.
      rewrite !broker_calls_cons. cbn beta iota. f_equal.
      destruct (on_create_compute_profile _ _) as [[]|]; msimpl;
        try reflexivity; by case_bool_decide.
    + left. by msimpl.
Qed.

(** X5: the only broker call that enabling a vdc can make is one
    [create_compute_profile], on the PKS broker of the context
    returned by [_get_ovdc_params], and it makes at most one write of
    ownership metadata, as its last event. *)
Theorem enable_ovdc_calls (self : BrokerManager) :
  (broker_calls (trace (invoke self ENABLE_OVDC)) = [] ∨
   ∃ ctx ovdc name,
     outcome (_get_ovdc_params self) = inr (Some ctx, ovdc) ∧
     broker_calls (trace (invoke self ENABLE_OVDC))
     = [(PKSBroker (req_headers self) (req_spec self) ctx,
         CreateComputeProfile (compute_profile_params_of self ctx name))]) ∧
  (metadata_writes (trace (invoke self ENABLE_OVDC)) = [] ∨
   ∃ t ovdc data provider,
     trace (invoke self ENABLE_OVDC)
     = t ++ [EOvdcCache (SetOvdcContainerProviderMetadata ovdc data provider)] ∧
     metadata_writes t = []).
Proof.
  pose proof (get_ovdc_params_events (with_ovdc_flag self)) as Hp.
  assert (Hpb : broker_calls (trace (_get_ovdc_params (with_ovdc_flag self))) = []).
  { unfold emits_only in Hp. clear -Hp.
    induction Hp as [|ev t Hev _ IH]; [done|]. rewrite broker_calls_cons.
    by destruct ev. }
  pose proof (metadata_writes_get_ovdc_params (with_ovdc_flag self)) as Hpw.
  unfold invoke, ovdc_cache_set_ovdc_container_provider_metadata.
  change (_get_ovdc_params self) with (_get_ovdc_params (with_ovdc_flag self)).
  destruct (outcome (_get_ovdc_params (with_ovdc_flag self))) as [e|[pks_ctx ovdc]] eqn:Eo.
  { split; left; msimpl; rewrite Eo; msimpl; by rewrite app_nil_r. }
  destruct (req_spec (with_ovdc_flag self) !! CONTAINER_PROVIDER_KEY) as [prov|] eqn:Eprov.
  2: { split; left; msimpl; rewrite Eo; msimpl; rewrite Eprov; msimpl;
       by rewrite app_nil_r. }
  pose proof (metadata_writes_create_pks_compute_profile (with_ovdc_flag self) pks_ctx)
    as Hcw.
  set (profile := if bool_decide (prov = VStr CtrProvType_PKS)
                  then _create_pks_compute_profile (with_ovdc_flag self) pks_ctx
                  else mret ()).
  assert (Hprofile_w : metadata_writes (trace profile) = []).
  { unfold profile. by destruct (bool_decide _). }
  assert (Hprofile_b :
            broker_calls (trace profile) = [] ∨
            ∃ ctx name, pks_ctx = Some ctx ∧
              broker_calls (trace profile)
              = [(PKSBroker (req_headers self) (req_spec self) ctx,
                  CreateComputeProfile (compute_profile_params_of self ctx name))]).
  { unfold profile. destruct (bool_decide _); [|by left].
    apply (create_pks_compute_profile_calls (with_ovdc_flag self)). }
  split.
  - assert (Hcalls : broker_calls (trace (invoke self ENABLE_OVDC))
                     = broker_calls (trace profile)).
    { unfold invoke, ovdc_cache_set_ovdc_container_provider_metadata.
      msimpl. rewrite Eo. msimpl. rewrite Eprov. msimpl. fold profile.
      rewrite !broker_calls_app, Hpb.
      destruct (outcome profile); msimpl; rewrite ?app_nil_r; [done|].
      rewrite Eprov. msimpl. rewrite broker_calls_cons. cbn beta iota.
      destruct (on_set_ovdc_container_provider_metadata _ _ _); msimpl;
        by rewrite ?app_nil_r. }
    unfold invoke, ovdc_cache_set_ovdc_container_provider_metadata in Hcalls.
    rewrite Hcalls.
    destruct Hprofile_b as [->|(ctx & name & -> & ->)]; [by left|].
    right. by exists ctx, ovdc, name.
  - msimpl. rewrite Eo. msimpl. rewrite Eprov. msimpl. fold profile.
    destruct (outcome profile) as [e|[]] eqn:Ep.
    + left. rewrite app_nil_r, !metadata_writes_app, Hpw, Hprofile_w. done.
    + right. msimpl. rewrite Eprov. msimpl.
      exists (trace (_get_ovdc_params (with_ovdc_flag self)) ++ trace profile),
        ovdc, pks_ctx, prov.
      split.
      * rewrite <- app_assoc. do 2 f_equal.
        by destruct (on_set_ovdc_container_provider_metadata _ _ _).
      * by rewrite metadata_writes_app, Hpw, Hprofile_w.
Qed.

End Enable.

(** ** Results of the dispatch *)

Section Dispatch.
Context `{Env}.

(** X7: for a request that names a vdc whose metadata names neither
    provider, get, config, list, resize and delete fail with the
    error 'Vdc ... is not enabled' after the one lookup, without any
    broker call; create fails with the same error, without a
    [create_cluster] call, once its search has found nothing. *)
Theorem unset_vdc_is_an_error (self : BrokerManager) (ctr_prov_ctx : dict) :
  explicit_unset_vdc self ctr_prov_ctx →
  let failed : M result :=
    (resolution_events self ctr_prov_ctx, inl (vdc_not_enabled (request_vdc self))) in
  (∀ op, op ∈ [GET_CLUSTER; GET_CLUSTER_CONFIG; LIST_CLUSTERS; RESIZE_CLUSTER;
               DELETE_CLUSTER] →
         invoke self op = failed) ∧
  (outcome (_find_cluster_in_org self (dict_get (req_spec self) "cluster_name"))
     = inr None →
   outcome (invoke self CREATE_CLUSTER) = inl (vdc_not_enabled (request_vdc self)) ∧
   create_calls (trace (invoke self CREATE_CLUSTER)) = []).
Proof.
  intros Hunset failed.
  assert (Hflag : truthy (is_ovdc_present_in_request (with_ovdc_flag self)) = true)
    by (by destruct Hunset as (? & _)).
  pose proof (get_broker_based_on_vdc_unset (with_ovdc_flag self) ctr_prov_ctx Hunset)
    as Hbroker.
  change (resolution_events (with_ovdc_flag self) ctr_prov_ctx)
    with (resolution_events self ctr_prov_ctx) in Hbroker.
  change (request_vdc (with_ovdc_flag self)) with (request_vdc self) in Hbroker.
  split.
  - intros op Hop.
    repeat (apply elem_of_cons in Hop as [->|Hop]); [| | | | |by apply elem_of_nil in Hop];
      unfold invoke, _get_cluster_config, _list_clusters, _resize_cluster, _delete_cluster,
        _get_cluster_info;
      rewrite ?Hflag, ?Hbroker;
      apply M_eq; msimpl;
      rewrite ?cluster_spec_of_name_lookup, ?cluster_spec_of_resize_lookup; msimpl;
      rewrite ?Hflag, ?Hbroker; msimpl; rewrite ?app_nil_r; reflexivity.
  - intros Hnone. rewrite <- find_cluster_in_org_with_flag in Hnone.
    destruct (create_cluster_not_found (with_ovdc_flag self)
                (cluster_spec_of_create (with_ovdc_flag self)) _
                (cluster_spec_of_create_lookup _) Hnone) as [Ht Ho].
    unfold invoke. msimpl. rewrite Ht, Ho, Hbroker. msimpl. split; [reflexivity|].
    rewrite !app_nil_r, create_calls_app.
    assert (Hsearch : Forall search_event
                        (trace (_find_cluster_in_org (with_ovdc_flag self)
                                  (dict_get (req_spec (with_ovdc_flag self))
                                     "cluster_name"))))
      by apply find_cluster_in_org_events.
    assert (Hnc : ∀ t, Forall search_event t → create_calls t = []).
    { clear. induction 1 as [|ev t Hev _ IH]; [done|].
      destruct ev as [b []| |[]| |]; try done. }
    by rewrite (Hnc _ Hsearch).
Qed.

(** X8: for a request that names a vdc with valid ownership metadata,
    get, list and config return what the resolved broker answers, as
    it is: the listed records are not projected or tagged, and an
    exception of the broker is raised unchanged. *)
Theorem explicit_vdc_results (self : BrokerManager) (ctr_prov_ctx : dict) :
  explicit_valid_vdc self ctr_prov_ctx →
  let b := resolved_broker self ctr_prov_ctx in
  let cluster_name := dict_get (req_spec self) "cluster_name" in
  outcome (invoke self GET_CLUSTER)
  = match on_get_cluster_info b cluster_name with
    | inl e => inl e
    | inr cluster => inr {| body := RDict cluster; status_code := OK |}
    end ∧
  outcome (invoke self LIST_CLUSTERS)
  = match on_list_clusters b with
    | inl e => inl e
    | inr clusters => inr {| body := RList clusters; status_code := OK |}
    end ∧
  outcome (invoke self GET_CLUSTER_CONFIG)
  = match on_get_cluster_config b cluster_name with
    | inl e => inl e
    | inr config => inr {| body := config; status_code := OK |}
    end.
Proof.
  intros Hvalid b cluster_name.
  pose proof (explicit_valid_vdc_with_flag self ctr_prov_ctx Hvalid) as Hvalid'.
  pose proof (flag_of_explicit_valid_vdc self ctr_prov_ctx Hvalid) as Hflag.
  pose proof (get_broker_based_on_vdc_direct _ _ Hvalid') as Hbroker.
  change (resolved_broker (with_ovdc_flag self) ctr_prov_ctx) with b in Hbroker.
  unfold invoke, _get_cluster_info, _get_cluster_config, _list_clusters,
    broker_get_cluster_info, broker_get_cluster_config, broker_list_clusters.
  rewrite Hflag, Hbroker. repeat split; msimpl;
    rewrite ?cluster_spec_of_name_lookup; msimpl.
  - change (dict_get (req_spec (with_ovdc_flag self)) "cluster_name") with cluster_name.
    by destruct (on_get_cluster_info b cluster_name).
  - by destruct (on_list_clusters b).
  - change (dict_get (req_spec (with_ovdc_flag self)) "cluster_name") with cluster_name.
    by destruct (on_get_cluster_config b cluster_name).
Qed.

End Dispatch.

(** ** More on the enumeration of the accounts *)

Section MoreEnumeration.
Context `{Env}.

Lemma for_each_account_contexts (accounts : list PksAccountInfo) (ctxs : list dict) :
  Forall2 (λ a ctx, on_construct_pks_context (account_context_args a) = inr ctx)
    accounts ctxs →
  for_each pks_context_of_account accounts
  = (map (λ a, EOvdcCache (ConstructPksContext (account_context_args a))) accounts,
     inr ctxs).
Proof.
  induction 1 as [|a ctx accounts ctxs Ha _ IH]; [reflexivity|].
  cbn [for_each].
  change (pks_context_of_account a)
    with (call (EOvdcCache (ConstructPksContext (account_context_args a)))
            (on_construct_pks_context (account_context_args a))).
  apply M_eq; msimpl; rewrite Ha; msimpl; rewrite IH; msimpl;
    rewrite ?app_nil_r; reflexivity.
Qed.

(** X9: on a server without PKS configuration the enumeration returns
    no account and calls no collaborator; a search then probes the vCD
    broker only, and finds nothing exactly when that probe raises. *)
Theorem no_pks_configuration (self : BrokerManager) (cluster_name : value) :
  get_pks_cache = None →
  let vcd_broker := VcdBroker (req_headers self) (req_spec self) in
  _create_pks_context_for_all_accounts_in_org self = ([], inr []) ∧
  broker_calls (trace (_find_cluster_in_org self cluster_name))
    = [(vcd_broker, GetClusterInfo cluster_name)] ∧
  (outcome (_find_cluster_in_org self cluster_name) = inr None
   ↔ raises (on_get_cluster_info vcd_broker cluster_name)).
Proof.
  intros Hcache vcd_broker.
  assert (Henum : _create_pks_context_for_all_accounts_in_org self = ([], inr [])).
  { unfold _create_pks_context_for_all_accounts_in_org. by rewrite Hcache. }
  split; [exact Henum|].
  destruct (on_get_cluster_info vcd_broker cluster_name) as [err|c] eqn:E.
  - destruct (find_cluster_in_org_vcd_miss self cluster_name err E) as [-> ->].
    rewrite Henum. by msimpl.
  - rewrite (find_cluster_in_org_vcd_hit self cluster_name c E). split; [done|].
    split; [discriminate | done].
Qed.

(** X10: for a system administrator the enumeration asks the PKS cache
    for all the accounts of the system and builds one context per
    account, in their order; it looks at no vdc and at no organisation. *)
Theorem enumeration_for_sysadmin
    (self : BrokerManager) (pks_cache : PksCache)
    (accounts : list PksAccountInfo) (ctxs : list dict) :
  get_pks_cache = Some pks_cache →
  on_is_sysadmin = inr true →
  on_get_all_pks_account_info_in_system pks_cache = inr accounts →
  Forall2 (λ a ctx, on_construct_pks_context (account_context_args a) = inr ctx)
    accounts ctxs →
  _create_pks_context_for_all_accounts_in_org self
  = (EVcdClient IsSysadmin :: EPksCache GetAllPksAccountInfoInSystem
       :: map (λ a, EOvdcCache (ConstructPksContext (account_context_args a))) accounts,
     inr ctxs).
Proof.
  intros Hcache Hsys Hall Hctxs.
  unfold _create_pks_context_for_all_accounts_in_org, vcd_client_is_sysadmin,
    pks_cache_get_all_pks_account_info_in_system.
  rewrite Hcache.
  apply M_eq; msimpl; rewrite Hsys; msimpl; rewrite Hall; msimpl;
    rewrite (for_each_account_contexts _ _ Hctxs); by msimpl.
Qed.

(** X11: for another caller, when organisations have exclusive PKS
    accounts, the enumeration asks the PKS cache for the accounts of
    the organisation of the session and builds one context per
    account, in their order; it looks at no vdc. *)
Theorem enumeration_for_exclusive_accounts
    (self : BrokerManager) (pks_cache : PksCache)
    (accounts : list PksAccountInfo) (ctxs : list dict) :
  let org_name := dict_get (session self) "org" in
  get_pks_cache = Some pks_cache →
  on_is_sysadmin = inr false →
  on_do_orgs_have_exclusive_pks_account pks_cache = inr true →
  on_get_exclusive_pks_accounts_info_for_org pks_cache org_name = inr accounts →
  Forall2 (λ a ctx, on_construct_pks_context (account_context_args a) = inr ctx)
    accounts ctxs →
  _create_pks_context_for_all_accounts_in_org self
  = (EVcdClient IsSysadmin :: EPksCache DoOrgsHaveExclusivePksAccount
       :: EPksCache (GetExclusivePksAccountsInfoForOrg org_name)
       :: map (λ a, EOvdcCache (ConstructPksContext (account_context_args a))) accounts,
     inr ctxs).
Proof.
  intros org_name Hcache Hsys Hexcl Haccounts Hctxs.
  unfold _create_pks_context_for_all_accounts_in_org, vcd_client_is_sysadmin,
    pks_cache_do_orgs_have_exclusive_pks_account,
    pks_cache_get_exclusive_pks_accounts_info_for_org.
  fold org_name.
  rewrite Hcache.
  apply M_eq; msimpl; rewrite Hsys; msimpl; rewrite Hexcl; msimpl; rewrite Haccounts;
    msimpl; rewrite (for_each_account_contexts _ _ Hctxs); by msimpl.
Qed.

End MoreEnumeration.

Lemma pydict_setitem_elem_NoDup {K V} `{EqDecision K} (d : list (K * V)) k v k' v' :
  NoDup (map fst d) →
  (k', v') ∈ pydict_setitem d k v → (k' = k ∧ v' = v) ∨ ((k', v') ∈ d ∧ k' ≠ k).
Proof.
  induction d as [|[k0 v0] d IH]; cbn [pydict_setitem map fst]; intros Hnd Hin.
  - apply list_elem_of_singleton in Hin as [= -> ->]. by left.
  - apply NoDup_cons in Hnd as [Hk0 Hnd]. destruct (decide (k0 = k)) as [->|Hne].
    + apply elem_of_cons in Hin as [[= -> ->]|Hin]; [by left|].
      right. split; [by right|]. intros ->. apply Hk0.
      apply list_elem_of_fmap. by exists (k, v').
    + apply elem_of_cons in Hin as [[= -> ->]|Hin].
      * right. split; [by left | done].
      * destruct (IH Hnd Hin) as [?|[? ?]]; [by left|]. right. split; [by right | done].
Qed.

Section LastWins.
Context `{Env}.

Lemma fold_pks_ctx_dict_cons (m : dict) (metas : list dict) (d : list (value * dict)) :
  fold_pks_ctx_dict (m :: metas) d
  = fold_pks_ctx_dict metas
      (if decide (owned_by_pks m) then pydict_setitem d (dict_get m "vc") m else d).
Proof. reflexivity. Qed.

Lemma fold_pks_ctx_dict_keys (metas : list dict) (d : list (value * dict)) :
  map fst (fold_pks_ctx_dict metas d)
  = foldl (λ acc k, if decide (k ∈ acc) then acc else acc ++ [k]) (map fst d)
      (map (λ m, dict_get m "vc") (filter owned_by_pks metas)).
Proof.
  revert d. induction metas as [|m metas IH]; intros d; [reflexivity|].
  rewrite fold_pks_ctx_dict_cons, filter_cons.
  destruct (decide (owned_by_pks m)) as [Hown|Hown].
  - cbn [map foldl]. rewrite IH, pydict_setitem_keys. reflexivity.
  - apply IH.
Qed.

Lemma fold_pks_ctx_dict_last_wins (metas : list dict) :
  Forall (λ meta, owned_by_pks meta → is_Some (meta !! "vc")) metas →
  ∀ d seen,
    NoDup (map fst d) →
    (∀ k v, (k, v) ∈ d →
       ∃ before after, seen = before ++ v :: after ∧
         Forall (λ m, owned_by_pks m → m !! "vc" ≠ Some k) after) →
    ∀ k v, (k, v) ∈ fold_pks_ctx_dict metas d →
      ∃ before after, seen ++ metas = before ++ v :: after ∧
        Forall (λ m, owned_by_pks m → m !! "vc" ≠ Some k) after.
Proof.
  induction 1 as [|meta metas Hvc _ IH]; intros d seen Hnd Hlast k v Hin.
  - simpl in Hin. rewrite app_nil_r. by apply Hlast.
  - rewrite fold_pks_ctx_dict_cons in Hin.
    replace (seen ++ meta :: metas) with ((seen ++ [meta]) ++ metas)
      by (by rewrite <- app_assoc).
    destruct (decide (owned_by_pks meta)) as [Hown|Hown].
    + destruct (Hvc Hown) as [k0 Hk0].
      assert (Hget : dict_get meta "vc" = k0) by (unfold dict_get; by rewrite Hk0).
      rewrite Hget in Hin.
      apply (IH (pydict_setitem d k0 meta)); [by apply pydict_setitem_NoDup| |done].
      intros k' v' [[-> ->]|[Hel Hne]]%pydict_setitem_elem_NoDup; [| |done].
      * exists seen, []. split; [done | constructor].
      * destruct (Hlast _ _ Hel) as (before & after & -> & Hafter).
        exists before, (after ++ [meta]). split; [by rewrite <- app_assoc|].
        apply Forall_app. split; [done|]. constructor; [|constructor].
        intros _. rewrite Hk0. congruence.
    + apply (IH d); [done| |done].
      intros k' v' Hel. destruct (Hlast _ _ Hel) as (before & after & -> & Hafter).
      exists before, (after ++ [meta]). split; [by rewrite <- app_assoc|].
      apply Forall_app. split; [done|]. constructor; [|constructor]. done.
Qed.

(** X12: when the accounts are derived from the vdcs of the
    organisation, the returned contexts are ordered by the first
    occurrence of their vCenter among the vdcs that PKS owns, and the
    context kept for a vCenter is the metadata of the last such vdc:
    no later vdc owned by PKS has the same vCenter. *)
Theorem enumeration_order_and_last_wins
    (self : BrokerManager) (pks_cache : PksCache) (org_resource : OrgResource)
    (vdcs : list dict) (names : list value) (metas : list dict) :
  get_pks_cache = Some pks_cache →
  on_is_sysadmin = inr false →
  on_do_orgs_have_exclusive_pks_account pks_cache = inr false →
  on_get_org = inr org_resource →
  on_org_list_vdcs org_resource = inr vdcs →
  Forall2 (λ vdc name, vdc !! "name" = Some name) vdcs names →
  Forall2 (metadata_of (dict_get (session self) "org")) names metas →
  ∃ pks_ctx_list,
    outcome (_create_pks_context_for_all_accounts_in_org self) = inr pks_ctx_list ∧
    map (λ ctx, dict_get ctx "vc") pks_ctx_list
      = first_occurrences (map (λ m, dict_get m "vc") (filter owned_by_pks metas)) ∧
    ∀ ctx, ctx ∈ pks_ctx_list →
      ∃ before after, metas = before ++ ctx :: after ∧
        Forall (λ m, owned_by_pks m → m !! "vc" ≠ ctx !! "vc") after.
Proof.
  intros Hcache Hsys Hexcl Horg Hvdcs Hnames Hmetas.
  destruct (collect_pks_ctx_dict_fold _ _ _ [] Hmetas) as [Ho _].
  exists (pydict_values (fold_pks_ctx_dict metas [])).
  assert (Hvc : Forall (λ meta, owned_by_pks meta → is_Some (meta !! "vc")) metas).
  { clear -Hmetas. induction Hmetas as [|? ? ? ? (_ & _ & ?)]; by constructor. }
  destruct (fold_pks_ctx_dict_invariant metas Hvc [] []) as (Hnd & Hval & _).
  { constructor. }
  { intros k v Hin. by apply elem_of_nil in Hin. }
  { intros m Hin. by apply elem_of_nil in Hin. }
  simpl in Hval.
  split; [|split].
  - unfold _create_pks_context_for_all_accounts_in_org, vcd_client_is_sysadmin,
      pks_cache_do_orgs_have_exclusive_pks_account, vcd_client_get_org, org_list_vdcs.
    rewrite Hcache, Hsys. msimpl. rewrite Hexcl. msimpl. rewrite Horg. msimpl.
    rewrite Hvdcs. msimpl. rewrite (for_each_names _ _ Hnames). msimpl. rewrite Ho.
    by msimpl.
  - transitivity (map fst (fold_pks_ctx_dict metas [])).
    + unfold pydict_values. rewrite map_map. apply map_ext_in.
      intros [k v] Hin%list_elem_of_In. destruct (Hval _ _ Hin) as (Hk & _).
      simpl. unfold dict_get. by rewrite Hk.
    + by rewrite fold_pks_ctx_dict_keys.
  - intros ctx Hin. unfold pydict_values in Hin.
    apply list_elem_of_fmap in Hin as ([k v] & -> & Hin).
    destruct (Hval _ _ Hin) as (Hk & _).
    destruct (fold_pks_ctx_dict_last_wins metas Hvc [] []) with (k := k) (v := v)
      as (before & after & Heq & Hafter); [constructor| |done|].
    { intros ? ? Hel. by apply elem_of_nil in Hel. }
    exists before, after. split; [exact Heq|]. simpl. by rewrite Hk.
Qed.

End LastWins.

(** ** Errors inside a search *)

Section SearchErrors.
Context `{Env} (self : BrokerManager).

Local Abbreviation VCD := (VcdBroker (req_headers self) (req_spec self)).
Local Abbreviation PKS := (PKSBroker (req_headers self) (req_spec self)).

(** X13: the enumeration of the accounts is not guarded: when the vCD
    probe raises and the enumeration then raises [e], the search raises
    [e] with no PKS broker probed; [_get_cluster_info] without a vdc
    then raises [e], not a not-found error, and [_create_cluster]
    raises [e] without creating. *)
Theorem search_stops_when_enumeration_fails
    (cluster_spec : dict) (cluster_name : value) (e : exn) :
  cluster_spec !! "cluster_name" = Some cluster_name →
  raises (on_get_cluster_info VCD cluster_name) →
  outcome (_create_pks_context_for_all_accounts_in_org self) = inl e →
  outcome (_find_cluster_in_org self cluster_name) = inl e ∧
  probes (trace (_find_cluster_in_org self cluster_name)) = [VCD] ∧
  (truthy (is_ovdc_present_in_request self) = false →
   outcome (_get_cluster_info self cluster_spec) = inl e) ∧
  outcome (_create_cluster self cluster_spec) = inl e ∧
  create_calls (trace (_create_cluster self cluster_spec)) = [].
Proof.
  intros Hname Hvcd Henum.
  destruct (on_get_cluster_info VCD cluster_name) as [err|] eqn:E; [|done].
  destruct (find_cluster_in_org_vcd_miss self cluster_name err E) as [Ht Ho].
  rewrite Henum in Ht, Ho.
  assert (Hcalls : broker_calls (trace (_find_cluster_in_org self cluster_name))
                   = [(VCD, GetClusterInfo cluster_name)]).
  { rewrite Ht, app_nil_r. cbn [app]. rewrite !broker_calls_cons. cbn beta iota.
    by rewrite broker_calls_enumeration. }
  split; [exact Ho|]. split; [by rewrite probes_of_broker_calls, Hcalls|].
  split; [|split].
  - intros Hflag.
    destruct (get_cluster_info_search self cluster_spec cluster_name Hname Hflag)
      as [_ ->]. by rewrite Ho.
  - unfold _create_cluster. msimpl. rewrite Hname. msimpl. by rewrite Ho.
  - unfold _create_cluster. msimpl. rewrite Hname. msimpl. rewrite Ho, app_nil_r.
    by rewrite create_calls_of_broker_calls, Hcalls.
Qed.

(** X14: the line logged for a failed PKS probe subscripts the host
    of the context: when a PKS broker raises and its context has no
    ['host'], the search raises [KeyError] from the handler and the
    later accounts are not probed. *)
Theorem search_needs_host_to_log
    (cluster_name : value) (pre post : list dict) (pks_ctx : dict) :
  raises (on_get_cluster_info VCD cluster_name) →
  outcome (_create_pks_context_for_all_accounts_in_org self)
    = inr (pre ++ pks_ctx :: post) →
  Forall has_host pre →
  Forall (λ ctx, raises (on_get_cluster_info (PKS ctx) cluster_name)) pre →
  raises (on_get_cluster_info (PKS pks_ctx) cluster_name) →
  pks_ctx !! "host" = None →
  outcome (_find_cluster_in_org self cluster_name) = inl (KeyError "host") ∧
  probes (trace (_find_cluster_in_org self cluster_name))
    = VCD :: map PKS (pre ++ [pks_ctx]).
Proof.
  intros Hvcd Henum Hhost Hpre Hctx Hnone.
  destruct (on_get_cluster_info VCD cluster_name) as [err|] eqn:E; [|done].
  destruct (find_cluster_in_org_vcd_miss self cluster_name err E) as [Ht Ho].
  rewrite Henum in Ht, Ho.
  assert (Hloop :
    outcome (find_cluster_in_pks self cluster_name (pre ++ pks_ctx :: post))
      = inl (KeyError "host") ∧
    broker_calls (trace (find_cluster_in_pks self cluster_name (pre ++ pks_ctx :: post)))
      = map (λ b, (b, GetClusterInfo cluster_name)) (map PKS (pre ++ [pks_ctx]))).
  { clear Ht Ho Henum. induction pre as [|ctx l IH].
    - destruct (on_get_cluster_info (PKS pks_ctx) cluster_name) as [err'|] eqn:E';
        [|done].
      simpl app. cbn [find_cluster_in_pks]. unfold broker_get_cluster_info.
      split; msimpl; rewrite E'; msimpl; rewrite Hnone; by msimpl.
    - apply Forall_cons in Hhost as [[host Hh] Hhost].
      apply Forall_cons in Hpre as [Hr Hpre].
      destruct (on_get_cluster_info (PKS ctx) cluster_name) as [err'|] eqn:E'; [|done].
      destruct (find_cluster_in_pks_miss self cluster_name ctx (l ++ pks_ctx :: post)
                  err' host E' Hh) as [Ht Ho].
      destruct (IH Hhost Hpre) as [IHo IHc].
      rewrite <- app_comm_cons, Ht, Ho. split; [done|].
      rewrite broker_calls_app, IHc. reflexivity. }
  destruct Hloop as [Hlo Hlc]. split; [by rewrite Ho|].
  rewrite probes_of_broker_calls, Ht, !broker_calls_app, broker_calls_enumeration, Hlc.
  rewrite !broker_calls_cons, broker_calls_nil. cbn beta iota. cbn [app].
  apply (broker_calls_probes (VCD :: map PKS (pre ++ [pks_ctx]))).
Qed.

(** X15: without a vdc in the request, when the search finds a record
    that is true on a broker, resize and delete call their operation
    on that broker, and the configuration is asked of that broker
    under the name in the record, not the name of the request; a
    record without ['name'] gives [KeyError] and no call. *)
Theorem search_operations_go_to_the_owner
    (cluster_spec : dict) (cluster_name : value) (cluster : dict) (b : broker) :
  cluster_spec !! "cluster_name" = Some cluster_name →
  truthy (is_ovdc_present_in_request self) = false →
  outcome (_find_cluster_in_org self cluster_name) = inr (Some (cluster, b)) →
  cluster ≠ ∅ →
  let search := trace (_find_cluster_in_org self cluster_name) in
  _resize_cluster self cluster_spec
    = (search ++ [EBroker b (ResizeCluster cluster cluster_spec)],
       on_resize_cluster b cluster cluster_spec) ∧
  _delete_cluster self cluster_spec
    = (search ++ [EBroker b (DeleteCluster cluster_name)],
       on_delete_cluster b cluster_name) ∧
  _get_cluster_config self cluster_spec
    = match cluster !! "name" with
      | Some name => (search ++ [EBroker b (GetClusterConfig name)],
                      on_get_cluster_config b name)
      | None => (search, inl (KeyError "name"))
      end.
Proof.
  intros Hname Hflag Hfound Hne search.
  assert (Htrue : dict_truthy cluster = true).
  { unfold dict_truthy. by rewrite bool_decide_eq_false_2. }
  destruct (get_cluster_info_search self cluster_spec cluster_name Hname Hflag)
    as [Hit Hio].
  rewrite Hfound, Htrue in Hio.
  destruct (get_cluster_config_search self cluster_spec cluster_name Hname Hflag)
    as [Hct Hco].
  rewrite Hfound, Htrue in Hct, Hco.
  split; [|split].
  - unfold _resize_cluster, broker_resize_cluster.
    apply M_eq; msimpl; rewrite Hio; msimpl; by rewrite ?Hit.
  - unfold _delete_cluster, broker_delete_cluster.
    apply M_eq; msimpl; rewrite Hname; msimpl; rewrite Hio; msimpl; by rewrite ?Hit.
  - destruct (cluster !! "name"); apply M_eq; msimpl; rewrite ?Hct, ?Hco, ?app_nil_r; done.
Qed.

(** X16: when the resolution of the cluster fails with [e] (the
    cluster is not found, the vdc is not enabled, a broker or the
    directory fails), resize and delete fail with [e] and make no
    call after the resolution: nothing is resized or deleted. *)
Theorem failed_resolution_changes_nothing
    (cluster_spec : dict) (cluster_name : value) (e : exn) :
  cluster_spec !! "cluster_name" = Some cluster_name →
  outcome (_get_cluster_info self cluster_spec) = inl e →
  _resize_cluster self cluster_spec = (trace (_get_cluster_info self cluster_spec), inl e) ∧
  _delete_cluster self cluster_spec = (trace (_get_cluster_info self cluster_spec), inl e) ∧
  Forall (λ bc : broker * broker_call, is_mutating bc.2 = false)
    (broker_calls (trace (_get_cluster_info self cluster_spec))).
Proof.
  intros Hname Hfail. split; [|split].
  - unfold _resize_cluster. apply M_eq; msimpl; rewrite Hfail; msimpl;
      by rewrite ?app_nil_r.
  - unfold _delete_cluster. apply M_eq; msimpl; rewrite Hname; msimpl; rewrite Hfail;
      msimpl; by rewrite ?app_nil_r.
  - apply read_only_broker_calls.
    eapply Forall_impl; [apply get_cluster_info_events | apply search_is_read_only].
Qed.

End SearchErrors.

(** ** Failures while listing *)

Lemma for_each_fails {A B} (f : A → M B) (pre post : list A) (x : A) (ys : list B) e :
  outcome (for_each f pre) = inr ys →
  outcome (f x) = inl e →
  outcome (for_each f (pre ++ x :: post)) = inl e ∧
  trace (for_each f (pre ++ x :: post)) = trace (for_each f pre) ++ trace (f x).
Proof.
  revert ys. induction pre as [|a pre IH]; intros ys Hpre Hx.
  - simpl app. cbn [for_each]. split; msimpl; rewrite Hx; by rewrite ?app_nil_r.
  - cbn [for_each app] in *. msimpl_in Hpre.
    destruct (outcome (f a)) as [|y] eqn:Ea; [done|]. msimpl_in Hpre.
    destruct (outcome (for_each f pre)) as [|ys'] eqn:Ep; [done|].
    destruct (IH ys' eq_refl Hx) as [IHo IHt].
    split; msimpl; rewrite Ea; msimpl; rewrite ?IHo, ?IHt, ?Ep; msimpl;
      by rewrite ?app_nil_r, ?app_assoc.
Qed.

Section ListingFailures.
Context `{Env} (self : BrokerManager).

Local Abbreviation VCD := (VcdBroker (req_headers self) (req_spec self)).
Local Abbreviation PKS := (PKSBroker (req_headers self) (req_spec self)).

(** The body of the loop of [_list_clusters] over the PKS accounts. *)
Local Abbreviation list_account :=
  (λ pks_ctx : dict,
     broker_list_clusters (PKS pks_ctx) ≫= λ clusters,
     for_each
       (λ cluster,
          _get_truncated_cluster_info self cluster (PKS pks_ctx) common_cluster_properties
          ≫= λ pks_cluster,
          mret (<[CONTAINER_PROVIDER_KEY := VStr CtrProvType_PKS]> pks_cluster))
       clusters).

Lemma list_account_clusters (clusters : list dict) (b : broker) :
  Forall well_formed_pks_cluster clusters →
  ∃ records,
    for_each
      (λ cluster,
         _get_truncated_cluster_info self cluster b common_cluster_properties
         ≫= λ pks_cluster,
         mret (<[CONTAINER_PROVIDER_KEY := VStr CtrProvType_PKS]> pks_cluster))
      clusters
    = ([], inr records).
Proof.
  induction 1 as [|cluster clusters (la & st & cp & Hf) _ (records & IH)].
  - by exists [].
  - eexists (_ :: records). cbn [for_each].
    rewrite (truncated_cluster_info_eq self cluster b _ la st cp);
      [|unfold common_cluster_properties; set_solver | done].
    rewrite IH. reflexivity.
Qed.

Lemma list_accounts_ok (pks_ctx_list : list dict) (per_account : list (list dict)) :
  Forall2 (λ ctx clusters, on_list_clusters (PKS ctx) = inr clusters)
    pks_ctx_list per_account →
  Forall (Forall well_formed_pks_cluster) per_account →
  ∃ records,
    for_each list_account pks_ctx_list
    = (map (λ ctx, EBroker (PKS ctx) ListClusters) pks_ctx_list, inr records).
Proof.
  intros Hlists. induction Hlists as [|ctx clusters ctxs per Hlist _ IH]; intros Hwf.
  - by exists [].
  - apply Forall_cons in Hwf as [Hwf1 Hwf].
    destruct (IH Hwf) as (records & Heq).
    destruct (list_account_clusters clusters (PKS ctx) Hwf1) as (recs & Heq1).
    exists (recs :: records). cbn [for_each]. unfold broker_list_clusters in *.
    apply M_eq; msimpl; rewrite Hlist; msimpl; rewrite Heq1; msimpl; rewrite Heq; msimpl;
      rewrite ?app_nil_r; reflexivity.
Qed.

(** X17: the aggregated listing is not guarded: when [list_clusters]
    of the vCD broker raises, the listing fails with that error and no
    account is enumerated; when the PKS broker of an account raises,
    the listing fails with that error, the records gathered so far are
    dropped and the later accounts are not asked. *)
Theorem list_clusters_fails_with_a_broker
    (vcd_clusters : list dict) (pre post : list dict) (pks_ctx : dict)
    (per_account : list (list dict)) (e : exn) :
  truthy (is_ovdc_present_in_request self) = false →
  (on_list_clusters VCD = inl e →
   _list_clusters self = ([EBroker VCD ListClusters], inl e)) ∧
  (on_list_clusters VCD = inr vcd_clusters →
   outcome (_create_pks_context_for_all_accounts_in_org self)
     = inr (pre ++ pks_ctx :: post) →
   Forall2 (λ ctx clusters, on_list_clusters (PKS ctx) = inr clusters) pre per_account →
   Forall (Forall well_formed_pks_cluster) per_account →
   on_list_clusters (PKS pks_ctx) = inl e →
   outcome (_list_clusters self) = inl e ∧
   broker_calls (trace (_list_clusters self))
   = (VCD, ListClusters) :: map (λ ctx, (PKS ctx, ListClusters)) (pre ++ [pks_ctx])).
Proof.
  intros Hflag. split.
  - intros Hvcd. unfold _list_clusters, broker_list_clusters. rewrite Hflag.
    apply M_eq; msimpl; by rewrite Hvcd.
  - intros Hvcd Henum Hlists Hwf Hfail.
    destruct (list_accounts_ok pre per_account Hlists Hwf) as (records & Hpre).
    assert (Hx : outcome (list_account pks_ctx) = inl e).
    { unfold broker_list_clusters. msimpl. by rewrite Hfail. }
    assert (Hxt : trace (list_account pks_ctx) = [EBroker (PKS pks_ctx) ListClusters]).
    { unfold broker_list_clusters. msimpl. by rewrite Hfail. }
    destruct (for_each_fails list_account pre post pks_ctx records e
                (f_equal outcome Hpre) Hx) as [Ho Ht].
    rewrite Hxt, Hpre in Ht. msimpl_in Ht.
    assert (Hv : broker_list_clusters VCD = ([EBroker VCD ListClusters], inr vcd_clusters)).
    { unfold broker_list_clusters. apply M_eq; msimpl; by rewrite ?Hvcd. }
    unfold _list_clusters. rewrite Hflag.
    split; msimpl; rewrite Hv; msimpl; rewrite Henum; msimpl; rewrite ?Ho, ?Ht.
    + reflexivity.
    + rewrite app_nil_r, broker_calls_cons, !broker_calls_app, broker_calls_enumeration.
      cbn beta iota. cbn [app]. f_equal. rewrite fmap_app.
      rewrite broker_calls_cons, broker_calls_nil. cbn beta iota. f_equal.
      clear. induction pre as [|ctx l IH]; [reflexivity|].
      cbn [map]. rewrite broker_calls_cons, fmap_cons. by f_equal.
Qed.

End ListingFailures.

(** ** More on the record of a PKS cluster *)

Lemma split_dashes_no_dashes s : has_dashes s = false → split_dashes s = [s].
Proof.
  induction s as [|c s IH]; [done|].
  rewrite has_dashes_cons, split_dashes_cons. destruct s as [|c' rest]; [done|].
  intros [Hcc Hs]%orb_false_elim. rewrite Hcc. by rewrite (IH Hs).
Qed.

Lemma ends_with_dash_cons c s :
  ends_with_dash (String c s) =
  match s with
  | EmptyString => Ascii.eqb c "-"
  | String _ _ => ends_with_dash s
  end.
Proof. reflexivity. Qed.

Lemma split_dashes_append_bounded n a b :
  (String.length a ≤ n)%nat →
  ends_with_dash a = false →
  split_dashes (a +:+ "--" +:+ b) = split_dashes a ++ split_dashes b.
Proof.
  revert a. induction n as [|n IH]; intros a Hlen Hend.
  - destruct a; [reflexivity | simpl in Hlen; lia].
  - destruct a as [|c a]; [reflexivity|].
    change (String c a +:+ "--" +:+ b) with (String c (a +:+ "--" +:+ b)).
    rewrite ends_with_dash_cons in Hend.
    destruct a as [|c' a'].
    + change ("" +:+ "--" +:+ b) with (String "-" (String "-" b)).
      rewrite split_dashes_cons, Hend. cbn [andb].
      rewrite (split_dashes_cons "-" (String "-" b)). reflexivity.
    + change (String c' a' +:+ "--" +:+ b) with (String c' (a' +:+ "--" +:+ b)).
      rewrite (split_dashes_cons c (String c' a')), (split_dashes_cons c).
      destruct (Ascii.eqb c "-" && Ascii.eqb c' "-")%bool eqn:Edd.
      * apply andb_prop in Edd as [_ Ec']. rewrite ends_with_dash_cons in Hend.
        destruct a' as [|c'' a'']; [congruence|].
        rewrite IH; [reflexivity | simpl in Hlen |- *; lia | done].
      * change (String c' (a' +:+ "--" +:+ b)) with (String c' a' +:+ "--" +:+ b).
        rewrite IH; [|simpl in Hlen |- *; lia | done].
        pose proof (split_dashes_nonempty (String c' a')) as Hne.
        destruct (split_dashes (String c' a')); [done | reflexivity].
Qed.

Lemma split_dashes_append a b :
  ends_with_dash a = false →
  split_dashes (a +:+ "--" +:+ b) = split_dashes a ++ split_dashes b.
Proof. by apply (split_dashes_append_bounded (String.length a)). Qed.

Lemma last_segment_app l x : last_segment (l ++ [x]) = x.
Proof. unfold last_segment. apply last_last. Qed.

Lemma dom_dict_comprehension (keys : list string) (f : string → value) :
  dom (dict_comprehension keys f) = list_to_set keys.
Proof.
  apply set_eq. intros k.
  rewrite elem_of_dom, dict_comprehension_lookup, elem_of_list_to_set.
  destruct (decide (k ∈ keys)); split; intros; try done; try by eexists.
Qed.

Section TruncatedRecord.
Context `{Env} (self : BrokerManager).

(** X18: the default [''] of [pks_cluster.get('status', '')] is used
    only when ["status"] is not one of the requested keys, and then
    the status of the cluster is ignored: the record's status is the
    lower-cased last action and a space.  When ["status"] is requested
    and the cluster has no string under it, the comprehension has put
    [None] (or the other value) there, and [lower] fails. *)
Theorem truncated_cluster_info_status_default
    (cluster : dict) (pks_broker : broker) (cluster_property_keys : list string)
    (last_action profile : string) :
  dict_get_default cluster "last-action" (VStr "") = VStr last_action →
  dict_get_default cluster "compute-profile-name" (VStr "") = VStr profile →
  ("status" ∉ cluster_property_keys →
   ∃ pks_cluster,
     _get_truncated_cluster_info self cluster pks_broker cluster_property_keys
       = ([], inr pks_cluster) ∧
     pks_cluster !! "status" = Some (VStr (lower last_action +:+ " "))) ∧
  ("status" ∈ cluster_property_keys →
   (∀ status_str, cluster !! "status" ≠ Some (VStr status_str)) →
   _get_truncated_cluster_info self cluster pks_broker cluster_property_keys
     = ([], inl (AttributeError "lower"))).
Proof.
  intros Hla Hcp.
  assert (Hvdc : (if truthy (VStr profile)
                  then segments ← str_split_dashes (VStr profile);
                       mret (last_segment segments)
                  else mret "")
                 = (([], inr (last_segment (split_dashes profile))) : M string)).
  { simpl. destruct profile; reflexivity. }
  split.
  - intros Hkey. eexists. split.
    + unfold _get_truncated_cluster_info. rewrite Hcp, Hvdc, Hla.
      assert (Hread : dict_get_default
                (<["vdc" := VStr (last_segment (split_dashes profile))]>
                   (dict_comprehension cluster_property_keys (dict_get cluster)))
                "status" (VStr "") = VStr "").
      { unfold dict_get_default. rewrite lookup_insert_ne by done.
        by rewrite dict_comprehension_lookup, decide_False by done. }
      apply M_eq; msimpl; rewrite Hread; reflexivity.
    + by rewrite lookup_insert_eq.
  - intros Hkey Hst.
    unfold _get_truncated_cluster_info. rewrite Hcp, Hvdc, Hla.
    assert (Hread : ∀ s, dict_get_default
              (<["vdc" := VStr (last_segment (split_dashes profile))]>
                 (dict_comprehension cluster_property_keys (dict_get cluster)))
              "status" (VStr "") ≠ VStr s).
    { intros s. unfold dict_get_default. rewrite lookup_insert_ne by done.
      rewrite dict_comprehension_lookup, decide_True by done.
      unfold dict_get. destruct (cluster !! "status") as [v|] eqn:E; [|done].
      simpl. intros ->. by apply (Hst s). }
    destruct (dict_get_default _ "status" (VStr "")) as [|s|z] eqn:E.
    + apply M_eq; msimpl; rewrite E; reflexivity.
    + by destruct (Hread s).
    + apply M_eq; msimpl; rewrite E; reflexivity.
Qed.

Lemma truncated_cluster_info_eq_default
    (cluster : dict) (pks_broker : broker) (cluster_property_keys : list string)
    (last_action profile : string) :
  "status" ∉ cluster_property_keys →
  dict_get_default cluster "last-action" (VStr "") = VStr last_action →
  dict_get_default cluster "compute-profile-name" (VStr "") = VStr profile →
  _get_truncated_cluster_info self cluster pks_broker cluster_property_keys
  = ([], inr (<["status" := VStr (lower last_action +:+ " " +:+ lower "")]>
               (<["vdc" := VStr (last_segment (split_dashes profile))]>
                  (dict_comprehension cluster_property_keys (dict_get cluster))))).
Proof.
  intros Hkey Hla Hcp.
  assert (Hvdc : (if truthy (VStr profile)
                  then segments ← str_split_dashes (VStr profile);
                       mret (last_segment segments)
                  else mret "")
                 = (([], inr (last_segment (split_dashes profile))) : M string)).
  { simpl. destruct profile; reflexivity. }
  unfold _get_truncated_cluster_info. rewrite Hcp, Hvdc, Hla.
  assert (Hread : dict_get_default
            (<["vdc" := VStr (last_segment (split_dashes profile))]>
               (dict_comprehension cluster_property_keys (dict_get cluster)))
            "status" (VStr "") = VStr "").
  { unfold dict_get_default. rewrite lookup_insert_ne by done.
    by rewrite dict_comprehension_lookup, decide_False by done. }
  apply M_eq; msimpl; rewrite Hread; reflexivity.
Qed.

(** X19: whether or not ["status"] is requested, the record of a PKS
    cluster has the requested keys, ["vdc"] and ["status"], and no
    other; a requested key other than ["vdc"] and ["status"] carries
    the value of the cluster, [None] when the cluster lacks it; a
    ["vdc"] of the cluster itself is never passed on: a compute profile
    name without ['--'] is the vdc as a whole, and without a compute
    profile name the vdc is the empty string. *)
Theorem truncated_cluster_info_keys
    (cluster : dict) (pks_broker : broker) (cluster_property_keys : list string)
    (last_action profile : string) :
  dict_get_default cluster "last-action" (VStr "") = VStr last_action →
  dict_get_default cluster "compute-profile-name" (VStr "") = VStr profile →
  ("status" ∈ cluster_property_keys →
   ∃ status_str, cluster !! "status" = Some (VStr status_str)) →
  ∃ pks_cluster,
    _get_truncated_cluster_info self cluster pks_broker cluster_property_keys
      = ([], inr pks_cluster) ∧
    dom pks_cluster = list_to_set cluster_property_keys ∪ {["vdc"; "status"]} ∧
    (∀ k, k ∈ cluster_property_keys → k ≠ "vdc" → k ≠ "status" →
          pks_cluster !! k = Some (dict_get cluster k)) ∧
    (has_dashes profile = false → pks_cluster !! "vdc" = Some (VStr profile)) ∧
    (cluster !! "compute-profile-name" = None → pks_cluster !! "vdc" = Some (VStr "")).
Proof.
  intros Hla Hcp Hst.
  assert (Hrecord : ∃ status_str,
            _get_truncated_cluster_info self cluster pks_broker cluster_property_keys
            = ([], inr (<["status" := VStr (lower last_action +:+ " " +:+ lower status_str)]>
                         (<["vdc" := VStr (last_segment (split_dashes profile))]>
                            (dict_comprehension cluster_property_keys
                               (dict_get cluster)))))).
  { destruct (decide ("status" ∈ cluster_property_keys)) as [Hin|Hout].
    - destruct (Hst Hin) as [status_str Hs]. exists status_str.
      by apply truncated_cluster_info_eq.
    - exists "". by apply truncated_cluster_info_eq_default. }
  destruct Hrecord as (status_str & Heq).
  eexists. split; [exact Heq|].
  split; [|split; [|split]].
  - apply set_eq. intros k.
    rewrite !dom_insert, dom_dict_comprehension.
    rewrite !elem_of_union, !elem_of_singleton, elem_of_list_to_set. tauto.
  - intros k Hk Hvdc Hstatus.
    rewrite !lookup_insert_ne by done.
    by rewrite dict_comprehension_lookup, decide_True.
  - intros Hd. rewrite lookup_insert_ne, lookup_insert_eq by done.
    by rewrite split_dashes_no_dashes.
  - intros Hnone. unfold dict_get_default in Hcp. rewrite Hnone in Hcp.
    injection Hcp as <-. by rewrite lookup_insert_ne, lookup_insert_eq.
Qed.

(** X20: from a compute profile name [prefix--vdc], as in the example
    [cp--f3272127-9b7f-4f90-8849-0ee70a28be56--vdc-PKS1] of the
    source, the record gets the vdc back when the vdc has no ['--'] in
    it and the prefix does not end with a dash; single dashes in the
    vdc and separators in the prefix do no harm. *)
Theorem truncated_cluster_info_recovers_vdc
    (cluster : dict) (pks_broker : broker) (cluster_property_keys : list string)
    (last_action status_str pre vdc : string) :
  "status" ∈ cluster_property_keys →
  pks_cluster_fields cluster last_action status_str (pre +:+ "--" +:+ vdc) →
  ends_with_dash pre = false →
  has_dashes vdc = false →
  ∃ pks_cluster,
    outcome (_get_truncated_cluster_info self cluster pks_broker cluster_property_keys)
      = inr pks_cluster ∧
    pks_cluster !! "vdc" = Some (VStr vdc).
Proof.
  intros Hkey Hfields Hpre Hvdc. eexists. split.
  { by rewrite (truncated_cluster_info_eq self cluster pks_broker cluster_property_keys
                  last_action status_str (pre +:+ "--" +:+ vdc)). }
  rewrite lookup_insert_ne, lookup_insert_eq by done.
  by rewrite split_dashes_append, (split_dashes_no_dashes vdc), last_segment_app.
Qed.

End TruncatedRecord.

(** ** The list of the vdcs *)

Lemma for_each_outcome {A B} (f : A → M B) (l : list A) (ys : list B) :
  Forall2 (λ x y, outcome (f x) = inr y) l ys →
  outcome (for_each f l) = inr ys.
Proof.
  induction 1 as [|x y l ys Hx _ IH]; [reflexivity|].
  cbn [for_each]. msimpl. rewrite Hx. msimpl. rewrite IH. reflexivity.
Qed.

Section ListOvdcs.
Context `{Env} (self : BrokerManager).

(** X21: [_list_ovdcs] returns one entry per vdc, organisation by
    organisation in the order of the directory, with the names of the
    organisation and of the vdc and the provider of the ownership
    metadata; it only talks to the vCD client and looks metadata up
    without asking for credentials. *)
Theorem list_ovdcs_entries (orgs : list OrgResource) (entries : list (list dict)) :
  listed_orgs orgs →
  Forall2 org_listing orgs entries →
  outcome (_list_ovdcs self) = inr (concat entries) ∧
  emits_only listing_event (_list_ovdcs self).
Proof.
  intros Horgs Hentries. split.
  - assert (Hloop : outcome
      (for_each
         (λ org_resource,
            org_list_vdcs org_resource ≫= λ vdc_list,
            for_each
              (λ vdc,
                 dict_getitem vdc "name" ≫= λ vdc_name,
                 org_get_name org_resource ≫= λ org_name,
                 ovdc_cache_get_ovdc_container_provider_metadata
                   {| q_ovdc_name := vdc_name; q_ovdc_id := VNone; q_org_name := org_name;
                      q_credentials_required := false; q_nsxt_info_required := false |}
                 ≫= λ ctr_prov_ctx,
                 org_get_name org_resource ≫= λ org_name',
                 dict_getitem vdc "name" ≫= λ vdc_name',
                 dict_getitem ctr_prov_ctx CONTAINER_PROVIDER_KEY ≫= λ provider,
                 mret (<[CONTAINER_PROVIDER_KEY := provider]>
                         (<["name" := vdc_name']> (<["org" := org_name']> ∅))))
              vdc_list)
         orgs) = inr entries).
    { apply for_each_outcome. eapply Forall2_impl; [exact Hentries|].
      intros org_resource es (vdcs & org_name & Hvdcs & Hname & Hvs).
      unfold org_list_vdcs. msimpl. rewrite Hvdcs. msimpl.
      apply for_each_outcome. eapply Forall2_impl; [exact Hvs|].
      intros vdc entry (vdc_name & meta & provider & Hvn & Hmeta & Hprov & ->).
      unfold dict_getitem, org_get_name, ovdc_cache_get_ovdc_container_provider_metadata,
        listing_query in *.
      rewrite Hvn. msimpl. rewrite Hname. msimpl. rewrite Hmeta. msimpl.
      rewrite Hprov. msimpl. reflexivity. }
    unfold _list_ovdcs, vcd_client_is_sysadmin, vcd_client_get_org_list, vcd_client_get_org,
      org_children.
    destruct Horgs as [[Hsys Hlist] | (Hsys & org_resource & Horg & Hchildren)].
    + msimpl. rewrite Hsys. msimpl. rewrite Hlist. msimpl. rewrite Hloop. reflexivity.
    + msimpl. rewrite Hsys. msimpl. rewrite Horg. msimpl. rewrite Hchildren. msimpl.
      rewrite Hloop. reflexivity.
  - unfold _list_ovdcs, vcd_client_is_sysadmin, vcd_client_get_org_list, vcd_client_get_org,
      org_children, org_list_vdcs, org_get_name,
      ovdc_cache_get_ovdc_container_provider_metadata.
    emits. by split.
Qed.

End ListOvdcs.

(** ** Enabling a vdc for PKS *)

Section EnablePks.
Context `{Env} (self : BrokerManager).

(** X22: enabling a vdc for PKS, when every collaborator answers:
    the PKS context is constructed from the account, the provider vdc
    and the NSX-T record of the vCenter of the provider vdc, the plans
    of the request and the profile name computed from the name of the
    vdc resource; the compute profile is then created under the name
    computed from the [ovdc_name] of the request, on the PKS broker of
    that context, with the availability zone, the description and the
    resource pool formatted from the request and the placement (cpi,
    datacenter, cluster) read from the context; and the context is
    written as the ownership metadata of the vdc.  The two names are
    asked for separately. *)
Theorem enable_ovdc_with_pks
    (pks_plans pvdc_id stored_name created_name : value) (ovdc : Ovdc)
    (pks_cache : PksCache) (pvdc_info : PvdcInfo) (pks_account_info : PksAccountInfo)
    (nsxt_info pks_ctx : dict) :
  let ovdc_id := dict_get (req_spec self) "ovdc_id" in
  let org_name := dict_get (req_spec self) "org_name" in
  let ovdc_name := dict_get (req_spec self) "ovdc_name" in
  let args := ovdc_context_args pks_account_info pvdc_info nsxt_info stored_name pks_plans in
  let pksbroker := PKSBroker (req_headers self) (req_spec self) pks_ctx in
  let params := compute_profile_params_of self pks_ctx created_name in
  req_spec self !! "pks_plans" = Some pks_plans →
  req_spec self !! CONTAINER_PROVIDER_KEY = Some (VStr CtrProvType_PKS) →
  on_get_ovdc ovdc_id = inr ovdc →
  on_get_pvdc_id ovdc = inr pvdc_id →
  get_pks_cache = Some pks_cache →
  on_get_pvdc_info pks_cache pvdc_id = inr pvdc_info →
  on_get_pks_account_info pks_cache org_name (vc pvdc_info) = inr pks_account_info →
  on_get_nsxt_info pks_cache (vc pvdc_info) = inr nsxt_info →
  on_get_compute_profile_name ovdc_id (dict_get (resource ovdc) "name") = inr stored_name →
  on_construct_pks_context args = inr pks_ctx →
  on_get_compute_profile_name ovdc_id ovdc_name = inr created_name →
  on_create_compute_profile pksbroker params = inr () →
  trace (invoke self ENABLE_OVDC)
  = [EOvdcCache (GetOvdc ovdc_id);
     EOvdcCache (GetPvdcId ovdc);
     EPksCache (GetPvdcInfo pvdc_id);
     EPksCache (GetPksAccountInfo org_name (vc pvdc_info));
     EPksCache (GetNsxtInfo (vc pvdc_info));
     EOvdcCache (GetComputeProfileName ovdc_id (dict_get (resource ovdc) "name"));
     EOvdcCache (ConstructPksContext args);
     EOvdcCache (GetComputeProfileName ovdc_id ovdc_name);
     ELog (LogCreatingComputeProfile created_name);
     EBroker pksbroker (CreateComputeProfile params);
     EOvdcCache (SetOvdcContainerProviderMetadata ovdc (Some pks_ctx)
                   (VStr CtrProvType_PKS))] ∧
  outcome (invoke self ENABLE_OVDC)
  = match on_set_ovdc_container_provider_metadata ovdc (Some pks_ctx)
            (VStr CtrProvType_PKS) with
    | inl e => inl e
    | inr task =>
        inr {| body := RDict {["task_href" := dict_get task "href"]};
               status_code := ACCEPTED |}
    end ∧
  params !! "cp_name" = Some created_name ∧
  params !! "az_name" = Some (VStr ("az-" +:+ str_of_value ovdc_name)) ∧
  params !! "description"
    = Some (VStr (str_of_value org_name +:+ "--" +:+ str_of_value ovdc_name +:+ "--"
                  +:+ str_of_value ovdc_id)) ∧
  params !! "cpi" = Some (dict_get pks_ctx "cpi") ∧
  params !! "datacenter_name" = Some (dict_get pks_ctx "datacenter") ∧
  params !! "cluster_name" = Some (dict_get pks_ctx "cluster") ∧
  params !! "ovdc_rp_name"
    = Some (VStr (str_of_value ovdc_name +:+ " (" +:+ str_of_value ovdc_id +:+ ")")) ∧
  dom params = {[ "cp_name"; "az_name"; "description"; "cpi"; "datacenter_name";
                  "cluster_name"; "ovdc_rp_name" ]}.
Proof.
  intros ovdc_id org_name ovdc_name args pksbroker params
    Hplans Hprov Hovdc Hpvdc Hcache Hinfo Hacct Hnsxt Hstored Hctx Hcreated Hcreate.
  assert (Hparams :
    params !! "cp_name" = Some created_name ∧
    params !! "az_name" = Some (VStr ("az-" +:+ str_of_value ovdc_name)) ∧
    params !! "description"
      = Some (VStr (str_of_value org_name +:+ "--" +:+ str_of_value ovdc_name +:+ "--"
                    +:+ str_of_value ovdc_id)) ∧
    params !! "cpi" = Some (dict_get pks_ctx "cpi") ∧
    params !! "datacenter_name" = Some (dict_get pks_ctx "datacenter") ∧
    params !! "cluster_name" = Some (dict_get pks_ctx "cluster") ∧
    params !! "ovdc_rp_name"
      = Some (VStr (str_of_value ovdc_name +:+ " (" +:+ str_of_value ovdc_id +:+ ")")) ∧
    dom params = {[ "cp_name"; "az_name"; "description"; "cpi"; "datacenter_name";
                    "cluster_name"; "ovdc_rp_name" ]}).
  { subst params. unfold compute_profile_params_of, PksComputeProfileParams_to_dict.
    fold ovdc_id org_name ovdc_name.
    repeat (split; [by simplify_map_eq|]).
    apply set_eq. intros k.
    rewrite !dom_insert, dom_empty, !elem_of_union, !elem_of_singleton, elem_of_empty.
    tauto. }
  cut (trace (invoke self ENABLE_OVDC)
       = [EOvdcCache (GetOvdc ovdc_id);
          EOvdcCache (GetPvdcId ovdc);
          EPksCache (GetPvdcInfo pvdc_id);
          EPksCache (GetPksAccountInfo org_name (vc pvdc_info));
          EPksCache (GetNsxtInfo (vc pvdc_info));
          EOvdcCache (GetComputeProfileName ovdc_id (dict_get (resource ovdc) "name"));
          EOvdcCache (ConstructPksContext args);
          EOvdcCache (GetComputeProfileName ovdc_id ovdc_name);
          ELog (LogCreatingComputeProfile created_name);
          EBroker pksbroker (CreateComputeProfile params);
          EOvdcCache (SetOvdcContainerProviderMetadata ovdc (Some pks_ctx)
                        (VStr CtrProvType_PKS))] ∧
       outcome (invoke self ENABLE_OVDC)
       = match on_set_ovdc_container_provider_metadata ovdc (Some pks_ctx)
                 (VStr CtrProvType_PKS) with
         | inl e => inl e
         | inr task =>
             inr {| body := RDict {["task_href" := dict_get task "href"]};
                    status_code := ACCEPTED |}
         end).
  { intros [Ht Ho]. split; [exact Ht|]. split; [exact Ho | exact Hparams]. }
  clear Hparams.
  subst ovdc_id org_name ovdc_name args pksbroker params. unfold ovdc_context_args in Hctx.
  unfold invoke, _get_ovdc_params, _create_pks_compute_profile,
    ovdc_cache_get_ovdc, ovdc_cache_get_pvdc_id, pks_cache_get_pvdc_info,
    pks_cache_get_pks_account_info, pks_cache_get_nsxt_info,
    ovdc_cache_get_compute_profile_name, OvdcCache_construct_pks_context,
    broker_create_compute_profile, ovdc_cache_set_ovdc_container_provider_metadata.
  change (req_spec (with_ovdc_flag self)) with (req_spec self).
  change (req_headers (with_ovdc_flag self)) with (req_headers self).
  change (compute_profile_params_of (with_ovdc_flag self))
    with (compute_profile_params_of self).
  rewrite Hcache.
  split; msimpl; rewrite Hplans; msimpl; rewrite Hovdc; msimpl; rewrite Hpvdc; msimpl;
    rewrite Hprov; msimpl; rewrite bool_decide_eq_true_2 by done; msimpl;
    rewrite Hinfo; msimpl; rewrite Hacct; msimpl; rewrite Hnsxt; msimpl;
    rewrite Hstored; msimpl; rewrite Hctx; msimpl;
    rewrite Hprov; msimpl; rewrite bool_decide_eq_true_2 by done; msimpl;
    rewrite Hcreated; msimpl; rewrite Hcreate; msimpl;
    rewrite Hprov; msimpl;
    by destruct (on_set_ovdc_container_provider_metadata ovdc (Some pks_ctx)
                   (VStr CtrProvType_PKS)).
Qed.

End EnablePks.

(** ** The further properties on the example systems *)

Section MoreWitnesses.
Import Examples MoreExamples.

Ltac by_compute := vm_compute; reflexivity.
Ltac by_decide := apply (bool_decide_unpack _); vm_compute; exact I.

(** The administrator lists the clusters. *)
Lemma read_operations_change_nothing_witness :
  let self := sysadmin_request ∅ in
  is_read_operation LIST_CLUSTERS = true ∧
  Forall (λ bc : broker * broker_call, is_mutating bc.2 = false)
    (broker_calls (trace (@invoke env_sysadmin self LIST_CLUSTERS))) ∧
  metadata_writes (trace (@invoke env_sysadmin self LIST_CLUSTERS)) = [].
Proof.
  intros self. split; [reflexivity|].
  exact (@read_operations_change_nothing env_sysadmin self LIST_CLUSTERS eq_refl).
Defined.

(** A user of Acme deletes [dup]. *)
Lemma cluster_operations_mutate_once_and_last_witness :
  let self := dup_request in
  DELETE_CLUSTER ∈ [CREATE_CLUSTER; RESIZE_CLUSTER; DELETE_CLUSTER] ∧
  ends_with_mutation_of DELETE_CLUSTER (trace (@invoke env_acme self DELETE_CLUSTER)).
Proof.
  intros self.
  assert (Hop : DELETE_CLUSTER ∈ [CREATE_CLUSTER; RESIZE_CLUSTER; DELETE_CLUSTER]).
  { apply elem_of_cons; right. apply elem_of_cons; right. apply elem_of_cons. by left. }
  split; [exact Hop|].
  exact (@cluster_operations_mutate_once_and_last env_acme self DELETE_CLUSTER Hop).
Defined.

(** Umbrella enables [vdc5] for vCD. *)
Lemma enable_ovdc_without_pks_witness :
  let env := env_umbrella 409 in
  let self := enable_for_vcd_request in
  let ovdc := {| resource := {["name" := VStr "vdc5"]} |} in
  req_spec self !! "pks_plans" = Some (VStr "") ∧
  req_spec self !! (@CONTAINER_PROVIDER_KEY env) = Some (VStr "vcd") ∧
  VStr "vcd" ≠ VStr (@CtrProvType_PKS env) ∧
  @on_get_ovdc env (dict_get (req_spec self) "ovdc_id") = inr ovdc ∧
  @on_get_pvdc_id env ovdc = inr (VStr "pvdc-1") ∧
  trace (@invoke env self ENABLE_OVDC)
  = [EOvdcCache (GetOvdc (VStr "id5"));
     EOvdcCache (GetPvdcId ovdc);
     EOvdcCache (SetOvdcContainerProviderMetadata ovdc None (VStr "vcd"))] ∧
  outcome (@invoke env self ENABLE_OVDC)
  = inr {| body := RDict {["task_href" := VStr "task/enable"]}; status_code := ACCEPTED |}.
Proof.
  intros env self ovdc.
  assert (Hplans : req_spec self !! "pks_plans" = Some (VStr "")) by by_compute.
  assert (Hprov : req_spec self !! (@CONTAINER_PROVIDER_KEY env) = Some (VStr "vcd"))
    by by_compute.
  assert (Hne : VStr "vcd" ≠ VStr (@CtrProvType_PKS env)) by by_decide.
  assert (Hovdc : @on_get_ovdc env (dict_get (req_spec self) "ovdc_id") = inr ovdc)
    by reflexivity.
  assert (Hpvdc : @on_get_pvdc_id env ovdc = inr (VStr "pvdc-1")) by reflexivity.
  repeat (split; [assumption|]).
  exact (@enable_ovdc_without_pks env self (VStr "") (VStr "vcd") (VStr "pvdc-1") ovdc
           Hplans Hprov Hne Hovdc Hpvdc).
Defined.

(** Umbrella enables a vdc without naming plans, and enables [vdc5]
    for PKS on a server without PKS configuration. *)
Lemma get_ovdc_params_errors_witness :
  let ovdc := {| resource := {["name" := VStr "vdc5"]} |} in
  req_spec enable_without_plans_request !! "pks_plans" = None ∧
  @invoke (env_umbrella 409) enable_without_plans_request ENABLE_OVDC
    = ([], inl (KeyError "pks_plans")) ∧
  req_spec enable_request !! "pks_plans" = Some (VStr "small") ∧
  req_spec enable_request !! (@CONTAINER_PROVIDER_KEY env_no_pks)
    = Some (VStr (@CtrProvType_PKS env_no_pks)) ∧
  @get_pks_cache env_no_pks = None ∧
  @invoke env_no_pks enable_request ENABLE_OVDC
    = ([EOvdcCache (GetOvdc (VStr "id5")); EOvdcCache (GetPvdcId ovdc)],
       inl (CseServerError "PKS config file does not exist")).
Proof.
  intros ovdc.
  assert (Hnone : req_spec enable_without_plans_request !! "pks_plans" = None)
    by by_compute.
  assert (Hplans : req_spec enable_request !! "pks_plans" = Some (VStr "small"))
    by by_compute.
  assert (Hprov : req_spec enable_request !! (@CONTAINER_PROVIDER_KEY env_no_pks)
                  = Some (VStr (@CtrProvType_PKS env_no_pks))) by by_compute.
  destruct (@get_ovdc_params_errors (env_umbrella 409) enable_without_plans_request)
    as [Hfirst _].
  destruct (@get_ovdc_params_errors env_no_pks enable_request) as [_ Hsecond].
  split; [exact Hnone|]. split; [exact (proj2 (Hfirst Hnone))|].
  split; [exact Hplans|]. split; [exact Hprov|]. split; [reflexivity|].
  exact (proj2 (Hsecond (VStr "small") ovdc (VStr "pvdc-1") Hplans Hprov eq_refl
                  eq_refl eq_refl)).
Defined.

(** A user asks for a cluster in a vdc that has no ownership metadata. *)
Lemma unset_vdc_is_an_error_witness :
  let self := new_in_vdc9_request in
  let e := CseServerError "Vdc 'vdc9' is not enabled for Kubernetes cluster deployment" in
  @explicit_unset_vdc env_unset self ∅ ∧
  outcome (@_find_cluster_in_org env_unset self (dict_get (req_spec self) "cluster_name"))
    = inr None ∧
  @invoke env_unset self RESIZE_CLUSTER = (resolution_events self ∅, inl e) ∧
  @invoke env_unset self LIST_CLUSTERS = (resolution_events self ∅, inl e) ∧
  outcome (@invoke env_unset self CREATE_CLUSTER) = inl e ∧
  create_calls (trace (@invoke env_unset self CREATE_CLUSTER)) = [].
Proof.
  intros self e.
  assert (Hunset : @explicit_unset_vdc env_unset self ∅).
  { unfold explicit_unset_vdc. repeat split; try by_compute; by_decide. }
  assert (Hnone : outcome (@_find_cluster_in_org env_unset self
                             (dict_get (req_spec self) "cluster_name")) = inr None)
    by by_compute.
  split; [exact Hunset|]. split; [exact Hnone|].
  destruct (@unset_vdc_is_an_error env_unset self ∅ Hunset) as [Hops Hcreate].
  split; [|split].
  - apply (Hops RESIZE_CLUSTER).
    do 3 (apply elem_of_cons; right). apply elem_of_cons. by left.
  - apply (Hops LIST_CLUSTERS).
    do 2 (apply elem_of_cons; right). apply elem_of_cons. by left.
  - exact (Hcreate Hnone).
Defined.

(** A user of Acme asks for [dup] in [vdc1]. *)
Lemma explicit_vdc_results_witness :
  let self := dup_in_vdc1_request in
  @explicit_valid_vdc env_acme self vcd_metadata ∧
  outcome (@invoke env_acme self GET_CLUSTER)
    = inr {| body := RDict dup_cluster; status_code := OK |} ∧
  outcome (@invoke env_acme self LIST_CLUSTERS)
    = inr {| body := RList [dup_cluster]; status_code := OK |} ∧
  outcome (@invoke env_acme self GET_CLUSTER_CONFIG)
    = inr {| body := RValue (VStr "kubeconfig"); status_code := OK |}.
Proof.
  intros self.
  assert (Hvalid : @explicit_valid_vdc env_acme self vcd_metadata).
  { unfold explicit_valid_vdc. repeat split; try by_compute. right. by_compute. }
  split; [exact Hvalid|].
  exact (@explicit_vdc_results env_acme self vcd_metadata Hvalid).
Defined.

(** A user of Acme looks for [new]. *)
Lemma no_pks_configuration_witness :
  let self := new_request in
  @get_pks_cache env_acme = None ∧
  @_create_pks_context_for_all_accounts_in_org env_acme self = ([], inr []) ∧
  broker_calls (trace (@_find_cluster_in_org env_acme self (VStr "new")))
    = [(vcd_broker_of self, GetClusterInfo (VStr "new"))] ∧
  outcome (@_find_cluster_in_org env_acme self (VStr "new")) = inr None.
Proof.
  intros self. split; [reflexivity|].
  destruct (@no_pks_configuration env_acme self (VStr "new") eq_refl)
    as (Henum & Hcalls & Hnone).
  split; [exact Henum|]. split; [exact Hcalls|].
  apply Hnone. by_decide.
Defined.

(** The administrator and the four accounts of the system. *)
Lemma enumeration_for_sysadmin_witness :
  let self := web_app_request in
  @on_is_sysadmin env_sysadmin = inr true ∧
  Forall2 (λ a ctx, @on_construct_pks_context env_sysadmin (account_context_args a)
                    = inr ctx) pks_accounts pks_contexts ∧
  @_create_pks_context_for_all_accounts_in_org env_sysadmin self
  = (EVcdClient IsSysadmin :: EPksCache GetAllPksAccountInfoInSystem
       :: map (λ a, EOvdcCache (ConstructPksContext (account_context_args a)))
            pks_accounts,
     inr pks_contexts).
Proof.
  intros self.
  assert (Hctxs : Forall2 (λ a ctx, @on_construct_pks_context env_sysadmin
                                      (account_context_args a) = inr ctx)
                    pks_accounts pks_contexts) by repeat constructor.
  split; [reflexivity|]. split; [exact Hctxs|].
  exact (@enumeration_for_sysadmin env_sysadmin self _ pks_accounts pks_contexts
           eq_refl eq_refl eq_refl Hctxs).
Defined.

(** A user of Umbrella, which has two accounts of its own. *)
Lemma enumeration_for_exclusive_accounts_witness :
  let self := umbrella_request ∅ in
  let accounts := [pks_account "1"; pks_account "2"] in
  let ctxs := [pks_context "1"; pks_context "2"] in
  @get_pks_cache env_exclusive = Some exclusive_pks_cache ∧
  @on_is_sysadmin env_exclusive = inr false ∧
  on_do_orgs_have_exclusive_pks_account exclusive_pks_cache = inr true ∧
  on_get_exclusive_pks_accounts_info_for_org exclusive_pks_cache
    (dict_get (session self) "org") = inr accounts ∧
  Forall2 (λ a ctx, @on_construct_pks_context env_exclusive (account_context_args a)
                    = inr ctx) accounts ctxs ∧
  @_create_pks_context_for_all_accounts_in_org env_exclusive self
  = (EVcdClient IsSysadmin :: EPksCache DoOrgsHaveExclusivePksAccount
       :: EPksCache (GetExclusivePksAccountsInfoForOrg (VStr "Umbrella"))
       :: map (λ a, EOvdcCache (ConstructPksContext (account_context_args a))) accounts,
     inr ctxs).
Proof.
  intros self accounts ctxs.
  assert (Haccounts : on_get_exclusive_pks_accounts_info_for_org exclusive_pks_cache
                        (dict_get (session self) "org") = inr accounts) by by_compute.
  assert (Hctxs : Forall2 (λ a ctx, @on_construct_pks_context env_exclusive
                                      (account_context_args a) = inr ctx)
                    accounts ctxs) by repeat constructor.
  split; [reflexivity|]. split; [reflexivity|]. split; [reflexivity|].
  split; [exact Haccounts|]. split; [exact Hctxs|].
  exact (@enumeration_for_exclusive_accounts env_exclusive self exclusive_pks_cache
           accounts ctxs eq_refl eq_refl eq_refl Haccounts Hctxs).
Defined.

(** The accounts of Umbrella: the context of [vc1] comes first and is
    the metadata of [vdc2], the later of the two vdcs on [vc1]. *)
Lemma enumeration_order_and_last_wins_witness :
  let env := env_umbrella 409 in
  let self := umbrella_request ∅ in
  let names := [VStr "vdc1"; VStr "vdc2"; VStr "vdc3"; VStr "vdc4"] in
  let metas := [pks_metadata "vdc1" "vc1"; pks_metadata "vdc2" "vc1"; vcd_metadata;
                pks_metadata "vdc4" "vc2"] in
  Forall2 (λ vdc name, vdc !! "name" = Some name) umbrella_vdcs names ∧
  Forall2 (@metadata_of env (dict_get (session self) "org")) names metas ∧
  ∃ pks_ctx_list,
    outcome (@_create_pks_context_for_all_accounts_in_org env self) = inr pks_ctx_list ∧
    map (λ ctx, dict_get ctx "vc") pks_ctx_list = [VStr "vc1"; VStr "vc2"] ∧
    pks_metadata "vdc1" "vc1" ∉ pks_ctx_list.
Proof.
  intros env self names metas.
  assert (Hnames : Forall2 (λ vdc name, vdc !! "name" = Some name) umbrella_vdcs names).
  { repeat constructor. }
  assert (Hmetas : Forall2 (@metadata_of env (dict_get (session self) "org")) names metas).
  { repeat constructor; unfold metadata_of; by_decide. }
  split; [exact Hnames|]. split; [exact Hmetas|].
  destruct (@enumeration_order_and_last_wins env self umbrella_pks_cache
              {| org_href := "org/umbrella" |} umbrella_vdcs names metas
              eq_refl eq_refl eq_refl eq_refl eq_refl Hnames Hmetas)
    as (pks_ctx_list & Ho & Horder & Hlast).
  exists pks_ctx_list. split; [exact Ho|]. split.
  - rewrite Horder. by_compute.
  - assert (Hlist : outcome (@_create_pks_context_for_all_accounts_in_org env self)
                    = inr [pks_metadata "vdc2" "vc1"; pks_metadata "vdc4" "vc2"])
      by by_compute.
    rewrite Ho in Hlist. injection Hlist as ->. by_decide.
Defined.

(** The administrator looks for [ghost] while the PKS cache is down. *)
Lemma search_stops_when_enumeration_fails_witness :
  let self := ghost_request in
  let cluster_spec := cluster_spec_of_name self in
  let e := OtherException "unavailable" in
  cluster_spec !! "cluster_name" = Some (VStr "ghost") ∧
  raises (@on_get_cluster_info env_cache_down (vcd_broker_of self) (VStr "ghost")) ∧
  outcome (@_create_pks_context_for_all_accounts_in_org env_cache_down self) = inl e ∧
  outcome (@_find_cluster_in_org env_cache_down self (VStr "ghost")) = inl e ∧
  probes (trace (@_find_cluster_in_org env_cache_down self (VStr "ghost")))
    = [vcd_broker_of self] ∧
  outcome (@_get_cluster_info env_cache_down self cluster_spec) = inl e ∧
  outcome (@_create_cluster env_cache_down self cluster_spec) = inl e ∧
  create_calls (trace (@_create_cluster env_cache_down self cluster_spec)) = [].
Proof.
  intros self cluster_spec e.
  assert (Hname : cluster_spec !! "cluster_name" = Some (VStr "ghost")) by by_compute.
  assert (Hvcd : raises (@on_get_cluster_info env_cache_down (vcd_broker_of self)
                           (VStr "ghost"))) by by_decide.
  assert (Henum : outcome (@_create_pks_context_for_all_accounts_in_org env_cache_down self)
                  = inl e) by by_compute.
  split; [exact Hname|]. split; [exact Hvcd|]. split; [exact Henum|].
  destruct (@search_stops_when_enumeration_fails env_cache_down self cluster_spec
              (VStr "ghost") e Hname Hvcd Henum)
    as (Hsearch & Hprobes & Hinfo & Hcreate & Hcalls).
  split; [exact Hsearch|]. split; [exact Hprobes|]. split; [exact (Hinfo eq_refl)|].
  split; [exact Hcreate | exact Hcalls].
Defined.

(** The administrator looks for [ghost]; the second account has no
    host on record. *)
Lemma search_needs_host_to_log_witness :
  let self := ghost_request in
  let pks_broker := PKSBroker (req_headers self) (req_spec self) in
  let pre := [pks_context "1"] in
  let pks_ctx := account_fields hostless_account in
  let post := [pks_context "3"] in
  raises (@on_get_cluster_info env_hostless (vcd_broker_of self) (VStr "ghost")) ∧
  outcome (@_create_pks_context_for_all_accounts_in_org env_hostless self)
    = inr (pre ++ pks_ctx :: post) ∧
  Forall has_host pre ∧
  Forall (λ ctx, raises (@on_get_cluster_info env_hostless (pks_broker ctx) (VStr "ghost")))
    pre ∧
  raises (@on_get_cluster_info env_hostless (pks_broker pks_ctx) (VStr "ghost")) ∧
  pks_ctx !! "host" = None ∧
  outcome (@_find_cluster_in_org env_hostless self (VStr "ghost")) = inl (KeyError "host") ∧
  probes (trace (@_find_cluster_in_org env_hostless self (VStr "ghost")))
    = [vcd_broker_of self; pks_broker (pks_context "1"); pks_broker pks_ctx].
Proof.
  intros self pks_broker pre pks_ctx post.
  assert (Hvcd : raises (@on_get_cluster_info env_hostless (vcd_broker_of self)
                           (VStr "ghost"))) by by_decide.
  assert (Henum : outcome (@_create_pks_context_for_all_accounts_in_org env_hostless self)
                  = inr (pre ++ pks_ctx :: post)) by by_compute.
  assert (Hhost : Forall has_host pre) by by_decide.
  assert (Hpre : Forall (λ ctx, raises (@on_get_cluster_info env_hostless (pks_broker ctx)
                                          (VStr "ghost"))) pre) by by_decide.
  assert (Hctx : raises (@on_get_cluster_info env_hostless (pks_broker pks_ctx)
                           (VStr "ghost"))) by by_decide.
  assert (Hnone : pks_ctx !! "host" = None) by by_compute.
  repeat (split; [assumption|]).
  exact (@search_needs_host_to_log env_hostless self (VStr "ghost") pre post pks_ctx
           Hvcd Henum Hhost Hpre Hctx Hnone).
Defined.

(** The administrator resizes, deletes and asks for the configuration
    of [web-app], which the third PKS account has. *)
Lemma search_operations_go_to_the_owner_witness :
  let self := web_app_request in
  let cluster_spec := cluster_spec_of_name self in
  let b := sysadmin_pks_broker self "3" in
  let search := trace (@_find_cluster_in_org env_sysadmin self (VStr "web-app")) in
  cluster_spec !! "cluster_name" = Some (VStr "web-app") ∧
  truthy (is_ovdc_present_in_request self) = false ∧
  outcome (@_find_cluster_in_org env_sysadmin self (VStr "web-app"))
    = inr (Some (web_app_cluster, b)) ∧
  web_app_cluster ≠ ∅ ∧
  @_resize_cluster env_sysadmin self cluster_spec
    = (search ++ [EBroker b (ResizeCluster web_app_cluster cluster_spec)],
       inr (RValue (VStr "task/resize"))) ∧
  @_delete_cluster env_sysadmin self cluster_spec
    = (search ++ [EBroker b (DeleteCluster (VStr "web-app"))],
       inr (RValue (VStr "task/delete"))) ∧
  @_get_cluster_config env_sysadmin self cluster_spec
    = (search ++ [EBroker b (GetClusterConfig (VStr "web-app"))],
       inr (RValue (VStr "kubeconfig"))).
Proof.
  intros self cluster_spec b search.
  assert (Hname : cluster_spec !! "cluster_name" = Some (VStr "web-app")) by by_compute.
  assert (Hflag : truthy (is_ovdc_present_in_request self) = false) by reflexivity.
  assert (Hfound : outcome (@_find_cluster_in_org env_sysadmin self (VStr "web-app"))
                   = inr (Some (web_app_cluster, b))) by by_compute.
  assert (Hne : web_app_cluster ≠ ∅) by by_decide.
  repeat (split; [assumption|]).
  destruct (@search_operations_go_to_the_owner env_sysadmin self cluster_spec
              (VStr "web-app") web_app_cluster b Hname Hflag Hfound Hne)
    as (Hresize & Hdelete & Hconfig).
  split; [exact Hresize|]. split; [exact Hdelete | exact Hconfig].
Defined.

(** The administrator resizes and deletes [ghost], which nobody has. *)
Lemma failed_resolution_changes_nothing_witness :
  let self := ghost_request in
  let cluster_spec := cluster_spec_of_name self in
  let e := cluster_not_found (VStr "ghost") in
  cluster_spec !! "cluster_name" = Some (VStr "ghost") ∧
  outcome (@_get_cluster_info env_sysadmin self cluster_spec) = inl e ∧
  outcome (@_resize_cluster env_sysadmin self cluster_spec) = inl e ∧
  outcome (@_delete_cluster env_sysadmin self cluster_spec) = inl e ∧
  Forall (λ bc : broker * broker_call, is_mutating bc.2 = false)
    (broker_calls (trace (@_resize_cluster env_sysadmin self cluster_spec))).
Proof.
  intros self cluster_spec e.
  assert (Hname : cluster_spec !! "cluster_name" = Some (VStr "ghost")) by by_compute.
  assert (Hfail : outcome (@_get_cluster_info env_sysadmin self cluster_spec) = inl e)
    by by_compute.
  split; [exact Hname|]. split; [exact Hfail|].
  destruct (@failed_resolution_changes_nothing env_sysadmin self cluster_spec
              (VStr "ghost") e Hname Hfail) as (Hresize & Hdelete & Hcalls).
  split; [by rewrite Hresize|]. split; [by rewrite Hdelete|]. by rewrite Hresize.
Defined.

(** The administrator lists the clusters while vCD does not answer,
    and while the third PKS account does not. *)
Lemma list_clusters_fails_with_a_broker_witness :
  let self := sysadmin_request ∅ in
  let pks_broker := PKSBroker (req_headers self) (req_spec self) in
  let e := OtherException "unavailable" in
  let pre := [pks_context "1"; pks_context "2"] in
  let per_account := [[web_app_cluster]; [web_app_cluster]] in
  truthy (is_ovdc_present_in_request self) = false ∧
  @on_list_clusters env_vcd_down (vcd_broker_of self) = inl e ∧
  @_list_clusters env_vcd_down self = ([EBroker (vcd_broker_of self) ListClusters], inl e) ∧
  @on_list_clusters env_third_down (vcd_broker_of self) = inr [dup_cluster] ∧
  outcome (@_create_pks_context_for_all_accounts_in_org env_third_down self)
    = inr (pre ++ pks_context "3" :: [pks_context "4"]) ∧
  Forall2 (λ ctx clusters, @on_list_clusters env_third_down (pks_broker ctx) = inr clusters)
    pre per_account ∧
  Forall (Forall well_formed_pks_cluster) per_account ∧
  @on_list_clusters env_third_down (pks_broker (pks_context "3")) = inl e ∧
  outcome (@_list_clusters env_third_down self) = inl e ∧
  broker_calls (trace (@_list_clusters env_third_down self))
  = [(vcd_broker_of self, ListClusters); (pks_broker (pks_context "1"), ListClusters);
     (pks_broker (pks_context "2"), ListClusters);
     (pks_broker (pks_context "3"), ListClusters)].
Proof.
  intros self pks_broker e pre per_account.
  assert (Hflag : truthy (is_ovdc_present_in_request self) = false) by reflexivity.
  assert (Hdown : @on_list_clusters env_vcd_down (vcd_broker_of self) = inl e)
    by reflexivity.
  assert (Hvcd : @on_list_clusters env_third_down (vcd_broker_of self) = inr [dup_cluster])
    by reflexivity.
  assert (Henum : outcome (@_create_pks_context_for_all_accounts_in_org env_third_down self)
                  = inr (pre ++ pks_context "3" :: [pks_context "4"])) by by_compute.
  assert (Hlists : Forall2 (λ ctx clusters,
                              @on_list_clusters env_third_down (pks_broker ctx)
                              = inr clusters) pre per_account).
  { repeat constructor. }
  assert (Hwf : Forall (Forall well_formed_pks_cluster) per_account).
  { repeat constructor;
      exists "CREATE", "succeeded", "cp--f3272127-9b7f--vdc-PKS1";
      repeat split; by_compute. }
  assert (Hthird : @on_list_clusters env_third_down (pks_broker (pks_context "3")) = inl e)
    by by_compute.
  split; [exact Hflag|]. split; [exact Hdown|].
  split.
  { destruct (@list_clusters_fails_with_a_broker env_vcd_down self [] [] [] ∅ [] e Hflag)
      as [Hfirst _].
    exact (Hfirst Hdown). }
  split; [exact Hvcd|]. split; [exact Henum|]. split; [exact Hlists|].
  split; [exact Hwf|]. split; [exact Hthird|].
  destruct (@list_clusters_fails_with_a_broker env_third_down self [dup_cluster] pre
              [pks_context "4"] (pks_context "3") per_account e Hflag) as [_ Hsecond].
  exact (Hsecond Hvcd Henum Hlists Hwf Hthird).
Defined.

(** The record of [web-app] without its status, and the record of a
    cluster that has no status. *)
Lemma truncated_cluster_info_status_default_witness :
  let self := web_app_request in
  let b := sysadmin_pks_broker self "3" in
  dict_get_default web_app_cluster "last-action" (VStr "") = VStr "CREATE" ∧
  dict_get_default web_app_cluster "compute-profile-name" (VStr "")
    = VStr "cp--f3272127-9b7f--vdc-PKS1" ∧
  ("status" ∉ ["name"]) ∧
  (∃ pks_cluster,
     @_get_truncated_cluster_info env_sysadmin self web_app_cluster b ["name"] = ([], inr pks_cluster) ∧
     pks_cluster !! "status" = Some (VStr "create ")) ∧
  dict_get_default bare_cluster "last-action" (VStr "") = VStr "" ∧
  dict_get_default bare_cluster "compute-profile-name" (VStr "") = VStr "" ∧
  "status" ∈ common_cluster_properties ∧
  (∀ status_str, bare_cluster !! "status" ≠ Some (VStr status_str)) ∧
  @_get_truncated_cluster_info env_sysadmin self bare_cluster b common_cluster_properties
    = ([], inl (AttributeError "lower")).
Proof.
  intros self b.
  assert (Hla : dict_get_default web_app_cluster "last-action" (VStr "") = VStr "CREATE")
    by by_compute.
  assert (Hcp : dict_get_default web_app_cluster "compute-profile-name" (VStr "")
                = VStr "cp--f3272127-9b7f--vdc-PKS1") by by_compute.
  assert (Hout : "status" ∉ ["name"]) by by_decide.
  assert (Hla' : dict_get_default bare_cluster "last-action" (VStr "") = VStr "")
    by by_compute.
  assert (Hcp' : dict_get_default bare_cluster "compute-profile-name" (VStr "") = VStr "")
    by by_compute.
  assert (Hin : "status" ∈ common_cluster_properties) by by_decide.
  assert (Hnone : ∀ status_str, bare_cluster !! "status" ≠ Some (VStr status_str)).
  { intros status_str. assert (Hl : bare_cluster !! "status" = None) by by_compute.
    rewrite Hl. discriminate. }
  split; [exact Hla|]. split; [exact Hcp|]. split; [exact Hout|].
  split.
  { destruct (@truncated_cluster_info_status_default env_sysadmin self web_app_cluster b ["name"]
                "CREATE" "cp--f3272127-9b7f--vdc-PKS1" Hla Hcp) as [Hdefault _].
    exact (Hdefault Hout). }
  split; [exact Hla'|]. split; [exact Hcp'|]. split; [exact Hin|]. split; [exact Hnone|].
  destruct (@truncated_cluster_info_status_default env_sysadmin self bare_cluster b
              common_cluster_properties "" "" Hla' Hcp') as [_ Hfails].
  exact (Hfails Hin Hnone).
Defined.

(** The record of a cluster with a name, a status and a vdc of its
    own, asked for its name and uuid, and for its status too. *)
Lemma truncated_cluster_info_keys_witness :
  let self := web_app_request in
  let b := sysadmin_pks_broker self "3" in
  dict_get_default plain_cluster "last-action" (VStr "") = VStr "" ∧
  dict_get_default plain_cluster "compute-profile-name" (VStr "") = VStr "" ∧
  ("status" ∉ ["name"; "uuid"]) ∧
  plain_cluster !! "status" = Some (VStr "Succeeded") ∧
  plain_cluster !! "compute-profile-name" = None ∧
  (∃ pks_cluster,
     @_get_truncated_cluster_info env_sysadmin self plain_cluster b ["name"; "uuid"]
       = ([], inr pks_cluster) ∧
     dom pks_cluster = ({["name"; "uuid"; "vdc"; "status"]} : gset string) ∧
     pks_cluster !! "name" = Some (VStr "plain") ∧
     pks_cluster !! "uuid" = Some VNone ∧
     pks_cluster !! "vdc" = Some (VStr "")) ∧
  (∃ pks_cluster,
     @_get_truncated_cluster_info env_sysadmin self plain_cluster b
       ["name"; "status"; "uuid"] = ([], inr pks_cluster) ∧
     dom pks_cluster = ({["name"; "uuid"; "vdc"; "status"]} : gset string) ∧
     pks_cluster !! "name" = Some (VStr "plain") ∧
     pks_cluster !! "vdc" = Some (VStr "")).
Proof.
  intros self b.
  assert (Hla : dict_get_default plain_cluster "last-action" (VStr "") = VStr "")
    by by_compute.
  assert (Hcp : dict_get_default plain_cluster "compute-profile-name" (VStr "") = VStr "")
    by by_compute.
  assert (Hout : "status" ∉ ["name"; "uuid"]) by by_decide.
  assert (Hst : plain_cluster !! "status" = Some (VStr "Succeeded")) by by_compute.
  assert (Hnone : plain_cluster !! "compute-profile-name" = None) by by_compute.
  split; [exact Hla|]. split; [exact Hcp|]. split; [exact Hout|]. split; [exact Hst|].
  split; [exact Hnone|]. split.
  - destruct (@truncated_cluster_info_keys env_sysadmin self plain_cluster b
                ["name"; "uuid"] "" "" Hla Hcp)
      as (pks_cluster & Heq & Hdom & Hpass & _ & Hvdc); [by intros Hin|].
    exists pks_cluster. split; [exact Heq|]. split; [|split; [|split]].
    + rewrite Hdom. by_decide.
    + rewrite (Hpass "name"); [by_compute | by_decide | by_decide | by_decide].
    + rewrite (Hpass "uuid"); [by_compute | by_decide | by_decide | by_decide].
    + exact (Hvdc Hnone).
  - destruct (@truncated_cluster_info_keys env_sysadmin self plain_cluster b
                ["name"; "status"; "uuid"] "" "" Hla Hcp)
      as (pks_cluster & Heq & Hdom & Hpass & _ & Hvdc); [intros _; by eexists|].
    exists pks_cluster. split; [exact Heq|]. split; [|split].
    + rewrite Hdom. by_decide.
    + rewrite (Hpass "name"); [by_compute | by_decide | by_decide | by_decide].
    + exact (Hvdc Hnone).
Defined.

(** The vdc of [web-app], from its compute profile name. *)
Lemma truncated_cluster_info_recovers_vdc_witness :
  let self := web_app_request in
  let b := sysadmin_pks_broker self "3" in
  "status" ∈ common_cluster_properties ∧
  pks_cluster_fields web_app_cluster "CREATE" "succeeded"
    ("cp--f3272127-9b7f" +:+ "--" +:+ "vdc-PKS1") ∧
  ends_with_dash "cp--f3272127-9b7f" = false ∧
  has_dashes "vdc-PKS1" = false ∧
  ∃ pks_cluster,
    outcome (@_get_truncated_cluster_info env_sysadmin self web_app_cluster b common_cluster_properties)
      = inr pks_cluster ∧
    pks_cluster !! "vdc" = Some (VStr "vdc-PKS1").
Proof.
  intros self b.
  assert (Hkey : "status" ∈ common_cluster_properties) by by_decide.
  assert (Hfields : pks_cluster_fields web_app_cluster "CREATE" "succeeded"
                      ("cp--f3272127-9b7f" +:+ "--" +:+ "vdc-PKS1")).
  { repeat split; by_compute. }
  split; [exact Hkey|]. split; [exact Hfields|].
  split; [reflexivity|]. split; [reflexivity|].
  exact (@truncated_cluster_info_recovers_vdc env_sysadmin self web_app_cluster b
           common_cluster_properties "CREATE" "succeeded" "cp--f3272127-9b7f" "vdc-PKS1"
           Hkey Hfields eq_refl eq_refl).
Defined.

(** A user of Umbrella lists the vdcs. *)
Lemma list_ovdcs_entries_witness :
  let self := umbrella_request ∅ in
  let orgs := [{| org_href := "org/umbrella" |}] in
  @listed_orgs env_directory orgs ∧
  Forall2 (@org_listing env_directory) orgs [umbrella_entries] ∧
  outcome (@_list_ovdcs env_directory self) = inr umbrella_entries ∧
  @emits_only _ listing_event (@_list_ovdcs env_directory self).
Proof.
  intros self orgs.
  assert (Horgs : @listed_orgs env_directory orgs).
  { right. split; [reflexivity|]. by exists {| org_href := "org/umbrella" |}. }
  assert (Hentries : Forall2 (@org_listing env_directory) orgs [umbrella_entries]).
  { constructor; [|constructor].
    exists umbrella_vdcs, (VStr "Umbrella").
    split; [reflexivity|]. split; [reflexivity|].
    repeat (constructor;
            [eexists _, _, _; split; [reflexivity|]; split; [reflexivity|];
             split; [reflexivity | by_compute]|]).
    constructor. }
  split; [exact Horgs|]. split; [exact Hentries|].
  exact (@list_ovdcs_entries env_directory self orgs [umbrella_entries] Horgs Hentries).
Defined.

(** Umbrella enables [vdc5] for PKS under the name [VDC-5]: the
    profile is created as [cp--id5--VDC-5] in the availability zone
    [az-VDC-5], placed as the account records; the context is stored
    with the name computed for [vdc5]. *)
Lemma enable_ovdc_with_pks_witness :
  let env := env_profile_created in
  let self := enable_renamed_request in
  let ovdc := {| resource := {["name" := VStr "vdc5"]} |} in
  let pvdc_info := {| vc := VStr "vc1"; pvdc_fields := ∅ |} in
  let args := ovdc_context_args placed_account pvdc_info ∅ (VStr "cp--id5--vdc5")
                (VStr "small") in
  let pks_ctx := account_fields placed_account in
  let pksbroker := PKSBroker (req_headers self) (req_spec self) pks_ctx in
  let params := compute_profile_params_of self pks_ctx (VStr "cp--id5--VDC-5") in
  req_spec self !! "pks_plans" = Some (VStr "small") ∧
  req_spec self !! (@CONTAINER_PROVIDER_KEY env) = Some (VStr (@CtrProvType_PKS env)) ∧
  @on_get_compute_profile_name env (VStr "id5") (VStr "vdc5") = inr (VStr "cp--id5--vdc5") ∧
  @on_get_compute_profile_name env (VStr "id5") (VStr "VDC-5")
    = inr (VStr "cp--id5--VDC-5") ∧
  @on_construct_pks_context env args = inr pks_ctx ∧
  @on_create_compute_profile env pksbroker params = inr () ∧
  trace (@invoke env self ENABLE_OVDC)
  = [EOvdcCache (GetOvdc (VStr "id5"));
     EOvdcCache (GetPvdcId ovdc);
     EPksCache (GetPvdcInfo (VStr "pvdc-1"));
     EPksCache (GetPksAccountInfo (VStr "Umbrella") (VStr "vc1"));
     EPksCache (GetNsxtInfo (VStr "vc1"));
     EOvdcCache (GetComputeProfileName (VStr "id5") (VStr "vdc5"));
     EOvdcCache (ConstructPksContext args);
     EOvdcCache (GetComputeProfileName (VStr "id5") (VStr "VDC-5"));
     ELog (LogCreatingComputeProfile (VStr "cp--id5--VDC-5"));
     EBroker pksbroker (CreateComputeProfile params);
     EOvdcCache (SetOvdcContainerProviderMetadata ovdc (Some pks_ctx) (VStr "pks"))] ∧
  outcome (@invoke env self ENABLE_OVDC)
  = inr {| body := RDict {["task_href" := VStr "task/enable"]}; status_code := ACCEPTED |} ∧
  params !! "cp_name" = Some (VStr "cp--id5--VDC-5") ∧
  params !! "az_name" = Some (VStr "az-VDC-5") ∧
  params !! "description" = Some (VStr "Umbrella--VDC-5--id5") ∧
  params !! "cpi" = Some (VStr "cpi-1") ∧
  params !! "datacenter_name" = Some (VStr "dc-1") ∧
  params !! "cluster_name" = Some (VStr "cluster-1") ∧
  params !! "ovdc_rp_name" = Some (VStr "VDC-5 (id5)") ∧
  dom params = {[ "cp_name"; "az_name"; "description"; "cpi"; "datacenter_name";
                  "cluster_name"; "ovdc_rp_name" ]}.
Proof.
  intros env self ovdc pvdc_info args pks_ctx pksbroker params.
  assert (Hplans : req_spec self !! "pks_plans" = Some (VStr "small")) by by_compute.
  assert (Hprov : req_spec self !! (@CONTAINER_PROVIDER_KEY env)
                  = Some (VStr (@CtrProvType_PKS env))) by by_compute.
  assert (Hstored : @on_get_compute_profile_name env (VStr "id5") (VStr "vdc5")
                    = inr (VStr "cp--id5--vdc5")) by by_compute.
  assert (Hcreated : @on_get_compute_profile_name env (VStr "id5") (VStr "VDC-5")
                     = inr (VStr "cp--id5--VDC-5")) by by_compute.
  assert (Hctx : @on_construct_pks_context env args = inr pks_ctx) by reflexivity.
  assert (Hcreate : @on_create_compute_profile env pksbroker params = inr ())
    by reflexivity.
  split; [exact Hplans|]. split; [exact Hprov|]. split; [exact Hstored|].
  split; [exact Hcreated|]. split; [exact Hctx|]. split; [exact Hcreate|].
  assert (Hid : dict_get (req_spec self) "ovdc_id" = VStr "id5") by by_compute.
  assert (Horg : dict_get (req_spec self) "org_name" = VStr "Umbrella") by by_compute.
  assert (Hname : dict_get (req_spec self) "ovdc_name" = VStr "VDC-5") by by_compute.
  assert (Hres : dict_get (resource ovdc) "name" = VStr "vdc5") by by_compute.
  assert (Hcpi : dict_get pks_ctx "cpi" = VStr "cpi-1") by by_compute.
  assert (Hdc : dict_get pks_ctx "datacenter" = VStr "dc-1") by by_compute.
  assert (Hcl : dict_get pks_ctx "cluster" = VStr "cluster-1") by by_compute.
  pose proof (@enable_ovdc_with_pks env self (VStr "small") (VStr "pvdc-1")
                (VStr "cp--id5--vdc5") (VStr "cp--id5--VDC-5") ovdc placed_pks_cache
                pvdc_info placed_account ∅ pks_ctx) as Henable.
  cbv zeta in Henable. rewrite Hid, Horg, Hname, Hres, Hcpi, Hdc, Hcl in Henable.
  exact (Henable Hplans Hprov eq_refl eq_refl eq_refl eq_refl eq_refl eq_refl
           Hstored Hctx Hcreated Hcreate).
Defined.

End MoreWitnesses.
